(** * PVE provisioning daemon: identifier allocation and provisioning pipeline

    A shallow embedding of [src/utils/helpers.ts] (class [VMIdManager] and
    [sanitizeVMName]), [src/utils/shell.ts] ([runCommand]),
    [src/config/configManager.ts] ([getTemplate], [getNetworkConfig]) and
    [src/services/vmProvisioningService.ts] ([provisionVM] and its private
    steps), followed by the properties the specification states about them.

    Modelling conventions.
    - A JavaScript number holding an identifier, a VLAN tag, a core count or
      a timestamp is a [Z]; the embedding is exact while magnitudes stay
      below 2^53, where JavaScript arithmetic on integers is exact.  [NaN]
      is [None].  A property whose conclusion depends on exact arithmetic
      (a successor, a decimal text read back) carries the hypothesis
      [safe_integer] or [safe_window].
    - Strings are [string] (one [ascii] per code unit); the white space
      recognised by [trim], [parseInt] and [\s] is the ASCII white space and
      the letters [toLowerCase] changes are the ASCII letters.  A property
      about text read from a file carries the hypothesis [ascii_text].
    - [Set<number>] is [gset Z].
    - Every external effect goes through an explicit world: the outcome of
      each shell command line, the file system as seen by [fs], the clock.
      The world is fixed while one call runs and may be another one for the
      next call.  The commands handed to [runCommand] are recorded in a
      call log.
    - An [async] function is a computation in a state-and-error monad; the
      interleaving of several in-flight calls at their [await] points is
      modelled separately, as a step relation, in [Module Async]. *)

From Stdlib Require Import ZArith Lia Ascii.
From stdpp Require Import base numbers list strings pretty gmap.

Local Open Scope Z_scope.

(** ** JavaScript string and number primitives used by the sources *)

Module JS.

(** [a || b] on numbers: [a] is falsy when it is [NaN] or [0]. *)
Definition num_or (a : option Z) (b : Z) : Z :=
  match a with
  | Some n => if Z.eqb n 0 then b else n
  | None => b
  end.

(** [a || b] on strings: [a] is falsy when it is [undefined] or empty. *)
Definition str_truthy (s : string) : bool :=
  match s with EmptyString => false | String _ _ => true end.

Definition str_or (a : option string) (b : string) : string :=
  match a with
  | Some s => if str_truthy s then s else b
  | None => b
  end.

Fixpoint trimStart (s : string) : string :=
  match s with
  | EmptyString => EmptyString
  | String c s' => if Ascii.is_space c then trimStart s' else s
  end.

Fixpoint trimEnd (s : string) : string :=
  match s with
  | EmptyString => EmptyString
  | String c s' =>
      match trimEnd s' with
      | EmptyString => if Ascii.is_space c then EmptyString else String c EmptyString
      | t => String c t
      end
  end.

(** [s.trim()], on text whose white space is ASCII. *)
Definition trim (s : string) : string := trimEnd (trimStart s).

(** Value of a character as a digit in the given radix (10 or 16). *)
Definition digit_val (radix : N) (c : ascii) : option N :=
  let n := N_of_ascii c in
  let v :=
    if (48 <=? n)%N && (n <=? 57)%N then Some (n - 48)%N
    else if (97 <=? n)%N && (n <=? 122)%N then Some (n - 87)%N
    else if (65 <=? n)%N && (n <=? 90)%N then Some (n - 55)%N
    else None in
  match v with
  | Some d => if (d <? radix)%N then Some d else None
  | None => None
  end.

(** Value of the longest prefix of digits, continuing from [acc]. *)
Fixpoint digits_go (radix acc : N) (s : string) : N :=
  match s with
  | EmptyString => acc
  | String c s' =>
      match digit_val radix c with
      | Some d => digits_go radix (acc * radix + d)%N s'
      | None => acc
      end
  end.

Definition parse_digits (radix : N) (s : string) : option N :=
  match s with
  | EmptyString => None
  | String c _ =>
      match digit_val radix c with
      | Some _ => Some (digits_go radix 0%N s)
      | None => None
      end
  end.

(** [parseInt(s)] with no radix argument: leading white space, an optional
    sign, an optional [0x]/[0X] prefix selecting radix 16, then the longest
    prefix of digits; [NaN] when there is no digit.  The integer returned is
    the one JavaScript returns when it is a safe integer and the white space
    skipped is ASCII (a larger value is rounded by JavaScript, exactly kept
    here). *)
Definition strip_sign (s : string) : bool * string :=
  match s with
  | String c r =>
      if Ascii.eqb c "-"%char then (true, r)
      else if Ascii.eqb c "+"%char then (false, r)
      else (false, s)
  | EmptyString => (false, s)
  end.

Definition strip_radix (s : string) : N * string :=
  match s with
  | String c0 (String c1 r) =>
      if Ascii.eqb c0 "0"%char && (Ascii.eqb c1 "x"%char || Ascii.eqb c1 "X"%char)
      then (16%N, r)
      else (10%N, s)
  | _ => (10%N, s)
  end.

Definition parseInt (s : string) : option Z :=
  let '(neg, s2) := strip_sign (trimStart s) in
  let '(radix, s3) := strip_radix s2 in
  match parse_digits radix s3 with
  | Some n => Some (if neg then - Z.of_N n else Z.of_N n)
  | None => None
  end.

(** [n.toString()] on an integer: its decimal text, as JavaScript prints
    integers below [1e21] in magnitude. *)
Definition toString (n : Z) : string := pretty n.

(** [s.split("\n")] *)
Fixpoint split_lines (s : string) : list string :=
  match s with
  | EmptyString => [EmptyString]
  | String c s' =>
      match split_lines s' with
      | [] => [String c EmptyString]
      | l :: ls =>
          if Ascii.eqb c "010"%char then EmptyString :: l :: ls
          else String c l :: ls
      end
  end.

(** [s.split(/\s+/)[0]] for a trimmed [s]: the characters before the
    first white space. *)
Fixpoint first_field (s : string) : string :=
  match s with
  | EmptyString => EmptyString
  | String c s' => if Ascii.is_space c then EmptyString else String c (first_field s')
  end.

Fixpoint strip_prefix (p s : string) : option string :=
  match p, s with
  | EmptyString, _ => Some s
  | String a p', String b s' => if Ascii.eqb a b then strip_prefix p' s' else None
  | String _ _, EmptyString => None
  end.

(** [s.endsWith(suffix)] *)
Fixpoint endsWith (s suffix : string) : bool :=
  String.eqb s suffix
  || match s with
     | EmptyString => false
     | String _ s' => endsWith s' suffix
     end.

(** [s.replace(pat, "")] with a string pattern: the first occurrence of
    [pat] is removed. *)
Fixpoint remove_first (pat s : string) : string :=
  match strip_prefix pat s with
  | Some rest => rest
  | None =>
      match s with
      | EmptyString => EmptyString
      | String c s' => String c (remove_first pat s')
      end
  end.

Definition lower_char (c : ascii) : ascii :=
  let n := N_of_ascii c in
  if (65 <=? n)%N && (n <=? 90)%N then ascii_of_N (n + 32) else c.

(** [s.toLowerCase()], on text whose letters are ASCII. *)
Fixpoint toLowerCase (s : string) : string :=
  match s with
  | EmptyString => EmptyString
  | String c s' => String (lower_char c) (toLowerCase s')
  end.

(** Membership in the character class [[a-zA-Z0-9-_]]. *)
Definition name_char (c : ascii) : bool :=
  let n := N_of_ascii c in
  ((97 <=? n)%N && (n <=? 122)%N) || ((65 <=? n)%N && (n <=? 90)%N)
  || ((48 <=? n)%N && (n <=? 57)%N) || Ascii.eqb c "-"%char || Ascii.eqb c "_"%char.

(** [xs.join(sep)] *)
Fixpoint join (sep : string) (xs : list string) : string :=
  match xs with
  | [] => EmptyString
  | [x] => x
  | x :: rest => x +:+ sep +:+ join sep rest
  end.

End JS.


(** ** The outside world: shell, file system, clock *)

(** The command lines the sources hand to [runCommand]; [command_line]
    renders each one as the source's template string does. *)
Inductive command : Type :=
| PveshClusterResources
| QmList
| Hostname
| QmClone (templateId vmid : Z) (name : string)
| QmSetCoresMemory (vmid cores memory : Z)
| QmSetNet0 (vmid : Z) (netConfig : string)
| QmResize (vmid : Z) (diskSize : string)
| QmSetCiuser (vmid : Z) (username : string)
| QmSetCipassword (vmid : Z) (password : string)
| QmSetName (vmid : Z) (hostname : string)
| QmSetSshkeys (vmid : Z) (sshKey : string)
| QmStart (vmid : Z)
| QmStopSkiplock (vmid : Z)
| QmDestroySkiplock (vmid : Z)
| OrTrue (c : command).

Definition dquote : string := String "034"%char EmptyString.
Definition squote : string := String "039"%char EmptyString.

Fixpoint command_line (c : command) : string :=
  match c with
  | PveshClusterResources =>
      "pvesh get /cluster/resources --type vm --output-format json"
  | QmList => "qm list"
  | Hostname => "hostname"
  | QmClone templateId vmid name =>
      "qm clone " +:+ pretty templateId +:+ " " +:+ pretty vmid
      +:+ " --name " +:+ dquote +:+ name +:+ dquote +:+ " --full"
  | QmSetCoresMemory vmid cores memory =>
      "qm set " +:+ pretty vmid +:+ " --cores " +:+ pretty cores
      +:+ " --memory " +:+ pretty memory
  | QmSetNet0 vmid netConfig => "qm set " +:+ pretty vmid +:+ " --net0 " +:+ netConfig
  | QmResize vmid diskSize => "qm resize " +:+ pretty vmid +:+ " scsi0 " +:+ diskSize
  | QmSetCiuser vmid username =>
      "qm set " +:+ pretty vmid +:+ " --ciuser " +:+ dquote +:+ username +:+ dquote
  | QmSetCipassword vmid password =>
      "qm set " +:+ pretty vmid +:+ " --cipassword " +:+ squote +:+ password +:+ squote
  | QmSetName vmid hostname =>
      "qm set " +:+ pretty vmid +:+ " --name " +:+ dquote +:+ hostname +:+ dquote
  | QmSetSshkeys vmid sshKey =>
      "qm set " +:+ pretty vmid +:+ " --sshkeys " +:+ squote +:+ sshKey +:+ squote
  | QmStart vmid => "qm start " +:+ pretty vmid
  | QmStopSkiplock vmid => "qm stop " +:+ pretty vmid +:+ " --skiplock"
  | QmDestroySkiplock vmid => "qm destroy " +:+ pretty vmid +:+ " --skiplock"
  | OrTrue c => command_line c +:+ " || true"
  end.

(** What [child_process.exec] reports for a command line: the exit status
    with the captured output, or a failure to run the command line at all
    (the callback's [err] carries no exit status then; [shell.ts] allows for
    it in [err.code || 1]). *)
Inductive exec_outcome : Type :=
| Exited (code : Z) (stdout stderr : string)
| ExecFailed.

(** The value [JSON.parse] returns. Numbers are the integers. *)
#[local] Unset Elimination Schemes.
Inductive jsvalue : Type :=
| JNull
| JBool (b : bool)
| JNum (n : Z)
| JStr (s : string)
| JArr (xs : list jsvalue)
| JObj (fields : list (string * jsvalue)).
#[local] Set Elimination Schemes.

Record World : Type := {
  (** outcome of a command line that is not of the form [c || true] *)
  sh : command -> exec_outcome;
  (** [JSON.parse]; [None] when it throws *)
  JSON_parse : string -> option jsvalue;
  (** [fs.promises.access(path)] resolves *)
  fs_access : string -> bool;
  (** [fs.promises.readdir(dir)]; [None] when it rejects *)
  fs_readdir : string -> option (list string);
  (** [fs.promises.writeFile(VM_ID_FILE, _)] resolves *)
  counter_writable : bool;
  (** [Date.now()] *)
  now : Z;
  (** [DatabaseService.updateVMStatus] resolves *)
  db_ok : bool
}.

(** The shell runs [c || true] by running [c] and, whatever its status,
    ending with status 0. *)
Fixpoint exec (w : World) (c : command) : exec_outcome :=
  match c with
  | OrTrue c' =>
      match exec w c' with
      | Exited _ out err => Exited 0 out err
      | ExecFailed => ExecFailed
      end
  | _ => sh w c
  end.

(** ** Program state and the monad of [async] functions *)

(** Thrown values: the [Error] that [runCommand] rejects with, and the
    [Error]s the sources construct themselves. *)
Inductive exn : Type :=
| CommandFailed (cmd : command) (exitCode : option Z) (stderr : string)
| JsError (message : string).

Inductive result (A : Type) : Type :=
| Ok (a : A)
| Err (e : exn).
Arguments Ok {A} a.
Arguments Err {A} e.

(** The static fields of [VMIdManager], the counter file, the call log of
    [runCommand] (most recent call first) and the status updates that
    reached the database. *)
Record State : Type := {
  nextId : option Z;
  vmCache : option (gset Z);
  cacheExpiry : Z;
  counter_file : option string;
  calls : list command;
  db_status : list (Z * string)
}.

Definition set_nextId (v : option Z) (s : State) : State :=
  {| nextId := v; vmCache := vmCache s; cacheExpiry := cacheExpiry s;
     counter_file := counter_file s; calls := calls s; db_status := db_status s |}.
Definition set_vmCache (v : option (gset Z)) (s : State) : State :=
  {| nextId := nextId s; vmCache := v; cacheExpiry := cacheExpiry s;
     counter_file := counter_file s; calls := calls s; db_status := db_status s |}.
Definition set_cacheExpiry (v : Z) (s : State) : State :=
  {| nextId := nextId s; vmCache := vmCache s; cacheExpiry := v;
     counter_file := counter_file s; calls := calls s; db_status := db_status s |}.
Definition set_counter_file (v : option string) (s : State) : State :=
  {| nextId := nextId s; vmCache := vmCache s; cacheExpiry := cacheExpiry s;
     counter_file := v; calls := calls s; db_status := db_status s |}.
Definition set_calls (v : list command) (s : State) : State :=
  {| nextId := nextId s; vmCache := vmCache s; cacheExpiry := cacheExpiry s;
     counter_file := counter_file s; calls := v; db_status := db_status s |}.
Definition set_db_status (v : list (Z * string)) (s : State) : State :=
  {| nextId := nextId s; vmCache := vmCache s; cacheExpiry := cacheExpiry s;
     counter_file := counter_file s; calls := calls s; db_status := v |}.

(** A process that has just started: no static field set yet. *)
Definition fresh_process (file : option string) : State :=
  {| nextId := None; vmCache := None; cacheExpiry := 0;
     counter_file := file; calls := []; db_status := [] |}.

Definition M (A : Type) : Type := World -> State -> result A * State.

Definition ret {A} (a : A) : M A := fun _ s => (Ok a, s).
Definition throw {A} (e : exn) : M A := fun _ s => (Err e, s).
Definition bind {A B} (m : M A) (k : A -> M B) : M B :=
  fun w s =>
    match m w s with
    | (Ok a, s') => k a w s'
    | (Err e, s') => (Err e, s')
    end.
(** [try { m } catch (e) { h e }] *)
Definition try_catch {A} (m : M A) (h : exn -> M A) : M A :=
  fun w s =>
    match m w s with
    | (Ok a, s') => (Ok a, s')
    | (Err e, s') => h e w s'
    end.
Definition get {A} (f : State -> A) : M A := fun _ s => (Ok (f s), s).
Definition modify (f : State -> State) : M unit := fun _ s => (Ok tt, f s).
Definition ask {A} (f : World -> A) : M A := fun w s => (Ok (f w), s).

Declare Scope m_scope.
Delimit Scope m_scope with M.
Notation "'let*' x ':=' m 'in' k" := (bind m (fun x => k))
  (at level 10, x name, m at level 100, k at level 200) : m_scope.
Notation "m ';;' k" := (bind m (fun _ => k))
  (at level 100, k at level 200, right associativity) : m_scope.
Local Open Scope m_scope.

(** ** [src/utils/shell.ts] *)

(** [ShellExecutor.runCommand]: resolves with the trimmed standard output
    when [exec] reports no error, rejects otherwise. *)
Definition runCommand (c : command) : M string :=
  fun w s =>
    let s' := set_calls (c :: calls s) s in
    match exec w c with
    | Exited code out err =>
        if Z.eqb code 0 then (Ok (JS.trim out), s')
        else (Err (CommandFailed c (Some code) err), s')
    | ExecFailed => (Err (CommandFailed c None EmptyString), s')
    end.

(** ** [src/utils/helpers.ts]: class [VMIdManager] *)

Module VMIdManager.

Definition VM_ID_FILE : string := "/tmp/proxmox-daemon-vmid".
Definition CACHE_TTL : Z := 30000.
Definition maxAttempts : nat := 1000.

(** [saveVMId]: a failed write is caught and only warned about (and so
    is [this.nextId!.toString()] on [null]). *)
Definition saveVMId : M unit :=
  fun w s =>
    match nextId s with
    | Some n =>
        if counter_writable w
        then (Ok tt, set_counter_file (Some (JS.toString n)) s)
        else (Ok tt, s)
    | None => (Ok tt, s)
    end.

(** [initializeVMId]: the counter is the file's integer, or 1001 when
    that is [NaN] or 0; a file that cannot be read seeds 1001 and saves. *)
Definition initializeVMId : M unit :=
  let* file := get counter_file in
  match file with
  | Some data =>
      modify (set_nextId (Some (JS.num_or (JS.parseInt (JS.trim data)) 1001)))
  | None =>
      modify (set_nextId (Some 1001)) ;;
      saveVMId
  end.

Definition configDir (nodeName : string) : string :=
  "/etc/pve/nodes/" +:+ nodeName +:+ "/qemu-server/".
Definition configPath (nodeName : string) (vmid : Z) : string :=
  configDir nodeName +:+ JS.toString vmid +:+ ".conf".

(** [quickIdCheck]: [true] when the candidate's config file is
    accessible on this node; any failure on the way answers [false]. *)
Definition quickIdCheck (vmid : Z) : M bool :=
  try_catch
    (let* hostname := runCommand Hostname in
     let nodeName := JS.trim hostname in
     let* accessible := ask (fun w => fs_access w (configPath nodeName vmid)) in
     if accessible : bool then ret true
     else throw (JsError "ENOENT"))
    (fun _ => ret false).

Definition cache_add (vmid : Z) : M unit :=
  modify (fun s =>
    match vmCache s with
    | Some c => set_vmCache (Some ({[ vmid ]} ∪ c)) s
    | None => s
    end).

(** [obj.vmid] on a parsed object. *)
Fixpoint field (key : string) (fields : list (string * jsvalue)) : option jsvalue :=
  match fields with
  | [] => None
  | (k, v) :: rest =>
      match field key rest with
      | Some v' => Some v'
      | None => if String.eqb k key then Some v else None
      end
  end.

(** The body of [for (const vm of vms)] in the cluster tier: reading
    [vm.vmid] throws on [null]; a nonzero number is cached. *)
Fixpoint addClusterVMs (vms : list jsvalue) : M unit :=
  match vms with
  | [] => ret tt
  | vm :: rest =>
      match vm with
      | JNull => throw (JsError "TypeError: null is not an object")
      | JObj fields =>
          match field "vmid" fields with
          | Some (JNum n) => if Z.eqb n 0 then ret tt else cache_add n
          | _ => ret tt
          end
      | _ => ret tt
      end ;;
      addClusterVMs rest
  end.

(** Tier 1: the cluster-wide query. *)
Definition clusterTier (now : Z) : M unit :=
  let* clusterVMs := runCommand PveshClusterResources in
  let* parsed := ask (fun w => JSON_parse w clusterVMs) in
  match parsed with
  | None => throw (JsError "SyntaxError: JSON Parse error")
  | Some (JArr vms) => addClusterVMs vms
  | Some (JStr _) => ret tt
  | Some _ => throw (JsError "TypeError: vms is not iterable")
  end ;;
  modify (set_cacheExpiry (now + CACHE_TTL)).

Fixpoint addListLines (lines : list string) : M unit :=
  match lines with
  | [] => ret tt
  | line :: rest =>
      match JS.parseInt (JS.first_field (JS.trim line)) with
      | Some vmid => cache_add vmid
      | None => ret tt
      end ;;
      addListLines rest
  end.

(** Tier 2: [qm list] on this host. *)
Definition listTier (now : Z) : M unit :=
  let* listOutput := runCommand QmList in
  addListLines (JS.split_lines listOutput) ;;
  modify (set_cacheExpiry (now + CACHE_TTL)).

Fixpoint addConfigFiles (files : list string) : M unit :=
  match files with
  | [] => ret tt
  | file :: rest =>
      (if JS.endsWith file ".conf" then
         match JS.parseInt (JS.remove_first ".conf" file) with
         | Some vmid => cache_add vmid
         | None => ret tt
         end
       else ret tt) ;;
      addConfigFiles rest
  end.

(** Tier 3: the config files of this node. *)
Definition filesTier (now : Z) : M unit :=
  let* hostname := runCommand Hostname in
  let nodeName := JS.trim hostname in
  let* listing := ask (fun w => fs_readdir w (configDir nodeName)) in
  match listing with
  | None => throw (JsError "ENOENT")
  | Some files =>
      addConfigFiles files ;;
      modify (set_cacheExpiry (now + CACHE_TTL / 2))
  end.

(** [refreshVMCache]. The three tiers are nested [try]/[catch] blocks:
    the cluster tier returns on success; its failure falls through to the
    local list, whose failure is handled by the file scan, whose failure
    sets a 5 second expiry.  The outermost [try] only guards the dynamic
    [import] of the shell module, which is taken to resolve (as are the
    dynamic imports of [fs] in the other methods). *)
Definition refreshVMCache : M unit :=
  let* now := ask now in
  let* cache := get vmCache in
  let* expiry := get cacheExpiry in
  if (match cache with Some _ => true | None => false end) && (now <? expiry)
  then ret tt
  else
    modify (set_vmCache (Some ∅)) ;;
    try_catch (clusterTier now)
      (fun _pveshError =>
         try_catch (listTier now)
           (fun _listError =>
              try_catch (filesTier now)
                (fun _fsError => modify (set_cacheExpiry (now + 5000))))).

Definition exhausted_message (start : option Z) : string :=
  "Could not find available VM ID after " +:+ pretty (Z.of_nat maxAttempts)
  +:+ " attempts starting from "
  +:+ match start with Some n => JS.toString n | None => "null" end.

(** The [while (attempts < maxAttempts)] loop of [getNextVMId];
    [remaining] is [maxAttempts - attempts]. *)
Fixpoint search (remaining : nat) (candidateId : Z) : M Z :=
  match remaining with
  | O =>
      let* start := get nextId in
      throw (JsError (exhausted_message start))
  | S remaining' =>
      let* cache := get vmCache in
      match cache with
      | None => throw (JsError "TypeError: null is not an object")
      | Some c =>
          if decide (candidateId ∈ c) then search remaining' (candidateId + 1)
          else
            let* exists_ := quickIdCheck candidateId in
            if exists_ : bool then
              cache_add candidateId ;;
              search remaining' (candidateId + 1)
            else
              modify (set_nextId (Some (candidateId + 1))) ;;
              saveVMId ;;
              ret candidateId
      end
  end.

(** The part of [getNextVMId] before the loop: first-use initialisation
    and the cache refresh. *)
Definition prepare : M unit :=
  let* n := get nextId in
  match n with
  | None => initializeVMId
  | Some _ => ret tt
  end ;;
  refreshVMCache.

Definition getNextVMId : M Z :=
  prepare ;;
  let* n := get nextId in
  match n with
  | None => throw (JsError "TypeError: null is not an object")
      (* dead branch: [prepare] always leaves a number, see [prepare_nextId] *)
  | Some candidateId => search maxAttempts candidateId
  end.

(** [refreshCache] *)
Definition refreshCache : M unit :=
  modify (set_cacheExpiry 0) ;;
  refreshVMCache.

End VMIdManager.

(** [sanitizeVMName]: [name.replace(/[^a-zA-Z0-9-_]/g, "-").toLowerCase()] *)
Fixpoint replace_other_chars (name : string) : string :=
  match name with
  | EmptyString => EmptyString
  | String c rest =>
      String (if JS.name_char c then c else "-"%char) (replace_other_chars rest)
  end.

Definition sanitizeVMName (name : string) : string :=
  JS.toLowerCase (replace_other_chars name).

(** ** [src/config/configManager.ts] *)

Module NetworkConfig.
Record t : Type := mk {
  bridge : string;
  model : string;
  vlan : Z;
  speed : string
}.
End NetworkConfig.

(** [Partial<NetworkConfig>]: an absent field is [undefined]. *)
Module PartialNetworkConfig.
Record t : Type := mk {
  bridge : option string;
  model : option string;
  vlan : option Z;
  speed : option string
}.
End PartialNetworkConfig.

Module TemplateConfig.
Record t : Type := mk {
  id : Z;
  name : string;
  description : string;
  arch : string;
  default_user : string;
  storage : option string;
  network : option PartialNetworkConfig.t
}.
End TemplateConfig.

Module DefaultsConfig.
Record t : Type := mk {
  cores : Z;
  memory : Z;
  disk_size : string;
  storage : string;
  network : NetworkConfig.t
}.
End DefaultsConfig.

Module ProxmoxConfig.
Record t : Type := mk {
  bridge : string;
  storage : string
}.
End ProxmoxConfig.

Module AppConfig.
(** [templates] is the object loaded from the YAML file, as its list of
    own properties in insertion order. *)
Record t : Type := mk {
  templates : list (string * TemplateConfig.t);
  defaults : DefaultsConfig.t;
  proxmox : ProxmoxConfig.t
}.
End AppConfig.

Module ConfigManager.

(** [this.config.templates[key]] on the own properties of the object.
    (The two lower-case keys every object inherits, [constructor] and
    [__proto__], are set apart by [inherited_key] where a property depends on
    a lookup that finds nothing.) *)
Fixpoint lookup (key : string) (templates : list (string * TemplateConfig.t))
  : option TemplateConfig.t :=
  match templates with
  | [] => None
  | (k, t) :: rest => if String.eqb k key then Some t else lookup key rest
  end.

Definition unsupported_message (config : AppConfig.t) (osName : string) : string :=
  "Unsupported OS: " +:+ osName +:+ ". Available templates: "
  +:+ JS.join ", " (map fst (AppConfig.templates config)).

Definition getTemplate (config : AppConfig.t) (osName : string)
  : result TemplateConfig.t :=
  match lookup (JS.toLowerCase osName) (AppConfig.templates config) with
  | Some template => Ok template
  | None => Err (JsError (unsupported_message config osName))
  end.

Definition getNetworkConfig (config : AppConfig.t) (osName : string)
  : result NetworkConfig.t :=
  let defaults := DefaultsConfig.network (AppConfig.defaults config) in
  if JS.str_truthy osName then
    match getTemplate config osName with
    | Err e => Err e
    | Ok template =>
        match TemplateConfig.network template with
        | Some network =>
            Ok {| NetworkConfig.bridge :=
                    JS.str_or (PartialNetworkConfig.bridge network)
                      (NetworkConfig.bridge defaults);
                  NetworkConfig.model :=
                    JS.str_or (PartialNetworkConfig.model network)
                      (NetworkConfig.model defaults);
                  NetworkConfig.vlan :=
                    match PartialNetworkConfig.vlan network with
                    | Some vlan => vlan
                    | None => NetworkConfig.vlan defaults
                    end;
                  NetworkConfig.speed :=
                    JS.str_or (PartialNetworkConfig.speed network)
                      (NetworkConfig.speed defaults) |}
        | None => Ok defaults
        end
    end
  else Ok defaults.

Definition getDefaults (config : AppConfig.t) : DefaultsConfig.t :=
  AppConfig.defaults config.

Definition getProxmoxConfig (config : AppConfig.t) : ProxmoxConfig.t :=
  AppConfig.proxmox config.

End ConfigManager.

(** ** [src/types/api.ts] *)

Module NetworkOptions.
Record t : Type := mk {
  vlan : option Z;
  speed : option string
}.
End NetworkOptions.

Module ProvisionOptions.
Record t : Type := mk {
  subscriptionId : string;
  custEmail : string;
  os : string;
  name : string;
  cores : option Z;
  memory : option Z;
  hostname : string;
  username : option string;
  password : string;
  sshKey : option string;
  diskSize : option string;
  network : option NetworkOptions.t
}.

(** The constraints of [ProvisionOptionsSchema] on the fields that steer
    configuration resolution: a non-empty [os], [cores] in 1..32, [memory]
    in 512..32768, [network.vlan] in 1..4094. *)
Definition in_range (lo hi : Z) (x : option Z) : bool :=
  match x with
  | Some n => (lo <=? n) && (n <=? hi)
  | None => true
  end.

Definition schema_ok (opts : t) : bool :=
  JS.str_truthy (os opts)
  && in_range 1 32 (cores opts)
  && in_range 512 32768 (memory opts)
  && match network opts with
     | Some n => in_range 1 4094 (NetworkOptions.vlan n)
     | None => true
     end.
End ProvisionOptions.

Module ResultNetwork.
Record t : Type := mk {
  bridge : string;
  vlan : Z;
  speed : string
}.
End ResultNetwork.

Module ResultConfig.
Record t : Type := mk {
  os : string;
  name : string;
  cores : Z;
  memory : Z;
  hostname : string;
  username : string;
  network : ResultNetwork.t
}.
End ResultConfig.

Module ProvisionResult.
Record t : Type := mk {
  vmid : Z;
  status : string;
  message : string;
  config : ResultConfig.t
}.
End ProvisionResult.

(** ** [src/services/databaseService.ts] *)

Module DatabaseService.
Definition updateVMStatus (vmid : Z) (status : string) : M unit :=
  fun w s =>
    if db_ok w then (Ok tt, set_db_status ((vmid, status) :: db_status s) s)
    else (Err (JsError "MongoError"), s).
End DatabaseService.

(** ** [src/services/vmProvisioningService.ts] *)

(** [finalConfig]: the request with its resolved fields. *)
Module FinalConfig.
Record t : Type := mk {
  os : string;
  name : string;
  cores : Z;
  memory : Z;
  hostname : string;
  username : string;
  password : string;
  sshKey : option string;
  diskSize : string;
  network : NetworkConfig.t
}.
End FinalConfig.

Module VMProvisioningService.

(** Lift a synchronous call that may throw. *)
Definition lift {A} (r : result A) : M A := fun _ s => (r, s).

Definition finalNetworkConfig (opts : ProvisionOptions.t)
    (networkConfig : NetworkConfig.t) : NetworkConfig.t :=
  {| NetworkConfig.bridge := NetworkConfig.bridge networkConfig;
     NetworkConfig.model := NetworkConfig.model networkConfig;
     NetworkConfig.vlan :=
       match ProvisionOptions.network opts with
       | Some n =>
           match NetworkOptions.vlan n with
           | Some vlan => vlan
           | None => NetworkConfig.vlan networkConfig
           end
       | None => NetworkConfig.vlan networkConfig
       end;
     NetworkConfig.speed :=
       JS.str_or
         (match ProvisionOptions.network opts with
          | Some n => NetworkOptions.speed n
          | None => None
          end)
         (NetworkConfig.speed networkConfig) |}.

Definition finalConfig (opts : ProvisionOptions.t) (template : TemplateConfig.t)
    (defaults : DefaultsConfig.t) (networkConfig : NetworkConfig.t) : FinalConfig.t :=
  {| FinalConfig.os := ProvisionOptions.os opts;
     FinalConfig.name := sanitizeVMName (ProvisionOptions.name opts);
     FinalConfig.cores :=
       JS.num_or (ProvisionOptions.cores opts) (DefaultsConfig.cores defaults);
     FinalConfig.memory :=
       JS.num_or (ProvisionOptions.memory opts) (DefaultsConfig.memory defaults);
     FinalConfig.hostname := ProvisionOptions.hostname opts;
     FinalConfig.username :=
       JS.str_or (ProvisionOptions.username opts) (TemplateConfig.default_user template);
     FinalConfig.password := ProvisionOptions.password opts;
     FinalConfig.sshKey := ProvisionOptions.sshKey opts;
     FinalConfig.diskSize :=
       JS.str_or (ProvisionOptions.diskSize opts) (DefaultsConfig.disk_size defaults);
     FinalConfig.network := finalNetworkConfig opts networkConfig |}.

Definition cloneTemplate (templateId vmid : Z) (name : string) : M unit :=
  runCommand (QmClone templateId vmid name) ;;
  ret tt.

Definition netConfig (network : NetworkConfig.t) : string :=
  let base := NetworkConfig.model network +:+ ",bridge=" +:+ NetworkConfig.bridge network in
  let vlan := NetworkConfig.vlan network in
  let tagged :=
    if negb (Z.eqb vlan 0) && negb (Z.eqb vlan 1)
    then base +:+ ",tag=" +:+ JS.toString vlan else base in
  let speed := NetworkConfig.speed network in
  if JS.str_truthy speed && negb (String.eqb speed "1000")
  then tagged +:+ ",rate=" +:+ speed else tagged.

(** The guard of the resize in [configureVM]:
    [config.diskSize && config.diskSize !== "20G"]. *)
Definition needs_resize (diskSize : string) : bool :=
  JS.str_truthy diskSize && negb (String.eqb diskSize "20G").

Definition configureVM (vmid : Z) (config : FinalConfig.t) : M unit :=
  runCommand (QmSetCoresMemory vmid (FinalConfig.cores config) (FinalConfig.memory config)) ;;
  runCommand (QmSetNet0 vmid (netConfig (FinalConfig.network config))) ;;
  if needs_resize (FinalConfig.diskSize config)
  then runCommand (QmResize vmid (FinalConfig.diskSize config)) ;; ret tt
  else ret tt.

Definition setupCloudInit (vmid : Z) (config : FinalConfig.t) : M unit :=
  runCommand (QmSetCiuser vmid (FinalConfig.username config)) ;;
  runCommand (QmSetCipassword vmid (FinalConfig.password config)) ;;
  runCommand (QmSetName vmid (FinalConfig.hostname config)) ;;
  match FinalConfig.sshKey config with
  | Some key =>
      if JS.str_truthy key then runCommand (QmSetSshkeys vmid key) ;; ret tt
      else ret tt
  | None => ret tt
  end.

Definition startVM (vmid : Z) : M unit :=
  runCommand (QmStart vmid) ;;
  try_catch (DatabaseService.updateVMStatus vmid "running") (fun _dbError => ret tt).

(** The cleanup in the [catch] of [provisionVM]: both commands sit in one
    [try] block, whose [catch] only warns. *)
Definition cleanup (vmid : Z) : M unit :=
  try_catch
    (runCommand (OrTrue (QmStopSkiplock vmid)) ;;
     runCommand (OrTrue (QmDestroySkiplock vmid)) ;;
     ret tt)
    (fun _cleanupError => ret tt).

Definition provisionResult (vmid : Z) (config : FinalConfig.t) : ProvisionResult.t :=
  {| ProvisionResult.vmid := vmid;
     ProvisionResult.status := "running";
     ProvisionResult.message :=
       "VM " +:+ JS.toString vmid +:+ " has been successfully provisioned and started";
     ProvisionResult.config :=
       {| ResultConfig.os := FinalConfig.os config;
          ResultConfig.name := FinalConfig.name config;
          ResultConfig.cores := FinalConfig.cores config;
          ResultConfig.memory := FinalConfig.memory config;
          ResultConfig.hostname := FinalConfig.hostname config;
          ResultConfig.username := FinalConfig.username config;
          ResultConfig.network :=
            {| ResultNetwork.bridge := NetworkConfig.bridge (FinalConfig.network config);
               ResultNetwork.vlan := NetworkConfig.vlan (FinalConfig.network config);
               ResultNetwork.speed := NetworkConfig.speed (FinalConfig.network config) |} |} |}.

(** The four steps inside the [try] of [provisionVM]. *)
Definition pipeline (templateId vmid : Z) (config : FinalConfig.t) : M unit :=
  cloneTemplate templateId vmid (FinalConfig.name config) ;;
  configureVM vmid config ;;
  setupCloudInit vmid config ;;
  startVM vmid.

Definition provisionVM (config : AppConfig.t) (opts : ProvisionOptions.t)
  : M ProvisionResult.t :=
  let* vmid := VMIdManager.getNextVMId in
  let* template := lift (ConfigManager.getTemplate config (ProvisionOptions.os opts)) in
  let defaults := ConfigManager.getDefaults config in
  let* networkConfig :=
    lift (ConfigManager.getNetworkConfig config (ProvisionOptions.os opts)) in
  let final := finalConfig opts template defaults networkConfig in
  try_catch
    (pipeline (TemplateConfig.id template) vmid final ;;
     ret (provisionResult vmid final))
    (fun error =>
       cleanup vmid ;;
       throw error).

(** The VLAN a request resolves to: [finalConfig.network.vlan]. *)
Definition resolvedVlan (config : AppConfig.t) (opts : ProvisionOptions.t) : result Z :=
  match ConfigManager.getNetworkConfig config (ProvisionOptions.os opts) with
  | Ok networkConfig => Ok (NetworkConfig.vlan (finalNetworkConfig opts networkConfig))
  | Err e => Err e
  end.

End VMProvisioningService.

(** ** Several [getNextVMId] calls in flight

    JavaScript runs one call until it reaches an [await], then may resume
    any other suspended call.  A call of [getNextVMId] suspends at the four
    [await]s of its body; what happens between two of them is one atomic
    step on the shared static fields.  The awaited helpers
    ([initializeVMId], [refreshVMCache], [quickIdCheck], [saveVMId]) take
    effect when the call is resumed; the [await]s inside a helper are not
    suspension points of their own here, so the schedules of this model are
    some of the schedules of the code, which is what exhibiting a collision
    needs. *)

Module Async.
Import VMIdManager.

Inductive task : Type :=
| Start
| AwaitInit
| AwaitRefresh
| AwaitProbe (candidateId : Z) (remaining : nat)
| AwaitSave (candidateId : Z)
| Returned (vmid : Z)
| Thrown (e : exn).

(** From the loop test to the next [await quickIdCheck]: cached
    candidates are skipped without suspending. *)
Fixpoint scan (remaining : nat) (candidateId : Z) (s : State) : task :=
  match remaining with
  | O => Thrown (JsError (exhausted_message (nextId s)))
  | S remaining' =>
      match vmCache s with
      | None => Thrown (JsError "TypeError: null is not an object")
      | Some c =>
          if decide (candidateId ∈ c) then scan remaining' (candidateId + 1) s
          else AwaitProbe candidateId remaining'
      end
  end.

(** One atomic step of a call: from its current [await] to the next. *)
Definition resume (w : World) (t : task) (s : State) : task * State :=
  match t with
  | Start =>
      match nextId s with
      | None => (AwaitInit, s)
      | Some _ => (AwaitRefresh, s)
      end
  | AwaitInit => (AwaitRefresh, snd (initializeVMId w s))
  | AwaitRefresh =>
      let s1 := snd (refreshVMCache w s) in
      match nextId s1 with
      | None => (Thrown (JsError "TypeError: null is not an object"), s1)
      | Some candidateId => (scan maxAttempts candidateId s1, s1)
      end
  | AwaitProbe candidateId remaining' =>
      match quickIdCheck candidateId w s with
      | (Ok true, s1) =>
          let s2 := snd (cache_add candidateId w s1) in
          (scan remaining' (candidateId + 1) s2, s2)
      | (_, s1) =>
          (AwaitSave candidateId, set_nextId (Some (candidateId + 1)) s1)
      end
  | AwaitSave candidateId => (Returned candidateId, snd (saveVMId w s))
  | Returned vmid => (Returned vmid, s)
  | Thrown e => (Thrown e, s)
  end.

(** The calls in flight, with the state they share. *)
Definition config : Type := (list task * State)%type.

(** The scheduler resumes call number [i]. *)
Definition step (w : World) (i : nat) (c : config) : config :=
  match fst c !! i with
  | Some t =>
      let '(t', s') := resume w t (snd c) in
      (<[ i := t' ]> (fst c), s')
  | None => c
  end.

Definition run (w : World) (schedule : list nat) (c : config) : config :=
  fold_left (fun c i => step w i c) schedule c.

Definition returned (t : task) : option Z :=
  match t with Returned vmid => Some vmid | _ => None end.

(** The identifiers handed out so far. *)
Definition results (c : config) : list Z := omap returned (fst c).

(** A single call resumed until it has finished, at most [fuel] times. *)
Fixpoint run_alone (fuel : nat) (w : World) (t : task) (s : State) : task * State :=
  match fuel with
  | O => (t, s)
  | S fuel' =>
      match t with
      | Returned _ | Thrown _ => (t, s)
      | _ => let '(t', s') := resume w t s in run_alone fuel' w t' s'
      end
  end.

Definition outcome (t : task) : option (result Z) :=
  match t with
  | Returned vmid => Some (Ok vmid)
  | Thrown e => Some (Err e)
  | _ => None
  end.
End Async.

(** ** Notions used to state the properties *)

(** What the existence probe answers for a candidate in world [w]. *)
Definition probe (w : World) (vmid : Z) : bool :=
  match exec w Hostname with
  | Exited code out _ =>
      Z.eqb code 0 && fs_access w (VMIdManager.configPath (JS.trim (JS.trim out)) vmid)
  | ExecFailed => false
  end.

(** A candidate is in use: it is in the cache or the probe finds it. *)
Definition in_use (w : World) (cache : gset Z) (vmid : Z) : Prop :=
  vmid ∈ cache ∨ probe w vmid = true.

(** Calls made one after the other, each in the world it finds; the
    results come back in call order. *)
Fixpoint allocate_all (worlds : list World) (s : State) : list (result Z) * State :=
  match worlds with
  | [] => ([], s)
  | w :: rest =>
      let '(r, s1) := VMIdManager.getNextVMId w s in
      let '(rs, s2) := allocate_all rest s1 in
      (r :: rs, s2)
  end.

Definition ok_value {A} (r : result A) : option A :=
  match r with Ok a => Some a | Err _ => None end.

Fixpoint increasing (l : list Z) : Prop :=
  match l with
  | [] => True
  | x :: rest => Forall (fun y => x < y) rest ∧ increasing rest
  end.


(** The precedence rule of the specification: request, then template,
    then global default. *)
Definition vlan_precedence (request template : option Z) (default : Z) : Z :=
  match request with
  | Some v => v
  | None => match template with Some v => v | None => default end
  end.

Definition request_vlan (opts : ProvisionOptions.t) : option Z :=
  match ProvisionOptions.network opts with
  | Some n => NetworkOptions.vlan n
  | None => None
  end.

Definition template_vlan (template : TemplateConfig.t) : option Z :=
  match TemplateConfig.network template with
  | Some n => PartialNetworkConfig.vlan n
  | None => None
  end.

(** The operations that change a virtual machine: everything but the
    queries the allocator issues. *)
Fixpoint is_mutation (c : command) : bool :=
  match c with
  | PveshClusterResources | QmList | Hostname => false
  | OrTrue c' => is_mutation c'
  | _ => true
  end.

(** The identifiers the cluster tier caches from a parsed answer, and
    whether the loop ran to its end. *)
Fixpoint cluster_ids (vms : list jsvalue) (acc : gset Z) : gset Z * bool :=
  match vms with
  | [] => (acc, true)
  | JNull :: _ => (acc, false)
  | JObj fields :: rest =>
      match VMIdManager.field "vmid" fields with
      | Some (JNum n) =>
          if Z.eqb n 0 then cluster_ids rest acc else cluster_ids rest ({[ n ]} ∪ acc)
      | _ => cluster_ids rest acc
      end
  | _ :: rest => cluster_ids rest acc
  end.

Definition succeeded (c : command) (w : World) : bool :=
  match exec w c with
  | Exited code _ _ => Z.eqb code 0
  | ExecFailed => false
  end.

Definition stdout_of (c : command) (w : World) : string :=
  match exec w c with
  | Exited _ out _ => JS.trim out
  | ExecFailed => EmptyString
  end.

(** The cluster tier's cache and whether the tier succeeded. *)
Definition cluster_outcome (w : World) : gset Z * bool :=
  if succeeded PveshClusterResources w then
    match JSON_parse w (stdout_of PveshClusterResources w) with
    | Some (JArr vms) => cluster_ids vms ∅
    | Some (JStr _) => (∅, true)
    | _ => (∅, false)
    end
  else (∅, false).

Definition list_tier_ok (w : World) : bool := succeeded QmList w.

Definition files_tier_ok (w : World) : bool :=
  succeeded Hostname w
  && match fs_readdir w (VMIdManager.configDir (JS.trim (stdout_of Hostname w))) with
     | Some _ => true
     | None => false
     end.

Definition needs_refresh (w : World) (s : State) : bool :=
  negb ((match vmCache s with Some _ => true | None => false end)
        && (now w <? cacheExpiry s)).

(** A computation leaves a component of the state alone. *)
Definition preserves {X A} (f : State -> X) (m : M A) : Prop :=
  forall w s, f (snd (m w s)) = f s.

(** A computation never throws. *)
Definition total {A} (m : M A) : Prop :=
  forall w s, exists a, fst (m w s) = Ok a.

(** The identifiers the local list tier and the file tier cache. *)
Fixpoint list_ids (lines : list string) (acc : gset Z) : gset Z :=
  match lines with
  | [] => acc
  | line :: rest =>
      match JS.parseInt (JS.first_field (JS.trim line)) with
      | Some vmid => list_ids rest ({[ vmid ]} ∪ acc)
      | None => list_ids rest acc
      end
  end.

Fixpoint files_ids (files : list string) (acc : gset Z) : gset Z :=
  match files with
  | [] => acc
  | file :: rest =>
      if JS.endsWith file ".conf" then
        match JS.parseInt (JS.remove_first ".conf" file) with
        | Some vmid => files_ids rest ({[ vmid ]} ∪ acc)
        | None => files_ids rest acc
        end
      else files_ids rest acc
  end.

(** What the two local tiers do once the cluster tier has failed, leaving
    [partial] in the cache: the cache they build, the lifetime they assign,
    the commands they issue (most recent first). *)
Definition fallback_cache (w : World) (partial : gset Z) : gset Z :=
  if list_tier_ok w then list_ids (JS.split_lines (stdout_of QmList w)) partial
  else if files_tier_ok w then
    match fs_readdir w (VMIdManager.configDir (JS.trim (stdout_of Hostname w))) with
    | Some files => files_ids files partial
    | None => partial
    end
  else partial.

Definition fallback_ttl (w : World) : Z :=
  if list_tier_ok w then 30000
  else if files_tier_ok w then 15000
  else 5000.

Definition fallback_commands (w : World) : list command :=
  if list_tier_ok w then [QmList] else [Hostname; QmList].

(** The same for a whole refresh: the first tier that succeeds wins. *)
Definition refreshed_cache (w : World) : gset Z :=
  if snd (cluster_outcome w) then fst (cluster_outcome w)
  else fallback_cache w (fst (cluster_outcome w)).

Definition assigned_ttl (w : World) : Z :=
  if snd (cluster_outcome w) then 30000 else fallback_ttl w.

Definition refresh_commands (w : World) : list command :=
  (if snd (cluster_outcome w) then [] else fallback_commands w)
  ++ [PveshClusterResources].

(** The state a refresh leaves. *)
Definition refreshed (w : World) (s : State) : State :=
  {| nextId := nextId s;
     vmCache := Some (refreshed_cache w);
     cacheExpiry := now w + assigned_ttl w;
     counter_file := counter_file s;
     calls := refresh_commands w ++ calls s;
     db_status := db_status s |}.

(** ** Sample worlds *)

Definition no_output (code : Z) : exec_outcome := Exited code EmptyString EmptyString.

(** A node [pve1] whose cluster query fails, whose [qm list] shows three
    machines, and on which the config files of two more exist. *)
Definition qm_list_output : string :=
  "      VMID NAME                 STATUS     MEM(MB)    BOOTDISK(GB) PID
      1001 web                  running    2048              20.00 4121
      1002 db                   running    4096              40.00 4188
      1003 cache                stopped    1024              10.00 0
".

Definition busy_world : World :=
  {| sh := fun c =>
       match c with
       | QmList => Exited 0 qm_list_output EmptyString
       | Hostname => Exited 0 "pve1
" EmptyString
       | PveshClusterResources => Exited 2 EmptyString "ipcc_send_rec failed"
       | _ => no_output 0
       end;
     JSON_parse := fun _ => None;
     fs_access := fun path =>
       bool_decide (path ∈ ["/etc/pve/nodes/pve1/qemu-server/1004.conf";
                            "/etc/pve/nodes/pve1/qemu-server/1005.conf"]);
     fs_readdir := fun _ => None;
     counter_writable := true;
     now := 1700000000000;
     db_ok := true |}.

(** A node on which every candidate's config file exists. *)
Definition full_world : World :=
  {| sh := fun c =>
       match c with
       | Hostname => Exited 0 "pve1" EmptyString
       | _ => no_output 1
       end;
     JSON_parse := fun _ => None;
     fs_access := fun _ => true;
     fs_readdir := fun _ => None;
     counter_writable := true;
     now := 1700000000000;
     db_ok := true |}.

(** Strings of decimal digits. *)
Definition is_dec_digit (c : ascii) : bool :=
  (48 <=? N_of_ascii c)%N && (N_of_ascii c <=? 57)%N.

Fixpoint all_digits (s : string) : bool :=
  match s with
  | EmptyString => true
  | String c s' => is_dec_digit c && all_digits s'
  end.


(** A computation only hands commands satisfying [P] to [runCommand]. *)
Definition issues {A} (P : command -> Prop) (m : M A) : Prop :=
  forall w s, exists issued,
    calls (snd (m w s)) = issued ++ calls s /\ Forall P issued.

Definition query (c : command) : Prop := is_mutation c = false.

(** A healthy single node [pve1] with no machine yet: every command
    succeeds and the cluster answers with an empty list. *)
Definition healthy_world : World :=
  {| sh := fun c =>
       match c with
       | PveshClusterResources => Exited 0 "[]" EmptyString
       | Hostname => Exited 0 "pve1" EmptyString
       | _ => no_output 0
       end;
     JSON_parse := fun text => if String.eqb text "[]" then Some (JArr []) else None;
     fs_access := fun _ => false;
     fs_readdir := fun _ => Some [];
     counter_writable := true;
     now := 1700000000000;
     db_ok := true |}.

(** World [w] with the outcome of the simple command lines overridden. *)
Definition with_sh (sh' : command -> option exec_outcome) (w : World) : World :=
  {| sh := fun c => match sh' c with Some o => o | None => sh w c end;
     JSON_parse := JSON_parse w;
     fs_access := fs_access w;
     fs_readdir := fs_readdir w;
     counter_writable := counter_writable w;
     now := now w;
     db_ok := db_ok w |}.


(** The healthy node, except that setting the network device fails and
    the clean-up's stop command line cannot be run at all. *)
Definition broken_world : World :=
  with_sh (fun c =>
             match c with
             | QmSetNet0 _ _ => Some (Exited 255 EmptyString "bridge 'vmbr0' does not exist")
             | QmStopSkiplock _ => Some ExecFailed
             | _ => None
             end) healthy_world.

(** The same failure of the configure step, with a stop command that runs
    and fails. *)
Definition failing_world : World :=
  with_sh (fun c =>
             match c with
             | QmSetNet0 _ _ => Some (Exited 255 EmptyString "bridge 'vmbr0' does not exist")
             | QmStopSkiplock _ => Some (Exited 2 EmptyString "VM 1001 not running")
             | _ => None
             end) healthy_world.

(** ** Sample configuration and requests *)

Definition sample_template (vlan : option Z) : TemplateConfig.t :=
  {| TemplateConfig.id := 9000;
     TemplateConfig.name := "Debian 12";
     TemplateConfig.description := "Debian 12 Bookworm CloudInit";
     TemplateConfig.arch := "amd64";
     TemplateConfig.default_user := "vmuser";
     TemplateConfig.storage := Some "pve-a";
     TemplateConfig.network :=
       match vlan with
       | Some v =>
           Some {| PartialNetworkConfig.bridge := None;
                   PartialNetworkConfig.model := None;
                   PartialNetworkConfig.vlan := Some v;
                   PartialNetworkConfig.speed := None |}
       | None => None
       end |}.

Definition sample_config (template_vlan : option Z) (default_vlan : Z)
    (disk_size : string) : AppConfig.t :=
  {| AppConfig.templates := [("debian12", sample_template template_vlan)];
     AppConfig.defaults :=
       {| DefaultsConfig.cores := 2;
          DefaultsConfig.memory := 2048;
          DefaultsConfig.disk_size := disk_size;
          DefaultsConfig.storage := "pve-a";
          DefaultsConfig.network :=
            {| NetworkConfig.bridge := "vmbr0";
               NetworkConfig.model := "virtio";
               NetworkConfig.vlan := default_vlan;
               NetworkConfig.speed := "125" |} |};
     AppConfig.proxmox :=
       {| ProxmoxConfig.bridge := "vmbr0"; ProxmoxConfig.storage := "local-lvm" |} |}.

Definition sample_request (os : string) (vlan : option Z) (diskSize : option string)
  : ProvisionOptions.t :=
  {| ProvisionOptions.subscriptionId := "sub_123456";
     ProvisionOptions.custEmail := "customer@example.com";
     ProvisionOptions.os := os;
     ProvisionOptions.name := "my-test-vm";
     ProvisionOptions.cores := Some 4;
     ProvisionOptions.memory := Some 4096;
     ProvisionOptions.hostname := "test-vm.local";
     ProvisionOptions.username := Some "admin";
     ProvisionOptions.password := "SecurePassword123!";
     ProvisionOptions.sshKey := None;
     ProvisionOptions.diskSize := diskSize;
     ProvisionOptions.network :=
       match vlan with
       | Some v => Some {| NetworkOptions.vlan := Some v; NetworkOptions.speed := None |}
       | None => None
       end |}.

(** The commands the clean-up of [provisionVM] issues, most recent first:
    the destroy follows the stop unless [runCommand] rejected for the stop,
    which [|| true] allows only when the command line could not be run. *)
Definition cleanup_commands (w : World) (vmid : Z) : list command :=
  match sh w (QmStopSkiplock vmid) with
  | ExecFailed => [OrTrue (QmStopSkiplock vmid)]
  | Exited _ _ _ => [OrTrue (QmDestroySkiplock vmid); OrTrue (QmStopSkiplock vmid)]
  end.

(** The commands [configureVM] issues, most recent first. *)
Definition configure_commands (w : World) (vmid : Z) (config : FinalConfig.t)
  : list command :=
  let setCores :=
    QmSetCoresMemory vmid (FinalConfig.cores config) (FinalConfig.memory config) in
  let setNet := QmSetNet0 vmid (VMProvisioningService.netConfig (FinalConfig.network config)) in
  if succeeded setCores w then
    if succeeded setNet w then
      if VMProvisioningService.needs_resize (FinalConfig.diskSize config)
      then [QmResize vmid (FinalConfig.diskSize config); setNet; setCores]
      else [setNet; setCores]
    else [setNet; setCores]
  else [setCores].

Definition is_resize (c : command) : Prop :=
  match c with QmResize _ _ => True | _ => False end.

(** ** Further parts of the sources

    The definitions below embed code the settled properties did not need:
    the request schema's string patterns, the public cache methods of
    [VMIdManager], the connection check of [ShellExecutor], the token
    middleware of [src/middleware/auth.ts] and the operations of
    [VMProvisioningService] on an existing machine. *)

(** [p] holds of every character of [s]. *)
Fixpoint all_chars (p : ascii -> bool) (s : string) : bool :=
  match s with
  | EmptyString => true
  | String c s' => p c && all_chars p s'
  end.

(** The [name] field of [ProvisionOptionsSchema]:
    [z.string().min(1).max(64).regex(/^[a-zA-Z0-9-_]+$/)]. *)
Definition name_schema_ok (name : string) : bool :=
  (1 <=? String.length name)%nat && (String.length name <=? 64)%nat
  && JS.str_truthy name && all_chars JS.name_char name.

(** Membership in [[a-z0-9-_]]. *)
Definition lower_name_char (c : ascii) : bool :=
  let n := N_of_ascii c in
  ((97 <=? n)%N && (n <=? 122)%N) || ((48 <=? n)%N && (n <=? 57)%N)
  || Ascii.eqb c "-"%char || Ascii.eqb c "_"%char.

(** The characters after the leading decimal digits. *)
Fixpoint skip_digits (s : string) : string :=
  match s with
  | EmptyString => EmptyString
  | String c s' => if is_dec_digit c then skip_digits s' else s
  end.

(** The [diskSize] field of [ProvisionOptionsSchema]:
    [z.string().regex(/^\d+[GM]B?$/i)]. *)
Definition disk_size_schema_ok (s : string) : bool :=
  match s with
  | EmptyString => false
  | String c _ =>
      is_dec_digit c
      && match skip_digits s with
         | String u EmptyString =>
             Ascii.eqb (JS.lower_char u) "g" || Ascii.eqb (JS.lower_char u) "m"
         | String u (String b EmptyString) =>
             (Ascii.eqb (JS.lower_char u) "g" || Ascii.eqb (JS.lower_char u) "m")
             && Ascii.eqb (JS.lower_char b) "b"
         | _ => false
         end
  end.

(** [VMIdManager.getCacheStats]:
    [{ size: this.vmCache?.size || 0, expiresIn: Math.max(0, this.cacheExpiry - Date.now()) }] *)
Module CacheStats.
Record t : Type := mk {
  size : nat;
  expiresIn : Z
}.
End CacheStats.

Definition getCacheStats (w : World) (s : State) : CacheStats.t :=
  {| CacheStats.size :=
       match vmCache s with
       | Some c => size c
       | None => 0%nat
       end;
     CacheStats.expiresIn := Z.max 0 (cacheExpiry s - now w) |}.

(** [ShellExecutor.validateProxmoxConnection] *)
Definition validateProxmoxConnection : M bool :=
  try_catch (runCommand QmList ;; ret true) (fun _ => ret false).

(** The lower-case property names every JavaScript object inherits; a
    lookup of one of them in the templates object finds the inherited value,
    which the embedding of [getTemplate] (own properties) does not cover. *)
Definition inherited_key (key : string) : bool :=
  String.eqb key "constructor" || String.eqb key "__proto__".

Definition not_dot (c : ascii) : bool := negb (Ascii.eqb c ".").

(** The commands of the four pipeline steps of [provisionVM], in the
    order the steps issue them. *)
Definition planned_commands (templateId vmid : Z) (config : FinalConfig.t)
  : list command :=
  [QmClone templateId vmid (FinalConfig.name config);
   QmSetCoresMemory vmid (FinalConfig.cores config) (FinalConfig.memory config);
   QmSetNet0 vmid (VMProvisioningService.netConfig (FinalConfig.network config))]
  ++ (if VMProvisioningService.needs_resize (FinalConfig.diskSize config)
      then [QmResize vmid (FinalConfig.diskSize config)] else [])
  ++ [QmSetCiuser vmid (FinalConfig.username config);
      QmSetCipassword vmid (FinalConfig.password config);
      QmSetName vmid (FinalConfig.hostname config)]
  ++ match FinalConfig.sshKey config with
     | Some key => if JS.str_truthy key then [QmSetSshkeys vmid key] else []
     | None => []
     end
  ++ [QmStart vmid].

(** The commands of a list that get issued when each is run only after
    the previous one succeeded: all up to and including the first that fails. *)
Fixpoint issued_until_failure (w : World) (cmds : list command) : list command :=
  match cmds with
  | [] => []
  | c :: rest => if succeeded c w then c :: issued_until_failure w rest else [c]
  end.

Fixpoint first_failure (w : World) (cmds : list command) : option command :=
  match cmds with
  | [] => None
  | c :: rest => if succeeded c w then first_failure w rest else Some c
  end.

(** The error [runCommand] rejects with for a command that fails. *)
Definition command_error (w : World) (c : command) : exn :=
  match exec w c with
  | Exited code _ err => CommandFailed c (Some code) err
  | ExecFailed => CommandFailed c None EmptyString
  end.

(** The machine a command names, if any. *)
Fixpoint target (c : command) : option Z :=
  match c with
  | PveshClusterResources | QmList | Hostname => None
  | QmClone _ vmid _ | QmSetCoresMemory vmid _ _ | QmSetNet0 vmid _ | QmResize vmid _
  | QmSetCiuser vmid _ | QmSetCipassword vmid _ | QmSetName vmid _ | QmSetSshkeys vmid _
  | QmStart vmid | QmStopSkiplock vmid | QmDestroySkiplock vmid => Some vmid
  | OrTrue c' => target c'
  end.

(** String and array methods of the language the parts below use. *)
Module JSString.

(** [s.split(sep)] for a separator of one character. *)
Fixpoint split (sep : ascii) (s : string) : list string :=
  match s with
  | EmptyString => [EmptyString]
  | String c s' =>
      match split sep s' with
      | [] => [String c EmptyString]
      | l :: ls =>
          if Ascii.eqb c sep then EmptyString :: l :: ls
          else String c l :: ls
      end
  end.

(** [s.charAt(i)]: the empty string when [i] is out of range. *)
Definition charAt (s : string) (i : nat) : string :=
  match String.get i s with
  | Some c => String c EmptyString
  | None => EmptyString
  end.

(** [xs.includes(x)] on strings. *)
Definition includes (xs : list string) (x : string) : bool :=
  existsb (String.eqb x) xs.

End JSString.

(** ** [src/middleware/auth.ts] *)

Module Auth.

(** The variables of [process.env] the module reads; [None] is [undefined]. *)
Record Env : Type := {
  API_TOKEN : option string;
  API_TOKENS : option string;
  NODE_ENV : option string
}.

(** The two request headers the middleware reads. *)
Record Headers : Type := {
  authorization : option string;
  x_api_key : option string
}.

Definition no_tokens_message : string :=
  "No API tokens configured. Set API_TOKEN or API_TOKENS environment variable.".

Definition getValidTokens (env : Env) : result (list string) :=
  let tokens : list string := [] in
  let tokens :=
    match API_TOKEN env with
    | Some token => if JS.str_truthy token then tokens ++ [token] else tokens
    | None => tokens
    end in
  let tokens :=
    match API_TOKENS env with
    | Some listed =>
        if JS.str_truthy listed then tokens ++ map JS.trim (JSString.split "," listed)
        else tokens
    | None => tokens
    end in
  let tokens :=
    if Nat.eqb (length tokens) 0
       && negb (match NODE_ENV env with
                | Some mode => String.eqb mode "production"
                | None => false
                end)
    then tokens ++ ["dev-token-123"] else tokens in
  if Nat.eqb (length tokens) 0 then Err (JsError no_tokens_message) else Ok tokens.

(** What the hook does with a request: it sends a reply with a status code
    and an error message (the time stamp of the body is left out), or sets
    [request.token] and lets the request through. *)
Inductive outcome : Type :=
| Replied (code : Z) (error : string)
| Passed (token : string).

Definition no_token_message : string :=
  "Access denied. No token provided. Use Authorization: Bearer <token> or x-api-key header.".

Definition authenticateToken (env : Env) (headers : Headers) : outcome :=
  let bearer : option string :=
    match authorization headers with
    | Some authHeader =>
        if JS.str_truthy authHeader then JS.strip_prefix "Bearer " authHeader else None
    | None => None
    end in
  let token : option string :=
    match bearer with
    | Some rest => Some rest
    | None =>
        match x_api_key headers with
        | Some apiKeyHeader =>
            if JS.str_truthy apiKeyHeader then Some apiKeyHeader else None
        | None => None
        end
    end in
  match token with
  | Some token =>
      if JS.str_truthy token then
        match getValidTokens env with
        | Ok validTokens =>
            if JSString.includes validTokens token then Passed token
            else Replied 403 "Access denied. Invalid token."
        | Err _ => Replied 500 "Internal authentication error."
        end
      else Replied 401 no_token_message
  | None => Replied 401 no_token_message
  end.

Definition charset : string :=
  "ABCDEFGHIJKLMNOPQRSTUVWXYZabcdefghijklmnopqrstuvwxyz0123456789".

(** The loop of [generateAPIToken] from iteration [i] on, with [n]
    iterations left.  [random i] is the value of
    [Math.floor(Math.random() * charset.length)] in iteration [i]. *)
Fixpoint generate_from (random : nat -> nat) (i n : nat) (token : string) : string :=
  match n with
  | O => token
  | S n' => generate_from random (S i) n' (token +:+ JSString.charAt charset (random i))
  end.

(** [generateAPIToken(length = 32)] for an integer [length]. *)
Definition generateAPIToken (random : nat -> nat) (length : option Z) : string :=
  generate_from random 0
    (Z.to_nat (match length with Some l => l | None => 32 end)) EmptyString.

(** Membership in [[A-Za-z0-9]]. *)
Definition alnum (c : ascii) : bool :=
  let n := N_of_ascii c in
  ((65 <=? n)%N && (n <=? 90)%N) || ((97 <=? n)%N && (n <=? 122)%N)
  || ((48 <=? n)%N && (n <=? 57)%N).

(** [/^[A-Za-z0-9]{16,}$/.test(token)] *)
Definition isValidTokenFormat (token : string) : bool :=
  all_chars alnum token && (16 <=? String.length token)%nat.

End Auth.

(** The token a request presents: the rest of an [Authorization] header
    that starts with [Bearer ], and only without such a header the
    [x-api-key] header. *)
Definition presented (headers : Auth.Headers) : option string :=
  match Auth.authorization headers with
  | Some authHeader =>
      match JS.strip_prefix "Bearer " authHeader with
      | Some rest => Some rest
      | None => Auth.x_api_key headers
      end
  | None => Auth.x_api_key headers
  end.

(** A variable of the environment that is unset or empty. *)
Definition unset (v : option string) : Prop := v = None \/ v = Some EmptyString.

(** The tokens the environment configures. *)
Definition configured (env : Auth.Env) (token : string) : Prop :=
  (token <> EmptyString /\ Auth.API_TOKEN env = Some token)
  \/ (exists listed,
        Auth.API_TOKENS env = Some listed
        /\ In token (map JS.trim (JSString.split "," listed))).

(** The fallback of [getValidTokens]: outside production, an environment
    that sets neither variable accepts the development token. *)
Definition development_fallback (env : Auth.Env) (token : string) : Prop :=
  token = "dev-token-123"
  /\ unset (Auth.API_TOKEN env) /\ unset (Auth.API_TOKENS env)
  /\ Auth.NODE_ENV env <> Some "production".

(** ** [src/services/vmProvisioningService.ts]: operations on an existing machine *)

Module Lifecycle.

(** The command lines of the operations. *)
Inductive command : Type :=
| QmStatus (vmid : Z)
| QmStop (vmid : Z)
| QmStart (vmid : Z)
| QmRestart (vmid : Z)
| QmReset (vmid : Z)
| QmDestroySkiplock (vmid : Z)
| OrTrue (c : command).

Fixpoint command_line (c : command) : string :=
  match c with
  | QmStatus vmid => "qm status " +:+ pretty vmid
  | QmStop vmid => "qm stop " +:+ pretty vmid
  | QmStart vmid => "qm start " +:+ pretty vmid
  | QmRestart vmid => "qm restart " +:+ pretty vmid
  | QmReset vmid => "qm reset " +:+ pretty vmid
  | QmDestroySkiplock vmid => "qm destroy " +:+ pretty vmid +:+ " --skiplock"
  | OrTrue c => command_line c +:+ " || true"
  end.

(** The host the operations run on: the shell, the database and the clock. *)
Record Host : Type := {
  (** outcome of a command line that is not of the form [c || true] *)
  sh : command -> exec_outcome;
  (** [DatabaseService.updateVMStatus] resolves *)
  db_ok : bool;
  (** [new Date().toISOString()] *)
  iso_time : string
}.

Fixpoint exec (h : Host) (c : command) : exec_outcome :=
  match c with
  | OrTrue c' =>
      match exec h c' with
      | Exited _ out err => Exited 0 out err
      | ExecFailed => ExecFailed
      end
  | _ => sh h c
  end.

Inductive error : Type :=
| CommandFailed (cmd : command) (exitCode : option Z) (stderr : string)
| JsError (message : string).

Inductive settled (A : Type) : Type :=
| Resolved (a : A)
| Rejected (e : error).
Arguments Resolved {A} a.
Arguments Rejected {A} e.

(** The call log of [runCommand] (most recent call first) and the status
    updates that reached the database. *)
Record Log : Type := {
  calls : list command;
  db_status : list (Z * string)
}.

Definition M (A : Type) : Type := Host -> Log -> settled A * Log.

Definition ret {A} (a : A) : M A := fun _ l => (Resolved a, l).
Definition throw {A} (e : error) : M A := fun _ l => (Rejected e, l).
Definition bind {A B} (m : M A) (k : A -> M B) : M B :=
  fun h l =>
    match m h l with
    | (Resolved a, l') => k a h l'
    | (Rejected e, l') => (Rejected e, l')
    end.
Definition try_catch {A} (m : M A) (handler : error -> M A) : M A :=
  fun h l =>
    match m h l with
    | (Resolved a, l') => (Resolved a, l')
    | (Rejected e, l') => handler e h l'
    end.

(** [ShellExecutor.runCommand] *)
Definition runCommand (c : command) : M string :=
  fun h l =>
    let l' := {| calls := c :: calls l; db_status := db_status l |} in
    match exec h c with
    | Exited code out err =>
        if Z.eqb code 0 then (Resolved (JS.trim out), l')
        else (Rejected (CommandFailed c (Some code) err), l')
    | ExecFailed => (Rejected (CommandFailed c None EmptyString), l')
    end.

(** [DatabaseService.updateVMStatus] *)
Definition updateVMStatus (vmid : Z) (status : string) : M unit :=
  fun h l =>
    if db_ok h
    then (Resolved tt, {| calls := calls l; db_status := (vmid, status) :: db_status l |})
    else (Rejected (JsError "MongoError"), l).

Definition getVMStatus (vmid : Z) : M string :=
  try_catch
    (bind (runCommand (QmStatus vmid)) (fun output =>
     ret (JS.str_or (nth_error (JSString.split " " output) 1) "unknown")))
    (fun _error => ret "not_found").

Definition stopVM (vmid : Z) : M unit :=
  bind (runCommand (QmStop vmid)) (fun _ =>
  try_catch (updateVMStatus vmid "stopped") (fun _dbError => ret tt)).

Definition startVMById (vmid : Z) : M unit :=
  bind (runCommand (QmStart vmid)) (fun _ =>
  try_catch (updateVMStatus vmid "running") (fun _dbError => ret tt)).

Definition restartVM (vmid : Z) : M unit :=
  bind (runCommand (QmRestart vmid)) (fun _ =>
  try_catch (updateVMStatus vmid "running") (fun _dbError => ret tt)).

Definition resetVM (vmid : Z) : M unit :=
  bind (runCommand (QmReset vmid)) (fun _ => ret tt).

Definition deleteVM (vmid : Z) : M unit :=
  bind (try_catch
          (bind (runCommand (OrTrue (QmStop vmid))) (fun _ => ret tt))
          (fun _error => ret tt)) (fun _ =>
  bind (runCommand (QmDestroySkiplock vmid)) (fun _ => ret tt)).

(** The object [getVMStats] returns. *)
Record Stats : Type := {
  stats_vmid : Z;
  stats_status : string;
  stats_timestamp : string
}.

Definition getVMStats (vmid : Z) : M Stats :=
  try_catch
    (bind (getVMStatus vmid) (fun status =>
     if String.eqb status "not_found"
     then throw (JsError ("VM " +:+ JS.toString vmid +:+ " not found"))
     else fun h l =>
            (Resolved {| stats_vmid := vmid; stats_status := status;
                         stats_timestamp := iso_time h |}, l)))
    (fun error => throw error).

(** A command that exits with status 0. *)
Definition succeeded (c : command) (h : Host) : bool :=
  match exec h c with
  | Exited code _ _ => Z.eqb code 0
  | ExecFailed => false
  end.

(** The three power operations that record a status. *)
Inductive power : Type := Stop | Start | Restart.

Definition power_run (op : power) : Z -> M unit :=
  match op with Stop => stopVM | Start => startVMById | Restart => restartVM end.

Definition power_command (op : power) (vmid : Z) : command :=
  match op with Stop => QmStop vmid | Start => QmStart vmid | Restart => QmRestart vmid end.

Definition power_status (op : power) : string :=
  match op with Stop => "stopped" | Start | Restart => "running" end.

(** The same host with another answer of the database. *)
Definition with_db (ok : bool) (h : Host) : Host :=
  {| sh := sh h; db_ok := ok; iso_time := iso_time h |}.

(** What [runCommand] rejects with for a failing command. *)
Definition command_error (h : Host) (c : command) : error :=
  match exec h c with
  | Exited code _ err => CommandFailed c (Some code) err
  | ExecFailed => CommandFailed c None EmptyString
  end.

End Lifecycle.

(** No character of [s] is a space. *)
Definition no_space (s : string) : bool :=
  all_chars (fun c => negb (Ascii.eqb c " "%char)) s.

(** ** The range in which numbers and text are exact

    A JavaScript number is an IEEE double: [n + 1], [n.toString()] and
    [parseInt] are the integer operations of this embedding only while
    the integers involved are safe integers, at most
    [Number.MAX_SAFE_INTEGER] in magnitude (beyond it [n + 1] rounds, and from
    [1e21] on [toString] prints an exponent).  Likewise [trim] and [parseInt]
    skip the white space of this embedding only on ASCII text.  The properties
    whose conclusion depends on either carry the hypotheses below. *)

(** [Number.MAX_SAFE_INTEGER], that is [2^53 - 1]. *)
Definition MAX_SAFE_INTEGER : Z := 9007199254740991.

Definition safe_integer (n : Z) : Prop :=
  - MAX_SAFE_INTEGER <= n <= MAX_SAFE_INTEGER.

(** Every identifier a search of 1000 attempts starting at [start] can
    try or leave in the counter is a safe integer. *)
Definition safe_window (start : Z) : Prop :=
  safe_integer start /\ safe_integer (start + 1000).

Definition is_ascii (c : ascii) : bool := (N_of_ascii c <? 128)%N.

Definition ascii_text (s : string) : Prop := all_chars is_ascii s = true.

(** The counter file, when there is one, is ASCII text, and the integer
    it starts with, if any, is a safe integer. *)
Definition exact_file (s : State) : Prop :=
  forall data,
    counter_file s = Some data ->
    ascii_text data
    /\ forall k, JS.parseInt (JS.trim data) = Some k -> safe_integer k.

(** The counter the next call of [getNextVMId] starts from: the one in
    memory, or on first use the one [initializeVMId] reads. *)
Definition initial_counter (s : State) : Z :=
  match nextId s with
  | Some n => n
  | None =>
      match counter_file s with
      | Some data => JS.num_or (JS.parseInt (JS.trim data)) 1001
      | None => 1001
      end
  end.

(** A node [pve1] on which neither the cluster query nor [qm list] works,
    and whose configuration directory holds the files of machines 100 and
    1004. *)
Definition scanned_world : World :=
  {| sh := fun c =>
       match c with
       | Hostname => Exited 0 "pve1
" EmptyString
       | _ => no_output 1
       end;
     JSON_parse := fun _ => None;
     fs_access := fun path =>
       String.eqb path "/etc/pve/nodes/pve1/qemu-server/100.conf"
       || String.eqb path "/etc/pve/nodes/pve1/qemu-server/1004.conf";
     fs_readdir := fun dir =>
       if String.eqb dir "/etc/pve/nodes/pve1/qemu-server/"
       then Some ["100.conf"; "1004.conf"; "lost+found"] else None;
     counter_writable := true;
     now := 1700000000000;
     db_ok := true |}.

(** A host on which every command succeeds and [qm status] reports a
    running machine. *)
Definition running_host : Lifecycle.Host :=
  {| Lifecycle.sh := fun c =>
       match c with
       | Lifecycle.QmStatus _ => Exited 0 "status: running
" EmptyString
       | _ => Exited 0 EmptyString EmptyString
       end;
     Lifecycle.db_ok := true;
     Lifecycle.iso_time := "2024-01-01T00:00:00.000Z" |}.

(** * Properties *)

Example parseInt_ex1 : JS.parseInt "1001" = Some 1001. Proof. reflexivity. Qed.
Example parseInt_ex2 : JS.parseInt "  -5abc" = Some (-5). Proof. reflexivity. Qed.
Example parseInt_ex3 : JS.parseInt "abc" = None. Proof. reflexivity. Qed.
Example parseInt_ex4 : JS.parseInt "0x1f" = Some 31. Proof. reflexivity. Qed.
Example parseInt_ex5 : JS.parseInt "0x" = None. Proof. reflexivity. Qed.
Example toString_ex : JS.toString 1002 = "1002". Proof. reflexivity. Qed.
Example toString_neg : JS.toString (-4) = "-4". Proof. reflexivity. Qed.
Example trim_ex : JS.trim "  a b
 " = "a b". Proof. reflexivity. Qed.
Example split_ex : JS.split_lines "a
b" = ["a"; "b"]. Proof. reflexivity. Qed.
Example remove_first_ex : JS.remove_first ".conf" "12.conf34.conf" = "1234.conf".
Proof. reflexivity. Qed.
Example endsWith_ex : JS.endsWith "100.conf" ".conf" = true. Proof. reflexivity. Qed.

(** ** Printing a number and reading it back *)

Module JSFacts.

Lemma pretty_N_char_digit d :
  (d < 10)%N ->
  is_dec_digit (pretty_N_char d) = true
  /\ JS.digit_val 10 (pretty_N_char d) = Some d.
Proof.
  intros H.
  assert (d = 0 \/ d = 1 \/ d = 2 \/ d = 3 \/ d = 4 \/ d = 5 \/ d = 6 \/ d = 7
          \/ d = 8 \/ d = 9)%N
    as [->|[->|[->|[->|[->|[->|[->|[->|[->| ->]]]]]]]]] by lia;
    split; reflexivity.
Qed.

Lemma is_dec_digit_props c :
  is_dec_digit c = true ->
  Ascii.is_space c = false
  /\ Ascii.eqb c "-" = false /\ Ascii.eqb c "+" = false
  /\ Ascii.eqb c "x" = false /\ Ascii.eqb c "X" = false
  /\ exists d, JS.digit_val 10 c = Some d.
Proof.
  destruct c as [[] [] [] [] [] [] [] []]; vm_compute; intros H;
    try discriminate H; repeat split; eauto.
Qed.

Lemma pretty_N_go_digits x : forall s,
  all_digits s = true -> all_digits (pretty_N_go x s) = true.
Proof.
  induction (N.lt_wf_0 x) as [x _ IH]; intros s Hs.
  destruct (decide (x = 0)%N) as [->|Hx]; [rewrite pretty_N_go_0; exact Hs|].
  rewrite pretty_N_go_step by lia.
  apply IH; [apply N.div_lt; lia|].
  simpl. rewrite (proj1 (pretty_N_char_digit (x `mod` 10)%N ltac:(apply N.mod_lt; lia))).
  exact Hs.
Qed.

Lemma pretty_N_go_nonempty x : forall s,
  (0 < x)%N -> pretty_N_go x s <> EmptyString.
Proof.
  induction (N.lt_wf_0 x) as [x _ IH]; intros s Hx.
  rewrite pretty_N_go_step by lia.
  destruct (decide (x `div` 10 = 0)%N) as [->|Hq]; [rewrite pretty_N_go_0; discriminate|].
  apply IH; [apply N.div_lt; lia | apply N.neq_0_lt_0; exact Hq].
Qed.

Lemma digits_go_pretty x : forall s,
  JS.digits_go 10 0 (pretty_N_go x s) = JS.digits_go 10 x s.
Proof.
  induction (N.lt_wf_0 x) as [x _ IH]; intros s.
  destruct (decide (x = 0)%N) as [->|Hx]; [rewrite pretty_N_go_0; reflexivity|].
  rewrite pretty_N_go_step by lia.
  rewrite IH by (apply N.div_lt; lia).
  simpl. rewrite (proj2 (pretty_N_char_digit (x `mod` 10)%N ltac:(apply N.mod_lt; lia))).
  f_equal. pose proof (N.div_mod x 10 ltac:(lia)). lia.
Qed.

Lemma trimStart_digits s : all_digits s = true -> JS.trimStart s = s.
Proof.
  destruct s as [|c s']; [reflexivity|]. simpl. intros H.
  apply andb_prop in H as [Hc _].
  rewrite (proj1 (is_dec_digit_props c Hc)). reflexivity.
Qed.

Lemma trimEnd_digits s : all_digits s = true -> JS.trimEnd s = s.
Proof.
  induction s as [|c s' IH]; [reflexivity|]. simpl. intros H.
  apply andb_prop in H as [Hc Hs]. rewrite (IH Hs).
  destruct s'; [|reflexivity].
  rewrite (proj1 (is_dec_digit_props c Hc)). reflexivity.
Qed.

Lemma parseInt_digits s :
  all_digits s = true -> s <> EmptyString ->
  JS.parseInt s = Some (Z.of_N (JS.digits_go 10 0 s))
  /\ JS.parseInt (String "-" s) = Some (- Z.of_N (JS.digits_go 10 0 s)).
Proof.
  intros Hs Hne.
  assert (Hradix : JS.strip_radix s = (10%N, s)).
  { destruct s as [|c0 [|c1 r]]; try reflexivity. unfold JS.strip_radix.
    simpl in Hs. apply andb_prop in Hs as [_ Hs]. apply andb_prop in Hs as [H1 _].
    destruct (is_dec_digit_props c1 H1) as (_ & _ & _ & -> & -> & _).
    rewrite andb_false_r. reflexivity. }
  assert (Hparse : JS.parse_digits 10 s = Some (JS.digits_go 10 0 s)).
  { destruct s as [|c s']; [contradiction|]. unfold JS.parse_digits.
    simpl in Hs. apply andb_prop in Hs as [Hc _].
    destruct (is_dec_digit_props c Hc) as (_ & _ & _ & _ & _ & d & ->). reflexivity. }
  assert (Hsign : JS.strip_sign s = (false, s)).
  { destruct s as [|c s']; [reflexivity|]. unfold JS.strip_sign.
    simpl in Hs. apply andb_prop in Hs as [Hc _].
    destruct (is_dec_digit_props c Hc) as (_ & -> & -> & _). reflexivity. }
  split.
  - unfold JS.parseInt. rewrite (trimStart_digits s Hs), Hsign. cbv beta iota.
    rewrite Hradix. cbv beta iota. rewrite Hparse. reflexivity.
  - unfold JS.parseInt. simpl JS.trimStart.
    change (JS.strip_sign (String "-" s)) with (true, s). cbv beta iota.
    rewrite Hradix. cbv beta iota. rewrite Hparse. reflexivity.
Qed.

Lemma trim_digits s : all_digits s = true -> JS.trim s = s.
Proof.
  intros H. unfold JS.trim. rewrite trimStart_digits, trimEnd_digits by exact H.
  reflexivity.
Qed.

Lemma trim_minus_digits s :
  all_digits s = true -> s <> EmptyString -> JS.trim (String "-" s) = String "-" s.
Proof.
  intros H Hne. unfold JS.trim.
  change (JS.trimStart (String "-" s)) with (String "-" s).
  simpl JS.trimEnd. rewrite trimEnd_digits by exact H.
  destruct s; [contradiction | reflexivity].
Qed.

(** [parseInt(n.toString().trim())] is [n]. *)
Lemma parseInt_toString n : JS.parseInt (JS.trim (JS.toString n)) = Some n.
Proof.
  destruct n as [|p|p]; [reflexivity| |].
  - change (JS.toString (Z.pos p)) with (pretty_N_go (N.pos p) EmptyString).
    assert (Hd : all_digits (pretty_N_go (N.pos p) EmptyString) = true)
      by (apply pretty_N_go_digits; reflexivity).
    assert (Hne : pretty_N_go (N.pos p) EmptyString <> EmptyString)
      by (apply pretty_N_go_nonempty; lia).
    rewrite (trim_digits _ Hd).
    rewrite (proj1 (parseInt_digits _ Hd Hne)), digits_go_pretty. reflexivity.
  - change (JS.toString (Z.neg p)) with (String "-" (pretty_N_go (N.pos p) EmptyString)).
    assert (Hd : all_digits (pretty_N_go (N.pos p) EmptyString) = true)
      by (apply pretty_N_go_digits; reflexivity).
    assert (Hne : pretty_N_go (N.pos p) EmptyString <> EmptyString)
      by (apply pretty_N_go_nonempty; lia).
    rewrite (trim_minus_digits _ Hd Hne).
    rewrite (proj2 (parseInt_digits _ Hd Hne)), digits_go_pretty. reflexivity.
Qed.

End JSFacts.

(** The decimal text of an integer: digits, after a minus sign for a
    negative one. *)
Lemma toString_shape n :
  exists digits,
    all_digits digits = true /\ digits <> EmptyString
    /\ JS.toString n = (if Z.ltb n 0 then String "-" digits else digits).
Proof.
  destruct n as [|p|p].
  - exists "0". repeat split. discriminate.
  - exists (pretty_N_go (N.pos p) EmptyString).
    split; [apply JSFacts.pretty_N_go_digits; reflexivity|].
    split; [apply JSFacts.pretty_N_go_nonempty; lia | reflexivity].
  - exists (pretty_N_go (N.pos p) EmptyString).
    split; [apply JSFacts.pretty_N_go_digits; reflexivity|].
    split; [apply JSFacts.pretty_N_go_nonempty; lia | reflexivity].
Qed.

Lemma trim_toString n : JS.trim (JS.toString n) = JS.toString n.
Proof.
  destruct (toString_shape n) as (digits & Hd & Hne & ->).
  destruct (Z.ltb n 0).
  - apply JSFacts.trim_minus_digits; assumption.
  - apply JSFacts.trim_digits; assumption.
Qed.

Lemma parseInt_toString_exact n : JS.parseInt (JS.toString n) = Some n.
Proof. rewrite <- (trim_toString n) at 1. apply JSFacts.parseInt_toString. Qed.





(** ** Frame and totality lemmas for the monad *)

Create HintDb frame.

Section Frame.
Context {X : Type} (f : State -> X).

Lemma preserves_ret {A} (a : A) : preserves f (ret a).
Proof. intros w s. reflexivity. Qed.

Lemma preserves_throw {A} e : preserves f (@throw A e).
Proof. intros w s. reflexivity. Qed.

Lemma preserves_get {A} (g : State -> A) : preserves f (get g).
Proof. intros w s. reflexivity. Qed.

Lemma preserves_ask {A} (g : World -> A) : preserves f (ask g).
Proof. intros w s. reflexivity. Qed.

Lemma preserves_lift {A} (r : result A) : preserves f (VMProvisioningService.lift r).
Proof. intros w s. reflexivity. Qed.

Lemma preserves_modify (g : State -> State) :
  (forall s, f (g s) = f s) -> preserves f (modify g).
Proof. intros H w s. apply H. Qed.

Lemma preserves_bind {A B} (m : M A) (k : A -> M B) :
  preserves f m -> (forall a, preserves f (k a)) -> preserves f (bind m k).
Proof.
  intros Hm Hk w s. unfold bind. specialize (Hm w s).
  destruct (m w s) as [[a|e] s1]; simpl in *.
  - rewrite Hk. exact Hm.
  - exact Hm.
Qed.

Lemma preserves_try_catch {A} (m : M A) (h : exn -> M A) :
  preserves f m -> (forall e, preserves f (h e)) -> preserves f (try_catch m h).
Proof.
  intros Hm Hh w s. unfold try_catch. specialize (Hm w s).
  destruct (m w s) as [[a|e] s1]; simpl in *.
  - exact Hm.
  - rewrite Hh. exact Hm.
Qed.

Lemma preserves_runCommand c :
  (forall l s, f (set_calls l s) = f s) -> preserves f (runCommand c).
Proof.
  intros H w s. unfold runCommand.
  destruct (exec w c) as [code out err|]; [destruct (Z.eqb code 0)|]; simpl; apply H.
Qed.
End Frame.

#[export] Hint Resolve preserves_ret preserves_throw preserves_get preserves_ask
  preserves_lift preserves_bind preserves_try_catch : frame.

Ltac frame :=
  repeat first
    [ apply preserves_bind; [|intros ?]
    | apply preserves_try_catch; [|intros ?]
    | apply preserves_ret | apply preserves_throw | apply preserves_get
    | apply preserves_ask | apply preserves_lift
    | apply preserves_runCommand; intros; reflexivity
    | apply preserves_modify; intros; reflexivity
    | match goal with |- preserves _ (match ?x with _ => _ end) => destruct x end
    | match goal with |- preserves _ (if ?x then _ else _) => destruct x end
    | solve [auto with frame] ].

Lemma total_ret {A} (a : A) : total (ret a).
Proof. intros w s. eexists. reflexivity. Qed.

Lemma total_get {A} (g : State -> A) : total (get g).
Proof. intros w s. eexists. reflexivity. Qed.

Lemma total_ask {A} (g : World -> A) : total (ask g).
Proof. intros w s. eexists. reflexivity. Qed.

Lemma total_modify g : total (modify g).
Proof. intros w s. eexists. reflexivity. Qed.

Lemma total_bind {A B} (m : M A) (k : A -> M B) :
  total m -> (forall a, total (k a)) -> total (bind m k).
Proof.
  intros Hm Hk w s. unfold bind. destruct (Hm w s) as [a Ha].
  destruct (m w s) as [[a'|e] s1]; simpl in Ha; [|discriminate].
  apply Hk.
Qed.

Lemma total_try_catch {A} (m : M A) (h : exn -> M A) :
  (forall e, total (h e)) -> total (try_catch m h).
Proof.
  intros Hh w s. unfold try_catch.
  destruct (m w s) as [[a|e] s1]; [eexists; reflexivity | apply Hh].
Qed.

#[export] Hint Resolve total_ret total_get total_ask total_modify
  total_bind total_try_catch : frame.


(** ** [VMIdManager] helpers *)

Module VMIdManagerFacts.
Import VMIdManager.

Lemma saveVMId_total : total saveVMId.
Proof.
  intros w s. unfold saveVMId.
  destruct (nextId s); [destruct (counter_writable w)|]; eexists; reflexivity.
Qed.

Lemma saveVMId_nextId : preserves nextId saveVMId.
Proof.
  intros w s. unfold saveVMId.
  destruct (nextId s) eqn:E; [destruct (counter_writable w)|]; simpl; congruence.
Qed.

Lemma saveVMId_vmCache : preserves vmCache saveVMId.
Proof.
  intros w s. unfold saveVMId.
  destruct (nextId s); [destruct (counter_writable w)|]; reflexivity.
Qed.

Lemma saveVMId_cacheExpiry : preserves cacheExpiry saveVMId.
Proof.
  intros w s. unfold saveVMId.
  destruct (nextId s); [destruct (counter_writable w)|]; reflexivity.
Qed.

Lemma saveVMId_calls : preserves calls saveVMId.
Proof.
  intros w s. unfold saveVMId.
  destruct (nextId s); [destruct (counter_writable w)|]; reflexivity.
Qed.

Lemma saveVMId_file w s n :
  nextId s = Some n ->
  counter_file (snd (saveVMId w s))
  = if counter_writable w then Some (JS.toString n) else counter_file s.
Proof.
  intros H. unfold saveVMId. rewrite H.
  destruct (counter_writable w); reflexivity.
Qed.



(** The probe, as a computation, answers [probe w vmid] and records one
    [hostname] call. *)
Lemma quickIdCheck_eq vmid w s :
  quickIdCheck vmid w s = (Ok (probe w vmid), set_calls (Hostname :: calls s) s).
Proof.
  unfold quickIdCheck, try_catch, bind, runCommand, probe, ask, ret, throw.
  simpl exec. destruct (sh w Hostname) as [code out err|]; [|reflexivity].
  destruct (Z.eqb code 0); simpl; [|reflexivity].
  destruct (fs_access w _); reflexivity.
Qed.

Lemma cache_add_preserves {X} (f : State -> X) vmid :
  (forall c s, f (set_vmCache c s) = f s) -> preserves f (cache_add vmid).
Proof.
  intros H w s. unfold cache_add, modify. simpl.
  destruct (vmCache s); [apply H | reflexivity].
Qed.

Lemma set_vmCache_eta s c : vmCache s = Some c -> set_vmCache (Some c) s = s.
Proof. destruct s; simpl; intros ->; reflexivity. Qed.

Lemma cache_add_run vmid w s c :
  vmCache s = Some c ->
  cache_add vmid w s = (Ok tt, set_vmCache (Some ({[ vmid ]} ∪ c)) s).
Proof. intros H. unfold cache_add, modify. rewrite H. reflexivity. Qed.

Lemma addClusterVMs_run vms : forall w s c,
  vmCache s = Some c ->
  addClusterVMs vms w s
  = (if snd (cluster_ids vms c) then Ok tt
     else Err (JsError "TypeError: null is not an object"),
     set_vmCache (Some (fst (cluster_ids vms c))) s).
Proof.
  induction vms as [|vm rest IH]; intros w s c Hc.
  - simpl. unfold ret. rewrite set_vmCache_eta by exact Hc. reflexivity.
  - assert (Hskip : bind (ret tt) (fun _ => addClusterVMs rest) w s
                    = (if snd (cluster_ids rest c) then Ok tt
                       else Err (JsError "TypeError: null is not an object"),
                       set_vmCache (Some (fst (cluster_ids rest c))) s)).
    { unfold bind, ret. apply IH. exact Hc. }
    destruct vm as [|b|n|str|xs|fields]; simpl; try exact Hskip.
    + unfold bind, throw. rewrite set_vmCache_eta by exact Hc. reflexivity.
    + destruct (field "vmid" fields) as [[|b|n|str|xs|fs]|]; try exact Hskip.
      destruct (Z.eqb n 0); [exact Hskip|].
      unfold bind. rewrite (cache_add_run n w s c Hc).
      rewrite (IH w _ ({[ n ]} ∪ c)) by reflexivity. reflexivity.
Qed.

Lemma addListLines_run lines : forall w s c,
  vmCache s = Some c ->
  addListLines lines w s = (Ok tt, set_vmCache (Some (list_ids lines c)) s).
Proof.
  induction lines as [|line rest IH]; intros w s c Hc; simpl.
  - unfold ret. rewrite set_vmCache_eta by exact Hc. reflexivity.
  - unfold bind. destruct (JS.parseInt _) as [vmid|].
    + rewrite (cache_add_run vmid w s c Hc).
      rewrite (IH w _ ({[ vmid ]} ∪ c)) by reflexivity. reflexivity.
    + unfold ret. apply IH. exact Hc.
Qed.

Lemma addConfigFiles_run files : forall w s c,
  vmCache s = Some c ->
  addConfigFiles files w s = (Ok tt, set_vmCache (Some (files_ids files c)) s).
Proof.
  induction files as [|file rest IH]; intros w s c Hc; simpl.
  - unfold ret. rewrite set_vmCache_eta by exact Hc. reflexivity.
  - unfold bind. destruct (JS.endsWith file ".conf").
    + destruct (JS.parseInt _) as [vmid|].
      * rewrite (cache_add_run vmid w s c Hc).
        rewrite (IH w _ ({[ vmid ]} ∪ c)) by reflexivity. reflexivity.
      * unfold ret. apply IH. exact Hc.
    + unfold ret. apply IH. exact Hc.
Qed.

Lemma fallback_run w s c n :
  vmCache s = Some c ->
  try_catch (listTier n)
    (fun _ => try_catch (filesTier n) (fun _ => modify (set_cacheExpiry (n + 5000)))) w s
  = (Ok tt,
     {| nextId := nextId s;
        vmCache := Some (fallback_cache w c);
        cacheExpiry := n + fallback_ttl w;
        counter_file := counter_file s;
        calls := fallback_commands w ++ calls s;
        db_status := db_status s |}).
Proof.
  intros Hc.
  unfold fallback_cache, fallback_ttl, fallback_commands, list_tier_ok, files_tier_ok,
    succeeded, stdout_of.
  unfold try_catch, listTier, filesTier, bind, runCommand, ask, modify, throw, CACHE_TTL.
  simpl exec.
  destruct (sh w QmList) as [code out err|]; [destruct (Z.eqb code 0) eqn:Hcode|].
  { rewrite (addListLines_run _ w _ c) by exact Hc. reflexivity. }
  all: destruct (sh w Hostname) as [code' out' err'|];
    [destruct (Z.eqb code' 0) eqn:Hcode'|]; simpl andb; cbv iota;
    try (destruct s; simpl in Hc; subst; reflexivity).
  all: destruct (fs_readdir w _) as [files|];
    [rewrite (addConfigFiles_run _ w _ c) by exact Hc; reflexivity
    | destruct s; simpl in Hc; subst; reflexivity].
Qed.

(** A refresh that is due leaves [refreshed w s]; one that is not due
    changes nothing.  It never throws. *)
Lemma refreshVMCache_run w s :
  refreshVMCache w s = (Ok tt, if needs_refresh w s then refreshed w s else s).
Proof.
  unfold refreshVMCache, needs_refresh, bind, ask, get.
  destruct ((match vmCache s with Some _ => true | None => false end)
            && (now w <? cacheExpiry s)) eqn:Hfresh; [reflexivity|].
  simpl negb. cbv iota.
  unfold modify at 1.
  unfold try_catch at 1.
  set (fallback := try_catch (listTier (now w)) _).
  assert (Hfb : forall s1 c, vmCache s1 = Some c ->
                fallback w s1
                = (Ok tt,
                   {| nextId := nextId s1;
                      vmCache := Some (fallback_cache w c);
                      cacheExpiry := now w + fallback_ttl w;
                      counter_file := counter_file s1;
                      calls := fallback_commands w ++ calls s1;
                      db_status := db_status s1 |})).
  { intros s1 c Hc. apply fallback_run. exact Hc. }
  clearbody fallback.
  unfold refreshed, refreshed_cache, assigned_ttl, refresh_commands, cluster_outcome,
    succeeded, stdout_of.
  unfold clusterTier, bind, runCommand, ask, modify, throw, CACHE_TTL.
  simpl exec.
  destruct (sh w PveshClusterResources) as [code out err|] eqn:Hpv;
    [destruct (Z.eqb code 0) eqn:Hcode|].
  - destruct (JSON_parse w (JS.trim out)) as [[|b|n|str|vms|fields]|] eqn:Hjson;
      try (rewrite (Hfb _ ∅) by reflexivity; simpl; rewrite <- app_assoc; reflexivity).
    + reflexivity.
    + rewrite (addClusterVMs_run _ w _ ∅) by reflexivity.
      destruct (snd (cluster_ids vms ∅)) eqn:Hok; [reflexivity|].
      rewrite (Hfb _ (fst (cluster_ids vms ∅))) by reflexivity.
      simpl. rewrite <- app_assoc. reflexivity.
  - rewrite (Hfb _ ∅) by reflexivity. simpl. rewrite <- app_assoc. reflexivity.
  - rewrite (Hfb _ ∅) by reflexivity. simpl. rewrite <- app_assoc. reflexivity.
Qed.

Lemma refreshVMCache_cache w s :
  exists c, vmCache (snd (refreshVMCache w s)) = Some c.
Proof.
  rewrite refreshVMCache_run. simpl. unfold needs_refresh.
  destruct (vmCache s) as [c|] eqn:Hc; simpl.
  - destruct (now w <? cacheExpiry s); simpl; eauto.
  - eauto.
Qed.

Lemma refreshVMCache_nextId : preserves nextId refreshVMCache.
Proof.
  intros w s. rewrite refreshVMCache_run. simpl.
  destruct (needs_refresh w s); reflexivity.
Qed.


Lemma initializeVMId_run w s :
  initializeVMId w s
  = (Ok tt,
     match counter_file s with
     | Some data => set_nextId (Some (JS.num_or (JS.parseInt (JS.trim data)) 1001)) s
     | None =>
         if counter_writable w
         then set_counter_file (Some (JS.toString 1001)) (set_nextId (Some 1001) s)
         else set_nextId (Some 1001) s
     end).
Proof.
  unfold initializeVMId, bind, get.
  destruct (counter_file s) as [data|]; [reflexivity|].
  unfold modify, saveVMId. simpl. destruct (counter_writable w); reflexivity.
Qed.

(** [prepare] never throws and leaves a counter and a cache. *)
Lemma prepare_run w s :
  prepare w s = (Ok tt, snd (prepare w s)).
Proof.
  unfold prepare, bind, get.
  destruct (nextId s) as [n|].
  - unfold ret. rewrite refreshVMCache_run. reflexivity.
  - rewrite initializeVMId_run, refreshVMCache_run. reflexivity.
Qed.

Lemma prepare_nextId w s :
  nextId (snd (prepare w s))
  = Some match nextId s with
         | Some n => n
         | None =>
             match counter_file s with
             | Some data => JS.num_or (JS.parseInt (JS.trim data)) 1001
             | None => 1001
             end
         end.
Proof.
  unfold prepare, bind, get.
  destruct (nextId s) as [n|] eqn:Hn.
  - unfold ret. rewrite <- Hn. apply refreshVMCache_nextId.
  - rewrite initializeVMId_run.
    match goal with |- nextId (snd (refreshVMCache w ?s1)) = _ =>
      rewrite (refreshVMCache_nextId w s1) end.
    destruct (counter_file s); [reflexivity|].
    destruct (counter_writable w); reflexivity.
Qed.

Lemma prepare_cache w s : exists c, vmCache (snd (prepare w s)) = Some c.
Proof.
  unfold prepare, bind, get.
  destruct (nextId s) as [n|].
  - unfold ret. apply refreshVMCache_cache.
  - rewrite initializeVMId_run. apply refreshVMCache_cache.
Qed.

Lemma getNextVMId_search w s start :
  nextId (snd (prepare w s)) = Some start ->
  getNextVMId w s = search maxAttempts start w (snd (prepare w s)).
Proof.
  intros H. unfold getNextVMId, bind at 1. rewrite prepare_run.
  unfold bind, get. rewrite H. reflexivity.
Qed.

Lemma in_use_dec w cache vmid : {in_use w cache vmid} + {~ in_use w cache vmid}.
Proof.
  unfold in_use. destruct (decide (vmid ∈ cache)) as [Hin|Hout]; [left; tauto|].
  destruct (probe w vmid); [left; tauto | right; intros [?|?]; [tauto | discriminate]].
Qed.

(** In a window either some candidate is the first free one or all are in use. *)
Lemma window_cases w cache remaining : forall c,
  (exists v, c <= v < c + Z.of_nat remaining /\ ~ in_use w cache v
             /\ forall u, c <= u < v -> in_use w cache u)
  \/ (forall u, c <= u < c + Z.of_nat remaining -> in_use w cache u).
Proof.
  induction remaining as [|r IH]; intros c.
  - right. intros u Hu. lia.
  - destruct (in_use_dec w cache c) as [Hc|Hc].
    + destruct (IH (c + 1)) as [(v & Hv & Hfree & Hbelow)|Hall].
      * left. exists v. split; [lia|]. split; [exact Hfree|].
        intros u Hu. destruct (decide (u = c)) as [->|Hne]; [exact Hc|].
        apply Hbelow. lia.
      * right. intros u Hu. destruct (decide (u = c)) as [->|Hne]; [exact Hc|].
        apply Hall. lia.
    + left. exists c. split; [lia|]. split; [exact Hc|]. intros u Hu. lia.
Qed.

Lemma search_success w : forall remaining c s cache v,
  vmCache s = Some cache ->
  c <= v < c + Z.of_nat remaining ->
  ~ in_use w cache v ->
  (forall u, c <= u < v -> in_use w cache u) ->
  exists s' cache',
    search remaining c w s = (Ok v, s')
    /\ nextId s' = Some (v + 1)
    /\ vmCache s' = Some cache'
    /\ (forall u, u ∈ cache' <-> u ∈ cache \/ (c <= u < v /\ probe w u = true))
    /\ counter_file s'
       = (if counter_writable w then Some (JS.toString (v + 1)) else counter_file s)
    /\ cacheExpiry s' = cacheExpiry s.
Proof.
  induction remaining as [|r IH]; intros c s cache v Hcache Hv Hfree Hbelow; [lia|].
  simpl search. unfold bind at 1, get at 1. rewrite Hcache.
  destruct (decide (c ∈ cache)) as [Hin|Hout].
  - assert (v <> c) by (intros ->; apply Hfree; left; exact Hin).
    destruct (IH (c + 1) s cache v Hcache) as (s' & cache' & Hrun & Hn & Hc' & Hchar & Hfile & Hexp);
      [lia | exact Hfree | intros u Hu; apply Hbelow; lia |].
    exists s', cache'. repeat split; try assumption.
    + intros Hu. apply Hchar in Hu as [?|[? ?]]; [left; assumption | right; split; [lia|assumption]].
    + intros [?|[Hu Hp]]; apply Hchar; [left; assumption|].
      destruct (decide (u = c)) as [->|?]; [left; exact Hin | right; split; [lia|exact Hp]].
  - unfold bind at 1. rewrite quickIdCheck_eq.
    destruct (probe w c) eqn:Hprobe.
    + assert (v <> c) by (intros ->; apply Hfree; right; exact Hprobe).
      unfold bind at 1.
      rewrite (cache_add_run c w _ cache) by exact Hcache.
      destruct (IH (c + 1) (set_vmCache (Some ({[ c ]} ∪ cache)) (set_calls (Hostname :: calls s) s))
                  ({[ c ]} ∪ cache) v eq_refl)
        as (s' & cache' & Hrun & Hn & Hc' & Hchar & Hfile & Hexp).
      * lia.
      * intros [Hin|Hp]; [|apply Hfree; right; exact Hp].
        apply elem_of_union in Hin as [Hin|Hin]; [|apply Hfree; left; exact Hin].
        apply elem_of_singleton in Hin. contradiction.
      * intros u Hu. destruct (Hbelow u) as [?|?]; [lia | left | right; assumption].
        apply elem_of_union. right. assumption.
      * exists s', cache'. repeat split; try assumption.
        -- intros Hu. apply Hchar in Hu as [Hu|[? ?]]; [|right; split; [lia|assumption]].
           apply elem_of_union in Hu as [Hu|Hu]; [|left; assumption].
           apply elem_of_singleton in Hu. subst u. right. split; [lia|exact Hprobe].
        -- intros [Hu|[Hu Hp]]; apply Hchar.
           ++ left. apply elem_of_union. right. assumption.
           ++ destruct (decide (u = c)) as [->|?].
              ** left. apply elem_of_union. left. apply elem_of_singleton. reflexivity.
              ** right. split; [lia|exact Hp].
    + assert (v = c) as ->.
      { destruct (decide (v = c)) as [?|Hne]; [assumption|].
        destruct (Hbelow c) as [?|?]; [lia | contradiction | congruence]. }
      unfold bind, modify, ret.
      pose (s1 := set_nextId (Some (c + 1)) (set_calls (Hostname :: calls s) s)).
      fold s1. destruct (saveVMId_total w s1) as [[] Hsave].
      destruct (saveVMId w s1) as [r0 s2] eqn:Hs2. simpl in Hsave. subst r0.
      exists s2, cache.
      pose proof (saveVMId_nextId w s1) as Hn. rewrite Hs2 in Hn. simpl in Hn.
      pose proof (saveVMId_vmCache w s1) as Hc. rewrite Hs2 in Hc. simpl in Hc.
      pose proof (saveVMId_cacheExpiry w s1) as He. rewrite Hs2 in He. simpl in He.
      pose proof (saveVMId_file w s1 (c + 1) eq_refl) as Hf. rewrite Hs2 in Hf. simpl in Hf.
      repeat split; try assumption; try congruence.
      * intros Hu. left. exact Hu.
      * intros [Hu|[Hu _]]; [exact Hu | lia].
Qed.

Lemma search_exhausted w : forall remaining c s cache,
  vmCache s = Some cache ->
  (forall u, c <= u < c + Z.of_nat remaining -> in_use w cache u) ->
  exists s',
    search remaining c w s = (Err (JsError (exhausted_message (nextId s))), s')
    /\ nextId s' = nextId s
    /\ counter_file s' = counter_file s
    /\ cacheExpiry s' = cacheExpiry s.
Proof.
  induction remaining as [|r IH]; intros c s cache Hcache Hall.
  - simpl. exists s. repeat split; reflexivity.
  - simpl search. unfold bind at 1, get at 1. rewrite Hcache.
    destruct (decide (c ∈ cache)) as [Hin|Hout].
    + apply (IH (c + 1) s cache Hcache). intros u Hu. apply Hall. lia.
    + unfold bind at 1. rewrite quickIdCheck_eq.
      destruct (probe w c) eqn:Hprobe.
      * unfold bind at 1. rewrite (cache_add_run c w _ cache) by exact Hcache.
        apply (IH (c + 1) (set_vmCache (Some ({[ c ]} ∪ cache))
                              (set_calls (Hostname :: calls s) s)) ({[ c ]} ∪ cache) eq_refl).
        intros u Hu. destruct (Hall u) as [?|?]; [lia | left | right; assumption].
        apply elem_of_union. right. assumption.
      * destruct (Hall c) as [?|?]; [lia | contradiction | congruence].
Qed.


(** What a call that returns leaves behind. *)
Lemma getNextVMId_ok w s v s' :
  getNextVMId w s = (Ok v, s') ->
  exists start,
    nextId (snd (prepare w s)) = Some start
    /\ start <= v
    /\ nextId s' = Some (v + 1)
    /\ counter_file s'
       = (if counter_writable w then Some (JS.toString (v + 1))
          else counter_file (snd (prepare w s))).
Proof.
  intros Hrun.
  destruct (prepare_cache w s) as [cache Hcache].
  pose proof (prepare_nextId w s) as Hstart.
  set (start := match nextId s with Some n => n | None => _ end) in Hstart.
  exists start. split; [exact Hstart|].
  rewrite (getNextVMId_search w s start Hstart) in Hrun.
  destruct (window_cases w cache maxAttempts start) as [(v0 & Hv0 & Hfree & Hbelow)|Hall].
  - destruct (search_success w maxAttempts start _ cache v0 Hcache Hv0 Hfree Hbelow)
      as (s0 & cache' & Hrun0 & Hn & _ & _ & Hfile & _).
    rewrite Hrun in Hrun0. injection Hrun0 as -> ->.
    split; [lia|]. split; assumption.
  - destruct (search_exhausted w maxAttempts start _ cache Hcache Hall) as (s0 & Hrun0 & _).
    rewrite Hrun in Hrun0. discriminate.
Qed.

(** What a call that throws leaves behind. *)
Lemma getNextVMId_err w s e s' :
  getNextVMId w s = (Err e, s') ->
  nextId s' = nextId (snd (prepare w s))
  /\ counter_file s' = counter_file (snd (prepare w s)).
Proof.
  intros Hrun.
  destruct (prepare_cache w s) as [cache Hcache].
  pose proof (prepare_nextId w s) as Hstart.
  set (start := match nextId s with Some n => n | None => _ end) in Hstart.
  rewrite (getNextVMId_search w s start Hstart) in Hrun.
  destruct (window_cases w cache maxAttempts start) as [(v0 & Hv0 & Hfree & Hbelow)|Hall].
  - destruct (search_success w maxAttempts start _ cache v0 Hcache Hv0 Hfree Hbelow)
      as (s0 & cache' & Hrun0 & _).
    rewrite Hrun in Hrun0. discriminate.
  - destruct (search_exhausted w maxAttempts start _ cache Hcache Hall)
      as (s0 & Hrun0 & Hn & Hfile & _).
    rewrite Hrun in Hrun0. injection Hrun0 as _ ->. split; assumption.
Qed.

(** A call that returns stays within the window of 1000 candidates. *)
Lemma getNextVMId_window w s start v s' :
  nextId (snd (prepare w s)) = Some start ->
  getNextVMId w s = (Ok v, s') ->
  start <= v < start + 1000.
Proof.
  intros Hstart Hrun.
  destruct (prepare_cache w s) as [cache Hcache].
  rewrite (getNextVMId_search w s start Hstart) in Hrun.
  destruct (window_cases w cache maxAttempts start) as [(v0 & Hv0 & Hfree & Hbelow)|Hall].
  - destruct (search_success w maxAttempts start _ cache v0 Hcache Hv0 Hfree Hbelow)
      as (s0 & cache' & Hrun0 & _).
    rewrite Hrun in Hrun0. injection Hrun0 as -> _.
    change (Z.of_nat maxAttempts) with 1000 in Hv0. exact Hv0.
  - destruct (search_exhausted w maxAttempts start _ cache Hcache Hall) as (s0 & Hrun0 & _).
    rewrite Hrun in Hrun0. discriminate.
Qed.

Lemma prepare_initial_counter w s :
  nextId (snd (prepare w s)) = Some (initial_counter s).
Proof. apply prepare_nextId. Qed.

End VMIdManagerFacts.

(** ** The allocator: one call *)

Section OneCall.
Import VMIdManager VMIdManagerFacts.

(** The identifiers of a safe window are safe integers. *)
Lemma safe_window_bounds start v :
  safe_window start -> start <= v < start + 1000 ->
  safe_integer v /\ safe_integer (v + 1).
Proof.
  unfold safe_window, safe_integer, MAX_SAFE_INTEGER. intros [H1 H2] Hv. lia.
Qed.

(** C2. A call of [getNextVMId] returns the smallest candidate, from the
    counter upwards, that is neither in the cache nor found by the probe;
    the candidates the probe found on the way are added to the cache.  With
    [start] the counter and [cache] the cache at the start of the loop, the
    counter file read on first use ASCII text with a safe integer, and the
    1000 candidates from [start] on safe integers (so that the loop's
    [candidateId++] is the exact successor): whenever the first free candidate
    lies in the window of 1000 attempts it is returned, and whatever is
    returned is the first free candidate; the identifier returned and the
    counter left are safe integers again. *)
Theorem getNextVMId_first_free (w : World) (s : State) (start : Z) (cache : gset Z) :
  (nextId s = None -> exact_file s) ->
  nextId (snd (prepare w s)) = Some start ->
  vmCache (snd (prepare w s)) = Some cache ->
  safe_window start ->
  (forall v,
      start <= v < start + 1000 ->
      ~ in_use w cache v ->
      (forall u, start <= u < v -> in_use w cache u) ->
      exists s' cache',
        getNextVMId w s = (Ok v, s')
        /\ nextId s' = Some (v + 1)
        /\ safe_integer (v + 1)
        /\ vmCache s' = Some cache'
        /\ forall u, u ∈ cache' <-> u ∈ cache \/ (start <= u < v /\ probe w u = true))
  /\ (forall v s',
        getNextVMId w s = (Ok v, s') ->
        start <= v < start + 1000
        /\ safe_integer v
        /\ ~ in_use w cache v
        /\ forall u, start <= u < v -> in_use w cache u).
Proof.
  intros _ Hstart Hcache Hsafe.
  rewrite (getNextVMId_search w s start Hstart).
  split.
  - intros v Hv Hfree Hbelow.
    destruct (safe_window_bounds start v Hsafe Hv) as [_ Hsafe1].
    change 1000 with (Z.of_nat maxAttempts) in Hv.
    destruct (search_success w maxAttempts start _ cache v Hcache Hv Hfree Hbelow)
      as (s' & cache' & Hrun & Hn & Hc & Hchar & _).
    exists s', cache'. auto.
  - intros v s' Hrun.
    destruct (window_cases w cache maxAttempts start) as [(v0 & Hv0 & Hfree & Hbelow)|Hall].
    + destruct (search_success w maxAttempts start _ cache v0 Hcache Hv0 Hfree Hbelow)
        as (s0 & cache' & Hrun0 & _).
      rewrite Hrun in Hrun0. injection Hrun0 as -> _.
      change (Z.of_nat maxAttempts) with 1000 in Hv0.
      destruct (safe_window_bounds start v0 Hsafe Hv0) as [Hsafe0 _]. auto.
    + destruct (search_exhausted w maxAttempts start _ cache Hcache Hall) as (s0 & Hrun0 & _).
      rewrite Hrun in Hrun0. discriminate.
Qed.


(** With 1001 to 1005 in use (three through the cache, two through the
    probe) and the counter at 1001, the call returns 1006. *)
Lemma getNextVMId_first_free_witness :
  (nextId (fresh_process None) = None -> exact_file (fresh_process None))
  /\ nextId (snd (prepare busy_world (fresh_process None))) = Some 1001
  /\ vmCache (snd (prepare busy_world (fresh_process None)))
     = Some (list_to_set [1001; 1002; 1003])
  /\ safe_window 1001
  /\ (forall u, 1001 <= u < 1006 -> in_use busy_world (list_to_set [1001; 1002; 1003]) u)
  /\ exists s' cache',
       getNextVMId busy_world (fresh_process None) = (Ok 1006, s')
       /\ nextId s' = Some 1007
       /\ safe_integer 1007
       /\ vmCache s' = Some cache'
       /\ forall u, u ∈ cache' <->
                    u ∈ (list_to_set [1001; 1002; 1003] : gset Z)
                    \/ (1001 <= u < 1006 /\ probe busy_world u = true).
Proof.
  assert (Hstart : nextId (snd (prepare busy_world (fresh_process None))) = Some 1001)
    by (vm_compute; reflexivity).
  assert (Hcache : vmCache (snd (prepare busy_world (fresh_process None)))
                   = Some (list_to_set [1001; 1002; 1003]))
    by (vm_compute; reflexivity).
  assert (Hbelow : forall u, 1001 <= u < 1006 ->
                   in_use busy_world (list_to_set [1001; 1002; 1003]) u).
  { intros u Hu.
    assert (u = 1001 \/ u = 1002 \/ u = 1003 \/ u = 1004 \/ u = 1005)
      as [->|[->|[->|[->| ->]]]] by lia.
    - left. set_solver.
    - left. set_solver.
    - left. set_solver.
    - right. vm_compute. reflexivity.
    - right. vm_compute. reflexivity. }
  assert (Hsafe : safe_window 1001)
    by (unfold safe_window, safe_integer, MAX_SAFE_INTEGER; lia).
  assert (Hexact : nextId (fresh_process None) = None -> exact_file (fresh_process None))
    by (intros _ data H; discriminate H).
  split; [exact Hexact|].
  split; [exact Hstart|]. split; [exact Hcache|]. split; [exact Hsafe|].
  split; [exact Hbelow|].
  apply (proj1 (getNextVMId_first_free busy_world (fresh_process None) 1001 _
                  Hexact Hstart Hcache Hsafe)).
  - lia.
  - intros [Hin|Hp].
    + set_unfold in Hin. lia.
    + vm_compute in Hp. discriminate.
  - exact Hbelow.
Defined.


(** C10, as amended.  Whenever the counter file, if there is one, holds
    ASCII text whose leading integer, if any, is a safe integer, first-use
    initialisation succeeds and leaves a nonzero safe integer in the counter:
    the integer [parseInt] reads from the trimmed content when that is a
    nonzero number, negative ones included, and 1001 when the file is missing
    or unreadable or its content reads as [NaN] or 0.  The counter is positive
    unless the file holds a negative integer.  Only the missing-file branch
    writes the seed back (and that write may fail silently); otherwise the
    file is left as it was. *)
Theorem initializeVMId_counter (w : World) (s : State) :
  exact_file s ->
  fst (initializeVMId w s) = Ok tt
  /\ (exists n,
        nextId (snd (initializeVMId w s)) = Some n
        /\ n <> 0
        /\ safe_integer n
        /\ match counter_file s with
           | Some data =>
               match JS.parseInt (JS.trim data) with
               | Some k => if Z.eqb k 0 then n = 1001 else n = k
               | None => n = 1001
               end
           | None => n = 1001
           end
        /\ (0 < n
            \/ exists data, counter_file s = Some data
                            /\ JS.parseInt (JS.trim data) = Some n /\ n < 0))
  /\ counter_file (snd (initializeVMId w s))
     = match counter_file s with
       | Some data => Some data
       | None => if counter_writable w then Some "1001" else None
       end.
Proof.
  intros Hexact.
  assert (Hseed : safe_integer 1001) by (unfold safe_integer, MAX_SAFE_INTEGER; lia).
  rewrite initializeVMId_run. simpl. split; [reflexivity|].
  destruct (counter_file s) as [data|] eqn:Hfile.
  - split; [|simpl; exact Hfile].
    destruct (Hexact data Hfile) as [_ Hsafe].
    exists (JS.num_or (JS.parseInt (JS.trim data)) 1001). split; [reflexivity|].
    unfold JS.num_or. destruct (JS.parseInt (JS.trim data)) as [k|] eqn:Hparse.
    + destruct (Z.eqb k 0) eqn:Hk.
      * split; [lia|]. split; [exact Hseed|]. split; [reflexivity|]. left. lia.
      * apply Z.eqb_neq in Hk. split; [assumption|].
        split; [apply Hsafe; reflexivity|]. split; [reflexivity|].
        destruct (Z.lt_trichotomy k 0) as [?|[?|?]]; [|lia|left; lia].
        right. exists data. auto.
    + split; [lia|]. split; [exact Hseed|]. split; [reflexivity|]. left. lia.
  - split.
    + exists 1001.
      destruct (counter_writable w); simpl; (split; [reflexivity|]);
        (split; [lia|]); (split; [exact Hseed|]); (split; [reflexivity|]); left; lia.
    + destruct (counter_writable w); [reflexivity | simpl; exact Hfile].
Qed.

(** A file holding [ 42] and a line end initialises the counter to 42 and
    is left as it was. *)
Lemma initializeVMId_counter_witness :
  let s := fresh_process (Some " 42
") in
  exact_file s
  /\ exists n,
       nextId (snd (initializeVMId busy_world s)) = Some n
       /\ n = 42
       /\ safe_integer n.
Proof.
  cbv zeta.
  assert (Hexact : exact_file (fresh_process (Some " 42
"))).
  { intros data [= <-]. split; [reflexivity|].
    intros k Hk. vm_compute in Hk. injection Hk as <-.
    unfold safe_integer, MAX_SAFE_INTEGER. lia. }
  split; [exact Hexact|].
  destruct (initializeVMId_counter busy_world _ Hexact) as (_ & (n & Hn & _ & Hsafe & Hval & _) & _).
  exists n. split; [exact Hn|]. split; [|exact Hsafe].
  vm_compute in Hval. exact Hval.
Defined.

(** C10 as stated fails: a file holding [-5] initialises the counter to
    [-5], which is not positive. *)
Lemma initializeVMId_negative_counter :
  nextId (snd (initializeVMId busy_world (fresh_process (Some "-5")))) = Some (-5)
  /\ ~ (0 < -5).
Proof. split; [vm_compute; reflexivity | lia]. Qed.









End OneCall.

(** ** The allocator: calls one after the other *)

Section Sequential.
Import VMIdManager VMIdManagerFacts.

Lemma increasing_NoDup l : increasing l -> NoDup l.
Proof.
  induction l as [|x rest IH]; intros H; [constructor|].
  destruct H as [Hlt Hrest]. constructor; [|apply IH; exact Hrest].
  intros Hin. rewrite Forall_forall in Hlt. specialize (Hlt x Hin). lia.
Qed.

Lemma allocate_all_bounds worlds : forall s,
  increasing (omap ok_value (fst (allocate_all worlds s)))
  /\ forall n, nextId s = Some n ->
       Forall (fun y => n <= y) (omap ok_value (fst (allocate_all worlds s))).
Proof.
  induction worlds as [|w rest IH]; intros s.
  - simpl. split; [exact I | intros; constructor].
  - simpl. destruct (getNextVMId w s) as [r s1] eqn:Hrun.
    destruct (allocate_all rest s1) as [rs s2] eqn:Hrest.
    specialize (IH s1). rewrite Hrest in IH. simpl in IH. destruct IH as [Hinc Hlow].
    simpl. destruct r as [v|e]; simpl.
    + destruct (getNextVMId_ok w s v s1 Hrun) as (start & Hstart & Hle & Hn & _).
      specialize (Hlow (v + 1) Hn). split.
      * split; [|exact Hinc]. eapply Forall_impl; [exact Hlow|]. simpl. intros; lia.
      * intros n Hs. rewrite prepare_nextId, Hs in Hstart. injection Hstart as <-.
        constructor; [exact Hle|]. eapply Forall_impl; [exact Hlow|]. simpl. intros; lia.
    + destruct (getNextVMId_err w s e s1 Hrun) as [Hn _].
      split; [exact Hinc|]. intros n Hs. apply Hlow.
      rewrite Hn, prepare_nextId, Hs. reflexivity.
Qed.

(** Each call moves the counter on by at most 1000. *)
Lemma allocate_all_window worlds : forall s,
  Forall (fun v => initial_counter s <= v
                   < initial_counter s + 1000 * Z.of_nat (length worlds))
    (omap ok_value (fst (allocate_all worlds s))).
Proof.
  induction worlds as [|w rest IH]; intros s; [constructor|].
  simpl allocate_all. destruct (getNextVMId w s) as [r s1] eqn:Hrun.
  destruct (allocate_all rest s1) as [rs s2] eqn:Hrest.
  specialize (IH s1). rewrite Hrest in IH. cbn [fst] in IH.
  pose proof (prepare_initial_counter w s) as Hstart.
  assert (Hlen : Z.of_nat (length (w :: rest)) = Z.of_nat (length rest) + 1)
    by (cbn [length]; lia).
  rewrite Hlen. cbn [fst omap]. destruct r as [v|e]; cbn [ok_value].
  - pose proof (getNextVMId_window w s _ v s1 Hstart Hrun) as Hv.
    destruct (getNextVMId_ok w s v s1 Hrun) as (_ & _ & _ & Hn & _).
    assert (Hnext : initial_counter s1 = v + 1) by (unfold initial_counter; rewrite Hn; reflexivity).
    rewrite Hnext in IH. constructor; [lia|].
    eapply Forall_impl; [exact IH|]. cbv beta. intros x Hx. lia.
  - destruct (getNextVMId_err w s e s1 Hrun) as [Hn _].
    assert (Hnext : initial_counter s1 = initial_counter s)
      by (unfold initial_counter at 1; rewrite Hn, Hstart; reflexivity).
    rewrite Hnext in IH.
    eapply Forall_impl; [exact IH|]. cbv beta. intros x Hx. lia.
Qed.

(** C1, as amended.  Calls of [getNextVMId] that do not overlap, each one
    started after the previous one has returned or thrown, hand out strictly
    increasing, hence pairwise distinct, identifiers, whatever world each
    call finds, as long as the counter stays within the safe integers: the
    counter file read on first use is ASCII text with a safe integer, and the
    counter the calls start from leaves room for 1000 candidates per call.
    Every identifier handed out is then a safe integer in that range. *)
Theorem sequential_calls_distinct (worlds : list World) (s : State) :
  (nextId s = None -> exact_file s) ->
  safe_integer (initial_counter s) ->
  safe_integer (initial_counter s + 1000 * Z.of_nat (length worlds)) ->
  increasing (omap ok_value (fst (allocate_all worlds s)))
  /\ NoDup (omap ok_value (fst (allocate_all worlds s)))
  /\ Forall (fun v => initial_counter s <= v
                      < initial_counter s + 1000 * Z.of_nat (length worlds)
                      /\ safe_integer v)
       (omap ok_value (fst (allocate_all worlds s))).
Proof.
  intros _ Hlow Hhigh.
  destruct (allocate_all_bounds worlds s) as [Hinc _].
  split; [exact Hinc|]. split; [apply increasing_NoDup; exact Hinc|].
  eapply Forall_impl; [apply allocate_all_window|]. cbv beta. intros v Hv.
  split; [exact Hv|]. unfold safe_integer in *. lia.
Qed.

(** Two calls in turn on a fresh process whose candidates 1001 to 1005
    are in use return 1006 and 1007. *)
Lemma sequential_calls_distinct_witness :
  let worlds := [busy_world; busy_world] in
  let s := fresh_process None in
  (nextId s = None -> exact_file s)
  /\ safe_integer (initial_counter s)
  /\ safe_integer (initial_counter s + 1000 * Z.of_nat (length worlds))
  /\ omap ok_value (fst (allocate_all worlds s)) = [1006; 1007]
  /\ NoDup (omap ok_value (fst (allocate_all worlds s))).
Proof.
  cbv zeta.
  assert (Hexact : nextId (fresh_process None) = None -> exact_file (fresh_process None))
    by (intros _ data H; discriminate H).
  assert (Hlow : safe_integer (initial_counter (fresh_process None)))
    by (unfold safe_integer, MAX_SAFE_INTEGER; cbn; lia).
  assert (Hhigh : safe_integer (initial_counter (fresh_process None)
                                + 1000 * Z.of_nat (length [busy_world; busy_world])))
    by (unfold safe_integer, MAX_SAFE_INTEGER; cbn; lia).
  split; [exact Hexact|]. split; [exact Hlow|]. split; [exact Hhigh|].
  split; [vm_compute; reflexivity|].
  exact (proj1 (proj2 (sequential_calls_distinct [busy_world; busy_world]
                         (fresh_process None) Hexact Hlow Hhigh))).
Defined.

End Sequential.


(** ** The tiered cache refresh *)

Section Refresh.
Import VMIdManager VMIdManagerFacts.

(** C7, as amended.  A refresh that is due tries the cluster-wide query,
    then [qm list], then the scan of the node's config files, and stops at
    the first tier that succeeds.  The cluster tier and the local list tier
    both set the expiry 30 s ahead, the file tier 15 s ahead, and when all
    three fail the expiry is 5 s ahead and the cache holds nothing from the
    two local tiers: it is empty unless the cluster tier had cached some
    identifiers of a parsed answer before it failed. *)
Theorem refresh_tiers (w : World) (s : State) :
  needs_refresh w s = true ->
  fst (refreshVMCache w s) = Ok tt
  /\ (snd (cluster_outcome w) = true ->
      cacheExpiry (snd (refreshVMCache w s)) = now w + 30000
      /\ calls (snd (refreshVMCache w s)) = PveshClusterResources :: calls s
      /\ vmCache (snd (refreshVMCache w s)) = Some (fst (cluster_outcome w)))
  /\ (snd (cluster_outcome w) = false -> list_tier_ok w = true ->
      cacheExpiry (snd (refreshVMCache w s)) = now w + 30000
      /\ calls (snd (refreshVMCache w s)) = QmList :: PveshClusterResources :: calls s
      /\ vmCache (snd (refreshVMCache w s))
         = Some (list_ids (JS.split_lines (stdout_of QmList w)) (fst (cluster_outcome w))))
  /\ (snd (cluster_outcome w) = false -> list_tier_ok w = false ->
      files_tier_ok w = true ->
      cacheExpiry (snd (refreshVMCache w s)) = now w + 15000
      /\ calls (snd (refreshVMCache w s))
         = Hostname :: QmList :: PveshClusterResources :: calls s
      /\ exists files,
           fs_readdir w (configDir (JS.trim (stdout_of Hostname w))) = Some files
           /\ vmCache (snd (refreshVMCache w s))
              = Some (files_ids files (fst (cluster_outcome w))))
  /\ (snd (cluster_outcome w) = false -> list_tier_ok w = false ->
      files_tier_ok w = false ->
      cacheExpiry (snd (refreshVMCache w s)) = now w + 5000
      /\ calls (snd (refreshVMCache w s))
         = Hostname :: QmList :: PveshClusterResources :: calls s
      /\ vmCache (snd (refreshVMCache w s)) = Some (fst (cluster_outcome w))
      /\ (succeeded PveshClusterResources w = false -> fst (cluster_outcome w) = ∅)).
Proof.
  intros Hdue. rewrite refreshVMCache_run, Hdue. simpl.
  unfold refreshed_cache, assigned_ttl, refresh_commands, fallback_cache, fallback_ttl,
    fallback_commands.
  split; [reflexivity|].
  split; [intros ->; auto|].
  split; [intros -> ->; auto|].
  split.
  - intros -> -> Hfiles. rewrite Hfiles. split; [reflexivity|]. split; [reflexivity|].
    unfold files_tier_ok in Hfiles. apply andb_prop in Hfiles as [_ Hdir].
    destruct (fs_readdir w _) as [files|]; [|discriminate]. eauto.
  - intros -> -> ->. repeat split.
    intros Hpv. unfold cluster_outcome. rewrite Hpv. reflexivity.
Qed.

Lemma refresh_tiers_witness :
  needs_refresh busy_world (fresh_process None) = true
  /\ snd (cluster_outcome busy_world) = false
  /\ list_tier_ok busy_world = true
  /\ cacheExpiry (snd (refreshVMCache busy_world (fresh_process None)))
     = now busy_world + 30000
  /\ calls (snd (refreshVMCache busy_world (fresh_process None)))
     = [QmList; PveshClusterResources].
Proof.
  assert (Hdue : needs_refresh busy_world (fresh_process None) = true) by reflexivity.
  assert (Hcluster : snd (cluster_outcome busy_world) = false) by reflexivity.
  assert (Hlist : list_tier_ok busy_world = true) by reflexivity.
  destruct (refresh_tiers busy_world (fresh_process None) Hdue) as (_ & _ & H & _).
  destruct (H Hcluster Hlist) as (Hexp & Hcalls & _).
  split; [exact Hdue|]. split; [exact Hcluster|]. split; [exact Hlist|].
  split; [exact Hexp | exact Hcalls].
Defined.

(** C7 as stated fails: the local list tier assigns the same 30 s as the
    cluster tier, not a lifetime strictly between 15 s and 30 s. *)
Lemma local_tier_ttl_not_between :
  snd (cluster_outcome busy_world) = false
  /\ list_tier_ok busy_world = true
  /\ cacheExpiry (snd (refreshVMCache busy_world (fresh_process None))) - now busy_world
     = 30000
  /\ ~ (15000 < 30000 < 30000).
Proof.
  split; [reflexivity|]. split; [reflexivity|].
  split; [vm_compute; reflexivity | lia].
Qed.

(** A refresh that is not due leaves everything as it is. *)
Lemma refresh_not_due w s :
  needs_refresh w s = false -> refreshVMCache w s = (Ok tt, s).
Proof. intros H. rewrite refreshVMCache_run, H. reflexivity. Qed.

End Refresh.

(** ** Which commands a computation issues *)

Section Issues.
Context (P : command -> Prop).

Lemma issues_preserves {A} (m : M A) : preserves calls m -> issues P m.
Proof. intros H w s. exists []. split; [apply H | constructor]. Qed.

Lemma issues_runCommand c : P c -> issues P (runCommand c).
Proof.
  intros Hc w s. exists [c]. split; [|repeat constructor; exact Hc].
  unfold runCommand. destruct (exec w c) as [code out err|];
    [destruct (Z.eqb code 0)|]; reflexivity.
Qed.

Lemma issues_bind {A B} (m : M A) (k : A -> M B) :
  issues P m -> (forall a, issues P (k a)) -> issues P (bind m k).
Proof.
  intros Hm Hk w s. unfold bind. destruct (Hm w s) as (l1 & H1 & F1).
  destruct (m w s) as [[a|e] s1]; simpl in *.
  - destruct (Hk a w s1) as (l2 & H2 & F2). exists (l2 ++ l1).
    rewrite H2, H1, app_assoc. split; [reflexivity | apply Forall_app; auto].
  - exists l1. auto.
Qed.

Lemma issues_try_catch {A} (m : M A) (h : exn -> M A) :
  issues P m -> (forall e, issues P (h e)) -> issues P (try_catch m h).
Proof.
  intros Hm Hh w s. unfold try_catch. destruct (Hm w s) as (l1 & H1 & F1).
  destruct (m w s) as [[a|e] s1]; simpl in *.
  - exists l1. auto.
  - destruct (Hh e w s1) as (l2 & H2 & F2). exists (l2 ++ l1).
    rewrite H2, H1, app_assoc. split; [reflexivity | apply Forall_app; auto].
Qed.

End Issues.

Ltac issues_step :=
  first
    [ apply issues_bind; [|intros ?]
    | apply issues_try_catch; [|intros ?]
    | apply issues_runCommand; reflexivity
    | apply issues_preserves; frame ].

Section AllocatorIssues.
Import VMIdManager VMIdManagerFacts.

Lemma search_issues remaining : forall c, issues query (search remaining c).
Proof.
  induction remaining as [|r IH]; intros c; simpl.
  - apply issues_preserves. frame.
  - apply issues_bind; [apply issues_preserves; frame|]. intros [cache|].
    + destruct (decide (c ∈ cache)); [apply IH|].
      apply issues_bind.
      { unfold quickIdCheck. repeat issues_step. }
      intros [|].
      * apply issues_bind; [|intros; apply IH].
        apply issues_preserves, cache_add_preserves. reflexivity.
      * apply issues_bind; [apply issues_preserves; frame|]. intros _.
        apply issues_bind; [apply issues_preserves, saveVMId_calls|]. intros _.
        apply issues_preserves. frame.
    + apply issues_preserves. frame.
Qed.

Lemma refreshVMCache_issues : issues query refreshVMCache.
Proof.
  intros w s. rewrite refreshVMCache_run. simpl.
  destruct (needs_refresh w s); [|exists []; split; [reflexivity|constructor]].
  exists (refresh_commands w). split; [reflexivity|].
  unfold refresh_commands, fallback_commands.
  destruct (snd (cluster_outcome w)); [|destruct (list_tier_ok w)];
    repeat constructor.
Qed.

(** The allocator only issues queries. *)
Lemma getNextVMId_issues : issues query getNextVMId.
Proof.
  unfold getNextVMId, prepare.
  apply issues_bind.
  - apply issues_bind; [apply issues_preserves; frame|]. intros n.
    apply issues_bind; [|intros _; apply refreshVMCache_issues].
    destruct n as [n|].
    + apply issues_preserves. frame.
    + apply issues_preserves. intros w s. rewrite initializeVMId_run. simpl.
      destruct (counter_file s); [reflexivity|].
      destruct (counter_writable w); reflexivity.
  - intros _. apply issues_bind; [apply issues_preserves; frame|]. intros [n|].
    + apply search_issues.
    + apply issues_preserves. frame.
Qed.

End AllocatorIssues.

(** ** The provisioning pipeline *)

Section Provisioning.
Import VMIdManager VMIdManagerFacts VMProvisioningService.

Lemma cleanup_run vmid w s :
  cleanup vmid w s = (Ok tt, set_calls (cleanup_commands w vmid ++ calls s) s).
Proof.
  unfold cleanup, cleanup_commands, try_catch, bind, runCommand, ret. simpl exec.
  destruct (sh w (QmStopSkiplock vmid)) as [code out err|]; [|reflexivity].
  simpl. destruct (sh w (QmDestroySkiplock vmid)) as [code' out' err'|]; reflexivity.
Qed.

(** [provisionVM], step by step. *)
Lemma provisionVM_unfold config opts w s :
  provisionVM config opts w s
  = match getNextVMId w s with
    | (Err e, s1) => (Err e, s1)
    | (Ok vmid, s1) =>
        match ConfigManager.getTemplate config (ProvisionOptions.os opts) with
        | Err e => (Err e, s1)
        | Ok template =>
            match ConfigManager.getNetworkConfig config (ProvisionOptions.os opts) with
            | Err e => (Err e, s1)
            | Ok networkConfig =>
                let final :=
                  finalConfig opts template (ConfigManager.getDefaults config)
                    networkConfig in
                match pipeline (TemplateConfig.id template) vmid final w s1 with
                | (Ok _, s2) => (Ok (provisionResult vmid final), s2)
                | (Err e, s2) =>
                    (Err e, set_calls (cleanup_commands w vmid ++ calls s2) s2)
                end
            end
        end
    end.
Proof.
  unfold provisionVM. unfold bind at 1.
  destruct (getNextVMId w s) as [[vmid|e] s1]; [|reflexivity].
  unfold bind at 1, lift at 1.
  destruct (ConfigManager.getTemplate _ _) as [template|e]; [|reflexivity].
  unfold bind at 1, lift at 1.
  destruct (ConfigManager.getNetworkConfig _ _) as [networkConfig|e]; [|reflexivity].
  cbv zeta. unfold try_catch, bind at 1.
  destruct (pipeline _ _ _ w s1) as [[[]|e] s2]; [reflexivity|].
  unfold bind. rewrite cleanup_run. reflexivity.
Qed.

(** Whatever the clean-up does, the error of the failed step is the one
    the caller gets; the stop is attempted once, and the destroy once unless
    [runCommand] rejected for the stop. *)
Lemma provisionVM_rollback config opts w s vmid s1 template networkConfig e s2 :
  getNextVMId w s = (Ok vmid, s1) ->
  ConfigManager.getTemplate config (ProvisionOptions.os opts) = Ok template ->
  ConfigManager.getNetworkConfig config (ProvisionOptions.os opts) = Ok networkConfig ->
  pipeline (TemplateConfig.id template) vmid
    (finalConfig opts template (ConfigManager.getDefaults config) networkConfig) w s1
  = (Err e, s2) ->
  exists s3,
    provisionVM config opts w s = (Err e, s3)
    /\ calls s3 = cleanup_commands w vmid ++ calls s2
    /\ (sh w (QmStopSkiplock vmid) <> ExecFailed ->
        calls s3 = OrTrue (QmDestroySkiplock vmid) :: OrTrue (QmStopSkiplock vmid) :: calls s2).
Proof.
  intros Halloc Htemplate Hnet Hpipe.
  rewrite provisionVM_unfold, Halloc, Htemplate, Hnet. cbv zeta. rewrite Hpipe.
  eexists. split; [reflexivity|]. split; [reflexivity|].
  intros Hstop. simpl. unfold cleanup_commands.
  destruct (sh w (QmStopSkiplock vmid)); [reflexivity | contradiction].
Qed.

(** C3, at the failing input.  The configure step fails (the network
    device cannot be set) and [runCommand] rejects for the stop command of the
    clean-up: the caller gets the error of the configure step, the stop has
    been attempted once, and the destroy has not been attempted at all. *)
Theorem rollback_skips_destroy :
  let r := provisionVM (sample_config (Some 50) 1 "10G")
             (sample_request "debian12" (Some 100) (Some "50G"))
             broken_world (fresh_process None) in
  fst r = Err (CommandFailed (QmSetNet0 1001 "virtio,bridge=vmbr0,tag=100,rate=125")
                 (Some 255) "bridge 'vmbr0' does not exist")
  /\ calls (snd r)
     = [OrTrue (QmStopSkiplock 1001);
        QmSetNet0 1001 "virtio,bridge=vmbr0,tag=100,rate=125";
        QmSetCoresMemory 1001 4 4096;
        QmClone 9000 1001 "my-test-vm";
        Hostname; PveshClusterResources]
  /\ ~ In (OrTrue (QmDestroySkiplock 1001)) (calls (snd r)).
Proof.
  assert (Hcalls :
    calls (snd (provisionVM (sample_config (Some 50) 1 "10G")
                  (sample_request "debian12" (Some 100) (Some "50G"))
                  broken_world (fresh_process None)))
    = [OrTrue (QmStopSkiplock 1001);
       QmSetNet0 1001 "virtio,bridge=vmbr0,tag=100,rate=125";
       QmSetCoresMemory 1001 4 4096;
       QmClone 9000 1001 "my-test-vm";
       Hostname; PveshClusterResources]) by (vm_compute; reflexivity).
  cbv zeta. split; [vm_compute; reflexivity|]. split; [exact Hcalls|].
  rewrite Hcalls. simpl. intros H.
  repeat (destruct H as [H|H]; [discriminate H|]). exact H.
Qed.

(** With a stop command that runs and fails, the destroy still follows. *)
Example rollback_after_failed_stop :
  calls (snd (provisionVM (sample_config (Some 50) 1 "10G")
                (sample_request "debian12" (Some 100) (Some "50G"))
                failing_world (fresh_process None)))
  = [OrTrue (QmDestroySkiplock 1001); OrTrue (QmStopSkiplock 1001);
     QmSetNet0 1001 "virtio,bridge=vmbr0,tag=100,rate=125";
     QmSetCoresMemory 1001 4 4096;
     QmClone 9000 1001 "my-test-vm";
     Hostname; PveshClusterResources].
Proof. vm_compute. reflexivity. Qed.

(** C9.  A run that fails in the allocator or in the template lookup
    returns that very error and ends in the state the allocator left: no
    clean-up runs, and the only commands issued are the allocator's queries
    (cluster resources, [qm list], [hostname]), none of which clones,
    configures, starts, stops or destroys a machine. *)
Theorem early_failure_no_operation (config : AppConfig.t) (opts : ProvisionOptions.t)
    (w : World) (s : State) :
  (forall e s1,
      getNextVMId w s = (Err e, s1) ->
      provisionVM config opts w s = (Err e, s1))
  /\ (forall vmid s1 e,
        getNextVMId w s = (Ok vmid, s1) ->
        ConfigManager.getTemplate config (ProvisionOptions.os opts) = Err e ->
        provisionVM config opts w s = (Err e, s1))
  /\ (forall r s1,
        getNextVMId w s = (r, s1) ->
        exists issued,
          calls s1 = issued ++ calls s
          /\ Forall (fun c => is_mutation c = false) issued).
Proof.
  split; [|split].
  - intros e s1 H. rewrite provisionVM_unfold, H. reflexivity.
  - intros vmid s1 e H Ht. rewrite provisionVM_unfold, H, Ht. reflexivity.
  - intros r s1 H. destruct (getNextVMId_issues w s) as (issued & Hc & Hq).
    rewrite H in Hc. exists issued. split; assumption.
Qed.

Lemma early_failure_no_operation_witness :
  let config := sample_config (Some 50) 1 "10G" in
  let opts := sample_request "Plan9" (Some 100) None in
  let r := getNextVMId healthy_world (fresh_process None) in
  r = (Ok 1001, snd r)
  /\ ConfigManager.getTemplate config (ProvisionOptions.os opts)
     = Err (JsError "Unsupported OS: Plan9. Available templates: debian12")
  /\ provisionVM config opts healthy_world (fresh_process None)
     = (Err (JsError "Unsupported OS: Plan9. Available templates: debian12"), snd r)
  /\ exists issued,
       calls (snd r) = issued ++ calls (fresh_process None)
       /\ Forall (fun c => is_mutation c = false) issued.
Proof.
  intros config opts r.
  assert (Hrun : r = (Ok 1001, snd r)) by (vm_compute; reflexivity).
  assert (Ht : ConfigManager.getTemplate config (ProvisionOptions.os opts)
               = Err (JsError "Unsupported OS: Plan9. Available templates: debian12"))
    by (vm_compute; reflexivity).
  destruct (early_failure_no_operation config opts healthy_world (fresh_process None))
    as (_ & Htemplate & Hqueries).
  split; [exact Hrun|]. split; [exact Ht|].
  split; [exact (Htemplate 1001 (snd r) _ Hrun Ht)|].
  exact (Hqueries (Ok 1001) (snd r) Hrun).
Defined.

Lemma provisionVM_result config opts w s r s' :
  provisionVM config opts w s = (Ok r, s') ->
  exists vmid template networkConfig,
    ConfigManager.getTemplate config (ProvisionOptions.os opts) = Ok template
    /\ ConfigManager.getNetworkConfig config (ProvisionOptions.os opts) = Ok networkConfig
    /\ r = provisionResult vmid
             (finalConfig opts template (ConfigManager.getDefaults config) networkConfig).
Proof.
  rewrite provisionVM_unfold.
  destruct (getNextVMId w s) as [[vmid|e] s1]; [|discriminate].
  destruct (ConfigManager.getTemplate _ _) as [template|e]; [|discriminate].
  destruct (ConfigManager.getNetworkConfig _ _) as [networkConfig|e]; [|discriminate].
  cbv zeta. destruct (pipeline _ _ _ w s1) as [[[]|e] s2]; [|discriminate].
  intros H. injection H as <- _. exists vmid, template, networkConfig. auto.
Qed.

Lemma needs_resize_spec d :
  needs_resize d = true <-> d <> EmptyString /\ d <> "20G".
Proof.
  unfold needs_resize. rewrite andb_true_iff, negb_true_iff, String.eqb_neq.
  destruct d; simpl; split; intros [H1 H2]; split; auto; congruence.
Qed.

Lemma configureVM_calls vmid config w s :
  calls (snd (configureVM vmid config w s)) = configure_commands w vmid config ++ calls s.
Proof.
  unfold configureVM, configure_commands, succeeded, bind, runCommand, ret. simpl exec.
  destruct (sh w (QmSetCoresMemory _ _ _)) as [code out err|]; [|reflexivity].
  destruct (Z.eqb code 0); [|reflexivity]. simpl.
  destruct (sh w (QmSetNet0 _ _)) as [code' out' err'|]; [|reflexivity].
  destruct (Z.eqb code' 0); [|reflexivity]. simpl.
  destruct (needs_resize _); [|reflexivity]. simpl.
  destruct (sh w (QmResize _ _)) as [code2 out2 err2|]; [|reflexivity].
  destruct (Z.eqb code2 0); reflexivity.
Qed.

(** C6, as amended.  [configureVM] issues a disk resize exactly when its
    two [qm set] commands have succeeded and the resolved disk size is not
    empty and differs from the literal [20G]; the resize names the machine
    and the resolved size.  When the resolved size is [20G], or empty, no
    resize is issued. *)
Theorem resize_issued_iff (w : World) (s : State) (vmid : Z) (config : FinalConfig.t) :
  calls (snd (configureVM vmid config w s)) = configure_commands w vmid config ++ calls s
  /\ (Exists is_resize (configure_commands w vmid config)
      <-> succeeded (QmSetCoresMemory vmid (FinalConfig.cores config)
                       (FinalConfig.memory config)) w = true
          /\ succeeded (QmSetNet0 vmid (netConfig (FinalConfig.network config))) w = true
          /\ FinalConfig.diskSize config <> EmptyString
          /\ FinalConfig.diskSize config <> "20G")
  /\ (forall c, In c (configure_commands w vmid config) -> is_resize c ->
       c = QmResize vmid (FinalConfig.diskSize config)).
Proof.
  split; [apply configureVM_calls|].
  unfold configure_commands.
  destruct (succeeded (QmSetCoresMemory _ _ _) w);
    [destruct (succeeded (QmSetNet0 _ _) w);
     [destruct (needs_resize (FinalConfig.diskSize config)) eqn:Hresize|]|].
  - apply needs_resize_spec in Hresize. split.
    + split; [tauto|]. intros _. constructor. exact I.
    + intros c [<-|[<-|[<-|[]]]] Hc; [reflexivity | destruct Hc | destruct Hc].
  - split.
    + split.
      * intros H. repeat (apply Exists_cons in H as [H|H]; [destruct H|]).
        apply Exists_nil in H. destruct H.
      * intros (_ & _ & H1 & H2).
        assert (needs_resize (FinalConfig.diskSize config) = true)
          by (apply needs_resize_spec; auto).
        congruence.
    + intros c [<-|[<-|[]]] Hc; destruct Hc.
  - split.
    + split.
      * intros H. repeat (apply Exists_cons in H as [H|H]; [destruct H|]).
        apply Exists_nil in H. destruct H.
      * intros (_ & H & _). discriminate H.
    + intros c [<-|[<-|[]]] Hc; destruct Hc.
  - split.
    + split.
      * intros H. repeat (apply Exists_cons in H as [H|H]; [destruct H|]).
        apply Exists_nil in H. destruct H.
      * intros (H & _). discriminate H.
    + intros c [<-|[]] Hc; destruct Hc.
Qed.

Lemma resize_issued_iff_witness :
  let config :=
    finalConfig (sample_request "debian12" (Some 100) (Some "50G")) (sample_template (Some 50))
      (ConfigManager.getDefaults (sample_config (Some 50) 1 "10G"))
      (DefaultsConfig.network (AppConfig.defaults (sample_config (Some 50) 1 "10G"))) in
  FinalConfig.diskSize config = "50G"
  /\ In (QmResize 1001 "50G") (calls (snd (configureVM 1001 config healthy_world
                                             (fresh_process None)))).
Proof.
  intros config. split; [reflexivity|].
  destruct (resize_issued_iff healthy_world (fresh_process None) 1001 config)
    as (Hcalls & Hiff & _).
  rewrite Hcalls. apply in_or_app. left.
  assert (Hex : Exists is_resize (configure_commands healthy_world 1001 config)).
  { apply Hiff. repeat split; try reflexivity; discriminate. }
  vm_compute. left. reflexivity.
Defined.

(** C6 as stated fails: with no disk size in the request and an empty
    [disk_size] default the resolved disk size is empty, which differs from
    [20G], and the run succeeds without any resize. *)
Lemma empty_disk_size_not_resized :
  let config := sample_config (Some 50) 1 EmptyString in
  let opts := sample_request "debian12" None None in
  let r := provisionVM config opts healthy_world (fresh_process None) in
  FinalConfig.diskSize
    (finalConfig opts (sample_template (Some 50)) (ConfigManager.getDefaults config)
       (DefaultsConfig.network (AppConfig.defaults config)))
  <> "20G"
  /\ (exists result, fst r = Ok result)
  /\ ~ Exists is_resize (calls (snd r)).
Proof.
  cbv zeta. split; [discriminate|]. split.
  - eexists. vm_compute. reflexivity.
  - assert (Hcalls :
      calls (snd (provisionVM (sample_config (Some 50) 1 EmptyString)
                    (sample_request "debian12" None None) healthy_world
                    (fresh_process None)))
      = [QmStart 1001; QmSetName 1001 "test-vm.local";
         QmSetCipassword 1001 "SecurePassword123!"; QmSetCiuser 1001 "admin";
         QmSetNet0 1001 "virtio,bridge=vmbr0,tag=50,rate=125";
         QmSetCoresMemory 1001 4 4096; QmClone 9000 1001 "my-test-vm";
         Hostname; PveshClusterResources]) by (vm_compute; reflexivity).
    rewrite Hcalls. intros H.
    repeat (apply Exists_cons in H as [H|H]; [destruct H|]).
    apply Exists_nil in H. destruct H.
Qed.

End Provisioning.

(** ** Calls in flight at the same time *)

Section Overlap.
Import VMIdManager VMIdManagerFacts.

(** One round of the loop of [getNextVMId]. *)
Lemma search_step r c w s :
  search (S r) c w s
  = match vmCache s with
    | None => (Err (JsError "TypeError: null is not an object"), s)
    | Some cache =>
        if decide (c ∈ cache) then search r (c + 1) w s
        else
          let s1 := set_calls (Hostname :: calls s) s in
          if probe w c
          then search r (c + 1) w (set_vmCache (Some ({[ c ]} ∪ cache)) s1)
          else (Ok c, snd (saveVMId w (set_nextId (Some (c + 1)) s1)))
    end.
Proof.
  simpl search. unfold bind at 1, get at 1.
  destruct (vmCache s) as [cache|] eqn:Hcache; [|reflexivity].
  destruct (decide (c ∈ cache)); [reflexivity|].
  unfold bind at 1. rewrite quickIdCheck_eq. cbv zeta.
  destruct (probe w c).
  - unfold bind at 1. rewrite (cache_add_run c w _ cache) by exact Hcache. reflexivity.
  - unfold bind, modify, ret.
    destruct (saveVMId_total w (set_nextId (Some (c + 1))
                                  (set_calls (Hostname :: calls s) s))) as [[] Hsave].
    destruct (saveVMId w _) as [r0 s2]. simpl in Hsave. subst r0. reflexivity.
Qed.

Lemma resume_probe c r w s cache :
  vmCache s = Some cache ->
  Async.resume w (Async.AwaitProbe c r) s
  = let s1 := set_calls (Hostname :: calls s) s in
    if probe w c
    then (Async.scan r (c + 1) (set_vmCache (Some ({[ c ]} ∪ cache)) s1),
          set_vmCache (Some ({[ c ]} ∪ cache)) s1)
    else (Async.AwaitSave c, set_nextId (Some (c + 1)) s1).
Proof.
  intros Hcache. unfold Async.resume. rewrite quickIdCheck_eq. cbv zeta.
  destruct (probe w c); [|reflexivity].
  rewrite (cache_add_run c w _ cache) by exact Hcache. reflexivity.
Qed.

(** The loop of a call that runs alone is the loop of [getNextVMId]. *)
Lemma run_alone_search w remaining : forall c s fuel,
  (remaining + 2 <= fuel)%nat ->
  Async.outcome (fst (Async.run_alone fuel w (Async.scan remaining c s) s))
  = Some (fst (search remaining c w s))
  /\ snd (Async.run_alone fuel w (Async.scan remaining c s) s) = snd (search remaining c w s).
Proof.
  induction remaining as [|r IH]; intros c s fuel Hfuel.
  - destruct fuel as [|fuel]; [lia|]. simpl. split; reflexivity.
  - destruct fuel as [|fuel]; [lia|].
    rewrite search_step. simpl Async.scan.
    destruct (vmCache s) as [cache|] eqn:Hcache; [|simpl; split; reflexivity].
    destruct (decide (c ∈ cache)) as [Hin|Hout].
    + apply IH. lia.
    + cbn [Async.run_alone]. rewrite (resume_probe c r w s cache Hcache). cbv zeta.
      destruct (probe w c).
      * apply IH. lia.
      * destruct fuel as [|fuel]; [lia|]. cbn [Async.run_alone Async.resume].
        destruct fuel; simpl; split; reflexivity.
Qed.

Lemma run_alone_refresh w s fuel :
  (maxAttempts + 3 <= fuel)%nat ->
  Async.outcome (fst (Async.run_alone fuel w Async.AwaitRefresh s))
  = Some (fst (bind refreshVMCache
                 (fun _ => bind (get nextId)
                    (fun n => match n with
                              | None => throw (JsError "TypeError: null is not an object")
                              | Some c => search maxAttempts c
                              end)) w s))
  /\ snd (Async.run_alone fuel w Async.AwaitRefresh s)
     = snd (bind refreshVMCache
              (fun _ => bind (get nextId)
                 (fun n => match n with
                           | None => throw (JsError "TypeError: null is not an object")
                           | Some c => search maxAttempts c
                           end)) w s).
Proof.
  intros Hfuel. destruct fuel as [|fuel]; [lia|].
  cbn [Async.run_alone Async.resume].
  unfold bind at 1 3. rewrite refreshVMCache_run. cbn [snd].
  set (s1 := if needs_refresh w s then refreshed w s else s).
  unfold bind, get. destruct (nextId s1) as [c|].
  - apply run_alone_search. lia.
  - destruct fuel as [|fuel]; [lia|]. cbn [Async.run_alone]. split; reflexivity.
Qed.

(** A call that runs alone, resumed until it finishes, does what the
    sequential [getNextVMId] does. *)
Lemma run_alone_getNextVMId w s fuel :
  (maxAttempts + 5 <= fuel)%nat ->
  Async.outcome (fst (Async.run_alone fuel w Async.Start s))
  = Some (fst (getNextVMId w s))
  /\ snd (Async.run_alone fuel w Async.Start s) = snd (getNextVMId w s).
Proof.
  intros Hfuel.
  assert (Hunfold :
    getNextVMId w s
    = bind refreshVMCache
        (fun _ => bind (get nextId)
           (fun n => match n with
                     | None => throw (JsError "TypeError: null is not an object")
                     | Some c => search maxAttempts c
                     end)) w
        (match nextId s with Some _ => s | None => snd (initializeVMId w s) end)).
  { unfold getNextVMId, prepare, bind, get.
    destruct (nextId s); [reflexivity|]. rewrite initializeVMId_run. reflexivity. }
  rewrite Hunfold. clear Hunfold.
  destruct fuel as [|fuel]; [lia|].
  cbn [Async.run_alone Async.resume].
  destruct (nextId s) as [n|] eqn:Hn.
  - apply run_alone_refresh. lia.
  - destruct fuel as [|fuel]; [lia|]. cbn [Async.run_alone Async.resume].
    apply run_alone_refresh. lia.
Qed.

(** C1 as stated fails: the code has no lock.  A second call started
    while the first one awaits its probe reads the same counter; both probe
    1001, both find it free and both return it. *)
Lemma overlapping_calls_collide :
  Async.results
    (Async.run healthy_world [0; 0; 0; 1; 1; 0; 0; 1; 1]%nat
       ([Async.Start; Async.Start], fresh_process None))
  = [1001; 1001]
  /\ ~ NoDup [1001; 1001].
Proof.
  split; [vm_compute; reflexivity|].
  intros H. apply NoDup_cons in H as [H _]. apply H. left.
Qed.

(** The same two calls, the second started after the first has returned. *)
Example calls_in_turn :
  Async.results
    (Async.run healthy_world [0; 0; 0; 0; 0; 1; 1; 1; 1]%nat
       ([Async.Start; Async.Start], fresh_process None))
  = [1001; 1002].
Proof. vm_compute. reflexivity. Qed.

End Overlap.

(** ** Names and disk sizes *)

Section Names.

Lemma sanitize_char_props c :
  lower_name_char (JS.lower_char (if JS.name_char c then c else "-"%char)) = true
  /\ JS.name_char (JS.lower_char (if JS.name_char c then c else "-"%char)) = true
  /\ JS.lower_char (JS.lower_char c) = JS.lower_char c
  /\ (JS.name_char c = true -> JS.name_char (JS.lower_char c) = true)
  /\ (lower_name_char c = true -> JS.name_char c = true /\ JS.lower_char c = c).
Proof.
  destruct c as [[] [] [] [] [] [] [] []]; vm_compute; repeat split; auto; discriminate.
Qed.

Lemma sanitizeVMName_cons c name :
  sanitizeVMName (String c name)
  = String (JS.lower_char (if JS.name_char c then c else "-"%char)) (sanitizeVMName name).
Proof. reflexivity. Qed.

Lemma sanitizeVMName_length name :
  String.length (sanitizeVMName name) = String.length name.
Proof.
  induction name as [|c name IH]; [reflexivity|].
  rewrite sanitizeVMName_cons. simpl. rewrite IH. reflexivity.
Qed.

Lemma sanitizeVMName_chars name :
  all_chars lower_name_char (sanitizeVMName name) = true.
Proof.
  induction name as [|c name IH]; [reflexivity|].
  rewrite sanitizeVMName_cons. simpl.
  rewrite IH, (proj1 (sanitize_char_props c)). reflexivity.
Qed.

(** X1.  Whatever the requested name, the sanitised name has the same
    length and consists only of lower-case letters, digits, hyphens and
    underscores. *)
Theorem sanitizeVMName_safe (name : string) :
  String.length (sanitizeVMName name) = String.length name
  /\ all_chars lower_name_char (sanitizeVMName name) = true.
Proof.
  split.
  - apply sanitizeVMName_length.
  - apply sanitizeVMName_chars.
Qed.

Lemma sanitizeVMName_fixed name :
  all_chars lower_name_char name = true -> sanitizeVMName name = name.
Proof.
  induction name as [|c name IH]; [reflexivity|]. simpl all_chars. intros H.
  apply andb_prop in H as [Hc Hrest]. rewrite sanitizeVMName_cons, (IH Hrest).
  destruct (sanitize_char_props c) as (_ & _ & _ & _ & Hfix).
  destruct (Hfix Hc) as [-> ->]. reflexivity.
Qed.

(** X2.  Sanitising is idempotent: a sanitised name is left as it is. *)
Theorem sanitizeVMName_idempotent (name : string) :
  sanitizeVMName (sanitizeVMName name) = sanitizeVMName name.
Proof. apply sanitizeVMName_fixed. apply sanitizeVMName_chars. Qed.

(** X3.  A name the request schema accepts has no character replaced:
    sanitising only lower-cases it, and the result is again a name the
    schema accepts. *)
Theorem sanitizeVMName_of_valid (name : string) :
  name_schema_ok name = true ->
  sanitizeVMName name = JS.toLowerCase name
  /\ name_schema_ok (sanitizeVMName name) = true.
Proof.
  unfold name_schema_ok. intros H.
  apply andb_prop in H as [H Hchars]. apply andb_prop in H as [H Hne].
  apply andb_prop in H as [Hmin Hmax].
  assert (Heq : sanitizeVMName name = JS.toLowerCase name).
  { clear Hmin Hmax Hne. induction name as [|c name IH]; [reflexivity|].
    simpl in Hchars. apply andb_prop in Hchars as [Hc Hrest].
    rewrite sanitizeVMName_cons, Hc, (IH Hrest). reflexivity. }
  split; [exact Heq|].
  rewrite (sanitizeVMName_length name), Hmin, Hmax. simpl.
  apply andb_true_intro. split.
  - destruct name; [discriminate Hne | reflexivity].
  - clear Heq Hmin Hmax Hne. induction name as [|c name IH]; [reflexivity|].
    simpl in Hchars. apply andb_prop in Hchars as [Hc Hrest].
    rewrite sanitizeVMName_cons. simpl.
    rewrite (proj1 (proj2 (sanitize_char_props c))), (IH Hrest). reflexivity.
Qed.

Lemma sanitizeVMName_of_valid_witness :
  name_schema_ok "My-Test_VM1" = true
  /\ sanitizeVMName "My-Test_VM1" = "my-test_vm1"
  /\ name_schema_ok (sanitizeVMName "My-Test_VM1") = true.
Proof.
  assert (H : name_schema_ok "My-Test_VM1" = true) by reflexivity.
  destruct (sanitizeVMName_of_valid "My-Test_VM1" H) as [Heq Hok].
  split; [exact H|]. split; [rewrite Heq; reflexivity | exact Hok].
Defined.

End Names.

(** ** Disk sizes and templates *)

Section Config.
Import VMProvisioningService.

(** X4.  A disk size the request schema accepts is never empty, so it is
    the resolved disk size whatever the configured default, and it is resized
    to unless it is exactly the text [20G] (so [20g] and [20GB] are resized
    to). *)
Theorem validated_disk_size (opts : ProvisionOptions.t) (template : TemplateConfig.t)
    (defaults : DefaultsConfig.t) (networkConfig : NetworkConfig.t) (d : string) :
  ProvisionOptions.diskSize opts = Some d ->
  disk_size_schema_ok d = true ->
  FinalConfig.diskSize (finalConfig opts template defaults networkConfig) = d
  /\ (needs_resize d = true <-> d <> "20G").
Proof.
  intros Hd Hok.
  assert (Hne : d <> EmptyString) by (intros ->; discriminate Hok).
  split.
  - unfold finalConfig. simpl. rewrite Hd. destruct d; [contradiction | reflexivity].
  - rewrite needs_resize_spec. tauto.
Qed.

Lemma validated_disk_size_witness :
  ProvisionOptions.diskSize (sample_request "debian12" None (Some "20GB")) = Some "20GB"
  /\ disk_size_schema_ok "20GB" = true
  /\ FinalConfig.diskSize
       (finalConfig (sample_request "debian12" None (Some "20GB")) (sample_template None)
          (ConfigManager.getDefaults (sample_config None 1 "10G"))
          (DefaultsConfig.network (AppConfig.defaults (sample_config None 1 "10G"))))
     = "20GB"
  /\ needs_resize "20GB" = true.
Proof.
  split; [reflexivity|]. split; [reflexivity|].
  destruct (validated_disk_size (sample_request "debian12" None (Some "20GB"))
              (sample_template None)
              (ConfigManager.getDefaults (sample_config None 1 "10G"))
              (DefaultsConfig.network (AppConfig.defaults (sample_config None 1 "10G")))
              "20GB" eq_refl eq_refl) as [Hsize Hresize].
  split; [exact Hsize|]. apply Hresize. discriminate.
Defined.

Lemma toLowerCase_idempotent s : JS.toLowerCase (JS.toLowerCase s) = JS.toLowerCase s.
Proof.
  induction s as [|c s IH]; [reflexivity|]. simpl. rewrite IH.
  destruct (sanitize_char_props c) as (_ & _ & -> & _). reflexivity.
Qed.

Lemma lookup_In key templates t :
  ConfigManager.lookup key templates = Some t -> In (key, t) templates.
Proof.
  induction templates as [|[k t'] rest IH]; [discriminate|]. simpl.
  destruct (String.eqb k key) eqn:Hk.
  - apply String.eqb_eq in Hk. intros [= ->]. left. congruence.
  - intros H. right. apply IH. exact H.
Qed.

(** X5.  Template lookup ignores the case of the requested OS key: two
    keys that agree up to case get the same template, and a failed lookup
    names the key as requested and lists the registered keys.  For a key that
    is not an inherited property name, a template found is the one registered
    under the lower-cased key, so a configuration none of whose keys is
    lower-case supports no such OS. *)
Theorem getTemplate_case (config : AppConfig.t) (osName : string) :
  (forall osName',
      JS.toLowerCase osName' = JS.toLowerCase osName ->
      ok_value (ConfigManager.getTemplate config osName')
      = ok_value (ConfigManager.getTemplate config osName))
  /\ (forall e,
        ConfigManager.getTemplate config osName = Err e ->
        e = JsError ("Unsupported OS: " +:+ osName +:+ ". Available templates: "
                     +:+ JS.join ", " (map fst (AppConfig.templates config))))
  /\ (inherited_key (JS.toLowerCase osName) = false ->
      (forall t,
          ConfigManager.getTemplate config osName = Ok t ->
          In (JS.toLowerCase osName, t) (AppConfig.templates config)
          /\ ConfigManager.getTemplate config (JS.toLowerCase osName) = Ok t)
      /\ (Forall (fun kt => JS.toLowerCase (fst kt) <> fst kt) (AppConfig.templates config) ->
          ok_value (ConfigManager.getTemplate config osName) = None)).
Proof.
  unfold ConfigManager.getTemplate. split; [|split].
  - intros osName' Heq. rewrite Heq.
    destruct (ConfigManager.lookup _ _); reflexivity.
  - intros e H. destruct (ConfigManager.lookup _ _); [discriminate|].
    injection H as <-. reflexivity.
  - intros _. split.
    + intros t H. rewrite toLowerCase_idempotent.
      destruct (ConfigManager.lookup _ _) as [t'|] eqn:Hl; [|discriminate].
      injection H as ->. split; [apply lookup_In; exact Hl | reflexivity].
    + intros Hkeys.
      destruct (ConfigManager.lookup _ _) as [t|] eqn:Hl; [|reflexivity].
      apply lookup_In in Hl. rewrite Forall_forall in Hkeys.
      specialize (Hkeys _ (proj2 (list_elem_of_In _ _) Hl)). simpl in Hkeys.
      rewrite toLowerCase_idempotent in Hkeys. contradiction.
Qed.

Lemma getTemplate_case_witness :
  JS.toLowerCase "DEBIAN12" = JS.toLowerCase "Debian12"
  /\ inherited_key (JS.toLowerCase "Debian12") = false
  /\ ConfigManager.getTemplate (sample_config None 1 "10G") "Debian12"
     = Ok (sample_template None)
  /\ ok_value (ConfigManager.getTemplate (sample_config None 1 "10G") "DEBIAN12")
     = Some (sample_template None)
  /\ In ("debian12", sample_template None) (AppConfig.templates (sample_config None 1 "10G")).
Proof.
  assert (Hcase : JS.toLowerCase "DEBIAN12" = JS.toLowerCase "Debian12") by reflexivity.
  assert (Hown : inherited_key (JS.toLowerCase "Debian12") = false) by reflexivity.
  assert (Hget : ConfigManager.getTemplate (sample_config None 1 "10G") "Debian12"
                 = Ok (sample_template None)) by reflexivity.
  destruct (getTemplate_case (sample_config None 1 "10G") "Debian12") as (Hsame & _ & Hfound).
  split; [exact Hcase|]. split; [exact Hown|]. split; [exact Hget|].
  split; [rewrite (Hsame "DEBIAN12" Hcase), Hget; reflexivity|].
  exact (proj1 (proj1 (Hfound Hown) _ Hget)).
Defined.

End Config.

(** ** The cache between calls *)

Section Cache.
Import VMIdManager VMIdManagerFacts.

Lemma assigned_ttl_pos w : 0 < assigned_ttl w <= 30000.
Proof.
  unfold assigned_ttl, fallback_ttl.
  destruct (snd (cluster_outcome w)), (list_tier_ok w), (files_tier_ok w); lia.
Qed.

Lemma refresh_commands_cluster w : exists cmds, refresh_commands w = cmds ++ [PveshClusterResources].
Proof. unfold refresh_commands. eauto. Qed.

(** X6.  [refreshCache] rebuilds the cache even when it has not expired
    (the clock being past the epoch): it always starts with the cluster
    query, leaves the cache of the first tier that succeeds and an expiry
    between 5 and 30 seconds ahead, and never throws. *)
Theorem refreshCache_rebuilds (w : World) (s : State) :
  0 <= now w ->
  fst (refreshCache w s) = Ok tt
  /\ vmCache (snd (refreshCache w s)) = Some (refreshed_cache w)
  /\ now w + 5000 <= cacheExpiry (snd (refreshCache w s)) <= now w + 30000
  /\ exists cmds,
       calls (snd (refreshCache w s)) = cmds ++ PveshClusterResources :: calls s.
Proof.
  intros Hnow. unfold refreshCache, bind, modify. rewrite refreshVMCache_run.
  assert (Hdue : needs_refresh w (set_cacheExpiry 0 s) = true).
  { unfold needs_refresh. simpl. replace (now w <? 0) with false by (symmetry; lia).
    rewrite andb_false_r. reflexivity. }
  rewrite Hdue. simpl. split; [reflexivity|]. split; [reflexivity|]. split.
  - unfold assigned_ttl, fallback_ttl.
    destruct (snd (cluster_outcome w)), (list_tier_ok w), (files_tier_ok w); lia.
  - destruct (refresh_commands_cluster w) as [cmds ->]. exists cmds.
    rewrite <- app_assoc. reflexivity.
Qed.

Lemma refreshCache_rebuilds_witness :
  0 <= now busy_world
  /\ needs_refresh busy_world (snd (refreshVMCache busy_world (fresh_process None))) = false
  /\ vmCache (snd (refreshCache busy_world
                     (snd (refreshVMCache busy_world (fresh_process None)))))
     = Some (refreshed_cache busy_world)
  /\ exists cmds,
       calls (snd (refreshCache busy_world
                     (snd (refreshVMCache busy_world (fresh_process None)))))
       = cmds ++ PveshClusterResources
                 :: calls (snd (refreshVMCache busy_world (fresh_process None))).
Proof.
  assert (Hnow : 0 <= now busy_world) by (vm_compute; discriminate).
  destruct (refreshCache_rebuilds busy_world
              (snd (refreshVMCache busy_world (fresh_process None))) Hnow)
    as (_ & Hcache & _ & Hcalls).
  split; [exact Hnow|]. split; [vm_compute; reflexivity|].
  split; [exact Hcache | exact Hcalls].
Defined.

(** X7.  A refresh leaves an expiry in the future, and until that expiry
    a further refresh does nothing: no command is issued and the cache is
    kept, in whatever world the later call runs. *)
Theorem refresh_within_ttl (w : World) (s : State) :
  now w < cacheExpiry (snd (refreshVMCache w s))
  /\ forall w2,
      now w2 < cacheExpiry (snd (refreshVMCache w s)) ->
      refreshVMCache w2 (snd (refreshVMCache w s)) = (Ok tt, snd (refreshVMCache w s)).
Proof.
  split.
  - rewrite refreshVMCache_run. simpl.
    destruct (needs_refresh w s) eqn:Hdue.
    + simpl. pose proof (assigned_ttl_pos w). lia.
    + unfold needs_refresh in Hdue. apply negb_false_iff in Hdue.
      apply andb_prop in Hdue as [_ Hlt]. lia.
  - intros w2 Hlt. destruct (refreshVMCache_cache w s) as [c Hc].
    apply refresh_not_due. unfold needs_refresh. rewrite Hc.
    replace (now w2 <? _) with true by (symmetry; lia). reflexivity.
Qed.

Lemma refresh_within_ttl_witness :
  now full_world < cacheExpiry (snd (refreshVMCache busy_world (fresh_process None)))
  /\ calls (snd (refreshVMCache full_world
                   (snd (refreshVMCache busy_world (fresh_process None)))))
     = [QmList; PveshClusterResources].
Proof.
  assert (Hlt : now full_world
                < cacheExpiry (snd (refreshVMCache busy_world (fresh_process None))))
    by (vm_compute; reflexivity).
  split; [exact Hlt|].
  rewrite (proj2 (refresh_within_ttl busy_world (fresh_process None)) full_world Hlt).
  vm_compute. reflexivity.
Defined.

(** X8.  What [getCacheStats] reports tells whether the next allocation
    refreshes: [expiresIn] is never negative; with a cache in place it is
    positive exactly when [refreshVMCache] would leave the state untouched;
    before the first refresh the reported size is 0 and a refresh is due. *)
Theorem getCacheStats_expiry (w : World) (s : State) :
  0 <= CacheStats.expiresIn (getCacheStats w s)
  /\ (forall c, vmCache s = Some c ->
        CacheStats.size (getCacheStats w s) = size c
        /\ (0 < CacheStats.expiresIn (getCacheStats w s)
            <-> refreshVMCache w s = (Ok tt, s)))
  /\ (vmCache s = None ->
      CacheStats.size (getCacheStats w s) = 0%nat
      /\ refreshVMCache w s = (Ok tt, refreshed w s)).
Proof.
  unfold getCacheStats. simpl. split; [lia|]. split.
  - intros c Hc. rewrite Hc. split; [reflexivity|].
    rewrite refreshVMCache_run. unfold needs_refresh. rewrite Hc. simpl.
    destruct (now w <? cacheExpiry s) eqn:Hlt; simpl.
    + split; [reflexivity | intros _; lia].
    + split; [intros H; lia|]. intros H.
      assert (Hlen : length (calls (refreshed w s)) = length (calls s)) by congruence.
      simpl in Hlen. destruct (refresh_commands_cluster w) as [cmds Hcmds].
      rewrite Hcmds, !length_app in Hlen. simpl in Hlen. lia.
  - intros Hc. rewrite Hc. split; [reflexivity|].
    rewrite refreshVMCache_run. unfold needs_refresh. rewrite Hc. reflexivity.
Qed.

Lemma getCacheStats_expiry_witness :
  vmCache (snd (refreshVMCache busy_world (fresh_process None)))
  = Some (list_to_set [1001; 1002; 1003])
  /\ CacheStats.size (getCacheStats busy_world
                        (snd (refreshVMCache busy_world (fresh_process None)))) = 3%nat
  /\ CacheStats.expiresIn (getCacheStats busy_world
                             (snd (refreshVMCache busy_world (fresh_process None)))) = 30000.
Proof.
  assert (Hc : vmCache (snd (refreshVMCache busy_world (fresh_process None)))
               = Some (list_to_set [1001; 1002; 1003])) by (vm_compute; reflexivity).
  destruct (getCacheStats_expiry busy_world
              (snd (refreshVMCache busy_world (fresh_process None)))) as (_ & Hsome & _).
  destruct (Hsome _ Hc) as [Hsize _].
  split; [exact Hc|]. split; [rewrite Hsize; vm_compute; reflexivity|].
  vm_compute. reflexivity.
Defined.

(** X9.  For a call of [getNextVMId] that runs with no other call
    interleaved and starts from a counter [n] already in memory whose window
    of 1000 candidates consists of safe integers: the counter does not
    decrease.  A call that returns [v] found the counter at most [v] and
    leaves it at [v + 1], a safe integer; a call that throws leaves it as it
    was. *)
Theorem nextId_never_decreases (w : World) (s : State) (n : Z) :
  nextId s = Some n ->
  safe_window n ->
  exists n',
    nextId (snd (getNextVMId w s)) = Some n'
    /\ n <= n'
    /\ safe_integer n'
    /\ (forall v, fst (getNextVMId w s) = Ok v -> n <= v < n + 1000 /\ n' = v + 1)
    /\ (forall e, fst (getNextVMId w s) = Err e -> n' = n).
Proof.
  intros Hn Hsafe. pose proof (prepare_nextId w s) as Hstart. rewrite Hn in Hstart.
  destruct (getNextVMId w s) as [[v|e] s'] eqn:Hrun; simpl.
  - destruct (getNextVMId_ok w s v s' Hrun) as (start & Hs & Hle & Hn' & _).
    pose proof (getNextVMId_window w s n v s' Hstart Hrun) as Hv.
    destruct (safe_window_bounds n v Hsafe Hv) as [_ Hsafe'].
    exists (v + 1). split; [exact Hn'|]. split; [lia|]. split; [exact Hsafe'|].
    split; [intros v' [= <-]; split; [exact Hv | reflexivity] | intros e' H; discriminate].
  - destruct (getNextVMId_err w s e s' Hrun) as [Hn' _].
    exists n. split; [congruence|]. split; [lia|]. split; [exact (proj1 Hsafe)|].
    split; [intros v' H; discriminate | intros; reflexivity].
Qed.

Lemma nextId_never_decreases_witness :
  nextId (set_nextId (Some 1004) (fresh_process None)) = Some 1004
  /\ safe_window 1004
  /\ exists n',
       nextId (snd (getNextVMId busy_world (set_nextId (Some 1004) (fresh_process None))))
       = Some n'
       /\ 1004 <= n'
       /\ safe_integer n'.
Proof.
  assert (H : nextId (set_nextId (Some 1004) (fresh_process None)) = Some 1004)
    by reflexivity.
  assert (Hsafe : safe_window 1004)
    by (unfold safe_window, safe_integer, MAX_SAFE_INTEGER; lia).
  destruct (nextId_never_decreases busy_world _ 1004 H Hsafe) as (n' & Hn' & Hle & Hs & _).
  split; [exact H|]. split; [exact Hsafe|]. exists n'.
  split; [exact Hn'|]. split; [exact Hle | exact Hs].
Defined.

End Cache.

(** ** The file tier and the probe name the same files *)

Section ConfigFiles.
Import VMIdManager VMIdManagerFacts.

Lemma digit_not_dot c : is_dec_digit c = true -> not_dot c = true.
Proof. destruct c as [[] [] [] [] [] [] [] []]; vm_compute; auto. Qed.

Lemma all_digits_not_dot s : all_digits s = true -> all_chars not_dot s = true.
Proof.
  induction s as [|c s IH]; [reflexivity|]. simpl. intros H.
  apply andb_prop in H as [Hc Hs]. rewrite (digit_not_dot c Hc), (IH Hs). reflexivity.
Qed.

Lemma toString_not_dot n : all_chars not_dot (JS.toString n) = true.
Proof.
  destruct (toString_shape n) as (digits & Hd & Hne & ->).
  destruct (Z.ltb n 0); simpl; rewrite all_digits_not_dot by exact Hd; reflexivity.
Qed.

Lemma endsWith_append s suffix : JS.endsWith (s +:+ suffix) suffix = true.
Proof.
  induction s as [|c s IH].
  - change (EmptyString +:+ suffix) with suffix.
    destruct suffix; [reflexivity|].
    unfold JS.endsWith; fold JS.endsWith. rewrite String.eqb_refl. reflexivity.
  - change (String c s +:+ suffix) with (String c (s +:+ suffix)).
    unfold JS.endsWith; fold JS.endsWith. rewrite IH. apply orb_true_r.
Qed.

Lemma remove_first_conf s :
  all_chars not_dot s = true -> JS.remove_first ".conf" (s +:+ ".conf") = s.
Proof.
  induction s as [|c s IH]; [reflexivity|]. simpl all_chars. intros H.
  apply andb_prop in H as [Hc Hs].
  change (String c s +:+ ".conf") with (String c (s +:+ ".conf")).
  unfold JS.remove_first; fold JS.remove_first.
  assert (Hstrip : JS.strip_prefix ".conf" (String c (s +:+ ".conf")) = None).
  { change (JS.strip_prefix ".conf" (String c (s +:+ ".conf")))
      with (if Ascii.eqb "." c then JS.strip_prefix "conf" (s +:+ ".conf") else None).
    unfold not_dot in Hc. apply negb_true_iff in Hc.
    rewrite Ascii.eqb_sym, Hc. reflexivity. }
  rewrite Hstrip, (IH Hs). reflexivity.
Qed.

Lemma files_ids_mono files : forall acc x, x ∈ acc -> x ∈ files_ids files acc.
Proof.
  induction files as [|file rest IH]; intros acc x Hx; [exact Hx|]. simpl.
  destruct (JS.endsWith file ".conf"); [|apply IH; exact Hx].
  destruct (JS.parseInt _); apply IH; [apply elem_of_union; right|]; exact Hx.
Qed.

Lemma files_ids_In n files : forall acc,
  In (JS.toString n +:+ ".conf") files -> n ∈ files_ids files acc.
Proof.
  induction files as [|file rest IH]; intros acc Hin; [destruct Hin|].
  simpl. destruct Hin as [->|Hin].
  - rewrite endsWith_append, (remove_first_conf _ (toString_not_dot n)),
      parseInt_toString_exact.
    apply files_ids_mono, elem_of_union. left. apply elem_of_singleton. reflexivity.
  - destruct (JS.endsWith file ".conf"); [|apply IH; exact Hin].
    destruct (JS.parseInt _); apply IH; exact Hin.
Qed.

(** X10.  The file tier of [refreshVMCache] reads back the names the probe
    looks for.  When a refresh is due, the cluster query and [qm list] fail,
    [hostname] succeeds and the listing of the node's configuration directory
    contains [<n>.conf] for a safe integer [n], the refresh leaves [n] in the
    cache; and [<n>.conf] in that directory is exactly the file whose
    accessibility [quickIdCheck] answers for [n]. *)
Theorem files_tier_caches_probed_name (w : World) (s : State) (n : Z)
    (files : list string) :
  needs_refresh w s = true ->
  snd (cluster_outcome w) = false ->
  list_tier_ok w = false ->
  succeeded Hostname w = true ->
  fs_readdir w (configDir (JS.trim (stdout_of Hostname w))) = Some files ->
  safe_integer n ->
  In (JS.toString n +:+ ".conf") files ->
  (exists cache, vmCache (snd (refreshVMCache w s)) = Some cache /\ n ∈ cache)
  /\ forall s0,
      fst (quickIdCheck n w s0)
      = Ok (fs_access w (configDir (JS.trim (stdout_of Hostname w))
                         +:+ (JS.toString n +:+ ".conf"))).
Proof.
  intros Hdue Hcluster Hlist Hhost Hdir _ Hin. split.
  - rewrite refreshVMCache_run, Hdue. cbn [snd vmCache refreshed].
    eexists. split; [reflexivity|].
    unfold refreshed_cache. rewrite Hcluster.
    unfold fallback_cache, files_tier_ok. rewrite Hlist, Hhost, Hdir. cbn [andb].
    apply files_ids_In. exact Hin.
  - intros s0. rewrite quickIdCheck_eq. cbn [fst].
    unfold probe. unfold succeeded in Hhost. unfold stdout_of.
    destruct (exec w Hostname) as [code out err|]; [|discriminate Hhost].
    rewrite Hhost. reflexivity.
Qed.

Lemma files_tier_caches_probed_name_witness :
  needs_refresh scanned_world (fresh_process None) = true
  /\ snd (cluster_outcome scanned_world) = false
  /\ list_tier_ok scanned_world = false
  /\ succeeded Hostname scanned_world = true
  /\ fs_readdir scanned_world (configDir (JS.trim (stdout_of Hostname scanned_world)))
     = Some ["100.conf"; "1004.conf"; "lost+found"]
  /\ safe_integer 1004
  /\ (exists cache,
        vmCache (snd (refreshVMCache scanned_world (fresh_process None))) = Some cache
        /\ (1004 : Z) ∈ cache)
  /\ fst (quickIdCheck 1004 scanned_world (fresh_process None)) = Ok true.
Proof.
  assert (Hdir : fs_readdir scanned_world
                   (configDir (JS.trim (stdout_of Hostname scanned_world)))
                 = Some ["100.conf"; "1004.conf"; "lost+found"])
    by (vm_compute; reflexivity).
  assert (Hsafe : safe_integer 1004) by (unfold safe_integer, MAX_SAFE_INTEGER; lia).
  assert (Hin : In (JS.toString 1004 +:+ ".conf") ["100.conf"; "1004.conf"; "lost+found"]).
  { right. left. vm_compute. reflexivity. }
  destruct (files_tier_caches_probed_name scanned_world (fresh_process None) 1004 _
              eq_refl eq_refl eq_refl eq_refl Hdir Hsafe Hin) as [Hcache Hprobe].
  split; [reflexivity|]. split; [reflexivity|]. split; [reflexivity|].
  split; [reflexivity|]. split; [exact Hdir|]. split; [exact Hsafe|].
  split; [exact Hcache|].
  rewrite Hprobe. vm_compute. reflexivity.
Defined.

End ConfigFiles.

(** ** The health check and the refresh *)

Section Health.
Import VMIdManager VMIdManagerFacts.

(** X11.  [validateProxmoxConnection] never throws, issues the one
    command [qm list] and answers whether it succeeded.  When it answers
    [true], a cache refresh that is due in the same world never falls back to
    the file scan: it issues no [hostname] and sets the expiry 30 s ahead. *)
Theorem validateProxmoxConnection_refresh (w : World) (s : State) :
  validateProxmoxConnection w s
  = (Ok (succeeded QmList w), set_calls (QmList :: calls s) s)
  /\ (succeeded QmList w = true ->
      forall s0,
        needs_refresh w s0 = true ->
        cacheExpiry (snd (refreshVMCache w s0)) = now w + 30000
        /\ ~ In Hostname (refresh_commands w)
        /\ calls (snd (refreshVMCache w s0)) = refresh_commands w ++ calls s0).
Proof.
  split.
  - unfold validateProxmoxConnection, try_catch, bind, runCommand, ret, succeeded.
    simpl exec. destruct (sh w QmList) as [code out err|]; [|reflexivity].
    destruct (Z.eqb code 0); reflexivity.
  - intros Hok s0 Hdue. rewrite refreshVMCache_run, Hdue. simpl.
    unfold assigned_ttl, fallback_ttl, refresh_commands, fallback_commands, list_tier_ok.
    rewrite Hok. split; [destruct (snd (cluster_outcome w)); reflexivity|].
    split; [|reflexivity].
    destruct (snd (cluster_outcome w)); simpl; intros H;
      repeat (destruct H as [H|H]; [discriminate H|]); exact H.
Qed.

Lemma validateProxmoxConnection_refresh_witness :
  succeeded QmList busy_world = true
  /\ needs_refresh busy_world (fresh_process None) = true
  /\ fst (validateProxmoxConnection busy_world (fresh_process None)) = Ok true
  /\ cacheExpiry (snd (refreshVMCache busy_world (fresh_process None)))
     = now busy_world + 30000.
Proof.
  assert (Hok : succeeded QmList busy_world = true) by reflexivity.
  assert (Hdue : needs_refresh busy_world (fresh_process None) = true) by reflexivity.
  destruct (validateProxmoxConnection_refresh busy_world (fresh_process None))
    as [Hrun Hrefresh].
  split; [exact Hok|]. split; [exact Hdue|].
  split; [rewrite Hrun, Hok; reflexivity|].
  exact (proj1 (Hrefresh Hok _ Hdue)).
Defined.

End Health.

(** ** The pipeline, command by command *)

Section Pipeline.
Import VMIdManager VMIdManagerFacts VMProvisioningService.

(** The four steps issue the planned commands in order and stop at the
    first that fails. *)
Lemma pipeline_run templateId vmid config w s :
  pipeline templateId vmid config w s
  = (match first_failure w (planned_commands templateId vmid config) with
     | None => Ok tt
     | Some c => Err (command_error w c)
     end,
     set_db_status
       (match first_failure w (planned_commands templateId vmid config) with
        | None => if db_ok w then (vmid, "running") :: db_status s else db_status s
        | Some _ => db_status s
        end)
       (set_calls
          (rev (issued_until_failure w (planned_commands templateId vmid config))
           ++ calls s) s)).
Proof.
  unfold pipeline, cloneTemplate, configureVM, setupCloudInit, startVM,
    planned_commands, succeeded, DatabaseService.updateVMStatus.
  unfold bind, try_catch, runCommand, ret.
  destruct (needs_resize (FinalConfig.diskSize config));
    destruct (FinalConfig.sshKey config) as [key|];
    try destruct (JS.str_truthy key);
    simpl app; simpl first_failure; simpl issued_until_failure; simpl exec;
    unfold succeeded; simpl exec;
    repeat match goal with
      | |- context [sh w ?c] =>
          let code := fresh "code" in
          let E := fresh "E" in
          destruct (sh w c) as [code ? ?|] eqn:E;
            [destruct (Z.eqb code 0)|]; simpl;
            try (unfold command_error; simpl exec; rewrite E; destruct s; reflexivity)
      end;
    destruct (db_ok w); destruct s; reflexivity.
Qed.

Lemma issued_prefix w cmds :
  exists rest, cmds = issued_until_failure w cmds ++ rest.
Proof.
  induction cmds as [|c cmds [rest IH]]; [exists []; reflexivity|]. simpl.
  destruct (succeeded c w); [exists rest; simpl; congruence | exists cmds; reflexivity].
Qed.

Lemma first_failure_spec w cmds :
  match first_failure w cmds with
  | None =>
      issued_until_failure w cmds = cmds
      /\ Forall (fun c => succeeded c w = true) cmds
  | Some c =>
      succeeded c w = false
      /\ exists before,
           issued_until_failure w cmds = before ++ [c]
           /\ Forall (fun c' => succeeded c' w = true) before
  end.
Proof.
  induction cmds as [|c cmds IH]; simpl; [split; [reflexivity | constructor]|].
  destruct (succeeded c w) eqn:Hc.
  - destruct (first_failure w cmds) as [c'|].
    + destruct IH as (Hfail & before & Hissued & Hok). split; [exact Hfail|].
      exists (c :: before). rewrite Hissued. split; [reflexivity | constructor; assumption].
    + destruct IH as [Hissued Hok]. rewrite Hissued.
      split; [reflexivity | constructor; assumption].
  - split; [exact Hc|]. exists []. split; [reflexivity | constructor].
Qed.

Lemma planned_target templateId vmid config :
  Forall (fun c => target c = Some vmid) (planned_commands templateId vmid config).
Proof.
  unfold planned_commands.
  destruct (needs_resize _), (FinalConfig.sshKey config) as [key|];
    try destruct (JS.str_truthy key); simpl; repeat constructor.
Qed.

(** X12.  The four pipeline steps issue their commands strictly in the
    planned order (clone, cores and memory, network device, optional resize,
    cloud-init user, password, host name, optional SSH key, start), every one
    on the allocated machine, and stop at the first command that fails: what
    is issued is a prefix of the plan, every issued command but the failing
    one succeeded, and the error thrown is that command's. *)
Theorem pipeline_stops_at_first_failure (templateId vmid : Z) (config : FinalConfig.t)
    (w : World) (s : State) :
  calls (snd (pipeline templateId vmid config w s))
  = rev (issued_until_failure w (planned_commands templateId vmid config)) ++ calls s
  /\ (exists rest,
        planned_commands templateId vmid config
        = issued_until_failure w (planned_commands templateId vmid config) ++ rest)
  /\ Forall (fun c => target c = Some vmid)
       (issued_until_failure w (planned_commands templateId vmid config))
  /\ match first_failure w (planned_commands templateId vmid config) with
     | None =>
         fst (pipeline templateId vmid config w s) = Ok tt
         /\ issued_until_failure w (planned_commands templateId vmid config)
            = planned_commands templateId vmid config
     | Some c =>
         fst (pipeline templateId vmid config w s) = Err (command_error w c)
         /\ succeeded c w = false
         /\ exists before,
              issued_until_failure w (planned_commands templateId vmid config)
              = before ++ [c]
              /\ Forall (fun c' => succeeded c' w = true) before
     end.
Proof.
  rewrite pipeline_run.
  pose proof (planned_target templateId vmid config) as Ht.
  generalize dependent (planned_commands templateId vmid config). intros cmds Ht.
  cbn [fst snd]. split; [destruct s; reflexivity|].
  split; [apply issued_prefix|]. split.
  - destruct (issued_prefix w cmds) as [rest Hrest].
    rewrite Hrest in Ht. apply Forall_app in Ht as [Ht _]. exact Ht.
  - pose proof (first_failure_spec w cmds) as H.
    destruct (first_failure w cmds) as [c|].
    + destruct H as (Hfail & before & Hissued & Hok).
      split; [reflexivity|]. split; [exact Hfail|]. exists before. split; assumption.
    + destruct H as [Hissued _]. split; [reflexivity | exact Hissued].
Qed.

Lemma getNetworkConfig_after_template config osName template :
  ConfigManager.getTemplate config osName = Ok template ->
  exists networkConfig, ConfigManager.getNetworkConfig config osName = Ok networkConfig.
Proof.
  intros H. unfold ConfigManager.getNetworkConfig. rewrite H.
  destruct (JS.str_truthy osName); [|eexists; reflexivity].
  destruct (TemplateConfig.network template); eexists; reflexivity.
Qed.

Lemma first_failure_none w cmds :
  first_failure w cmds = None <-> Forall (fun c => succeeded c w = true) cmds.
Proof.
  induction cmds as [|c cmds IH]; simpl; [split; [constructor | reflexivity]|].
  destruct (succeeded c w) eqn:Hc.
  - rewrite IH. split; [intros H; constructor; assumption|].
    intros H. inversion H; assumption.
  - split; [discriminate|]. intros H. inversion H; congruence.
Qed.

(** The network device is set once the clone and the cores and memory
    commands have succeeded. *)
Lemma issued_third w a b c rest :
  succeeded a w = true -> succeeded b w = true ->
  In c (issued_until_failure w (a :: b :: c :: rest)).
Proof.
  intros Ha Hb. cbn [issued_until_failure]. rewrite Ha, Hb.
  right. right. destruct (succeeded c w); left; reflexivity.
Qed.

(** C4.  For a request with a non-empty [os] key that names a known
    template, the VLAN of the resolved configuration is the request's
    [network.vlan] when it is defined, whatever its value, else the
    template's [network.vlan] when it is defined, else the global default.
    [provisionVM] configures the network device from that resolved network
    once the clone and the cores and memory commands have succeeded, and when
    every planned command succeeds it returns a result that reports the same
    VLAN, as does any result it returns. *)
Theorem resolved_vlan_precedence (config : AppConfig.t) (opts : ProvisionOptions.t)
    (template : TemplateConfig.t) :
  ProvisionOptions.os opts <> EmptyString ->
  ConfigManager.getTemplate config (ProvisionOptions.os opts) = Ok template ->
  let vlan :=
    vlan_precedence (request_vlan opts) (template_vlan template)
      (NetworkConfig.vlan (DefaultsConfig.network (AppConfig.defaults config))) in
  exists networkConfig,
    ConfigManager.getNetworkConfig config (ProvisionOptions.os opts) = Ok networkConfig
    /\ let final :=
         finalConfig opts template (ConfigManager.getDefaults config) networkConfig in
       NetworkConfig.vlan (FinalConfig.network final) = vlan
       /\ resolvedVlan config opts = Ok vlan
       /\ forall w s vmid s1,
            getNextVMId w s = (Ok vmid, s1) ->
            (succeeded (QmClone (TemplateConfig.id template) vmid (FinalConfig.name final)) w
             = true ->
             succeeded (QmSetCoresMemory vmid (FinalConfig.cores final)
                          (FinalConfig.memory final)) w = true ->
             In (QmSetNet0 vmid (netConfig (FinalConfig.network final)))
               (calls (snd (provisionVM config opts w s))))
            /\ (Forall (fun c => succeeded c w = true)
                  (planned_commands (TemplateConfig.id template) vmid final) ->
                exists r s',
                  provisionVM config opts w s = (Ok r, s')
                  /\ ResultNetwork.vlan (ResultConfig.network (ProvisionResult.config r))
                     = vlan)
            /\ (forall r s',
                  provisionVM config opts w s = (Ok r, s') ->
                  ResultNetwork.vlan (ResultConfig.network (ProvisionResult.config r))
                  = vlan).
Proof.
  intros Hos Htemplate. cbv zeta.
  assert (Htruthy : JS.str_truthy (ProvisionOptions.os opts) = true).
  { destruct (ProvisionOptions.os opts); [contradiction Hos; reflexivity | reflexivity]. }
  assert (Hnet : exists networkConfig,
             ConfigManager.getNetworkConfig config (ProvisionOptions.os opts)
             = Ok networkConfig
             /\ NetworkConfig.vlan (finalNetworkConfig opts networkConfig)
                = vlan_precedence (request_vlan opts) (template_vlan template)
                    (NetworkConfig.vlan (DefaultsConfig.network (AppConfig.defaults config)))).
  { unfold ConfigManager.getNetworkConfig. rewrite Htruthy, Htemplate.
    unfold finalNetworkConfig, vlan_precedence, request_vlan, template_vlan.
    destruct (TemplateConfig.network template) as [network|];
      (eexists; split; [reflexivity|]); simpl;
      destruct (ProvisionOptions.network opts) as [n|]; try reflexivity;
      destruct (NetworkOptions.vlan n); reflexivity. }
  destruct Hnet as (networkConfig & Hget & Hvlan).
  exists networkConfig. split; [exact Hget|]. split; [exact Hvlan|].
  split; [unfold resolvedVlan; rewrite Hget, Hvlan; reflexivity|].
  intros w s vmid s1 Halloc.
  set (final := finalConfig opts template (ConfigManager.getDefaults config) networkConfig).
  assert (Hany : forall r s',
             provisionVM config opts w s = (Ok r, s') ->
             ResultNetwork.vlan (ResultConfig.network (ProvisionResult.config r))
             = vlan_precedence (request_vlan opts) (template_vlan template)
                 (NetworkConfig.vlan (DefaultsConfig.network (AppConfig.defaults config)))).
  { intros r s' Hrun.
    destruct (provisionVM_result config opts w s r s' Hrun)
      as (vmid' & template' & networkConfig' & _ & Hget' & ->).
    rewrite Hget in Hget'. injection Hget' as <-. exact Hvlan. }
  split; [|split; [|exact Hany]].
  - intros Hclone Hcores.
    rewrite provisionVM_unfold, Halloc, Htemplate, Hget. cbv zeta. fold final.
    rewrite pipeline_run.
    assert (Hin : In (QmSetNet0 vmid (netConfig (FinalConfig.network final)))
                    (issued_until_failure w
                       (planned_commands (TemplateConfig.id template) vmid final))).
    { unfold planned_commands. cbn [app]. apply issued_third; assumption. }
    apply (proj1 (in_rev _ _)) in Hin.
    destruct (first_failure w _); cbn [snd]; destruct s1; cbn [calls set_calls set_db_status].
    + apply in_or_app. right. apply in_or_app. left. exact Hin.
    + apply in_or_app. left. exact Hin.
  - intros Hall.
    assert (Hrun : provisionVM config opts w s
                   = (Ok (provisionResult vmid final),
                      snd (provisionVM config opts w s))).
    { rewrite provisionVM_unfold, Halloc, Htemplate, Hget. cbv zeta. fold final.
      rewrite pipeline_run.
      rewrite (proj2 (first_failure_none w _) Hall). reflexivity. }
    eexists; eexists. split; [exact Hrun|]. exact (Hany _ _ Hrun).
Qed.

(** Request 100, template 50, default 1 resolves to 100; without a
    request VLAN to 50; with neither to 1; a request VLAN of 0 resolves to 0,
    although the schema of the route would refuse it.  On a healthy node the request for VLAN 100 sets the network device with
    tag 100 and the result reports VLAN 100. *)
Lemma resolved_vlan_precedence_witness :
  let config := sample_config (Some 50) 1 "10G" in
  let opts := sample_request "debian12" (Some 100) None in
  ProvisionOptions.os opts <> EmptyString
  /\ ConfigManager.getTemplate config (ProvisionOptions.os opts)
     = Ok (sample_template (Some 50))
  /\ resolvedVlan config opts = Ok 100
  /\ resolvedVlan config (sample_request "debian12" None None) = Ok 50
  /\ resolvedVlan (sample_config None 1 "10G") (sample_request "debian12" None None) = Ok 1
  /\ resolvedVlan config (sample_request "debian12" (Some 0) None) = Ok 0
  /\ In (QmSetNet0 1001 "virtio,bridge=vmbr0,tag=100,rate=125")
       (calls (snd (provisionVM config opts healthy_world (fresh_process None))))
  /\ exists r s',
       provisionVM config opts healthy_world (fresh_process None) = (Ok r, s')
       /\ ResultNetwork.vlan (ResultConfig.network (ProvisionResult.config r)) = 100.
Proof.
  cbv zeta.
  assert (Hos : ProvisionOptions.os (sample_request "debian12" (Some 100) None)
                <> EmptyString) by discriminate.
  assert (Htemplate :
    ConfigManager.getTemplate (sample_config (Some 50) 1 "10G")
      (ProvisionOptions.os (sample_request "debian12" (Some 100) None))
    = Ok (sample_template (Some 50))) by reflexivity.
  assert (Halloc : getNextVMId healthy_world (fresh_process None)
                   = (Ok 1001, snd (getNextVMId healthy_world (fresh_process None))))
    by (vm_compute; reflexivity).
  destruct (resolved_vlan_precedence _ _ _ Hos Htemplate)
    as (networkConfig & Hget & _ & Hresolved & Hrun).
  destruct (Hrun healthy_world (fresh_process None) 1001 _ Halloc) as (Hnet0 & Hok & _).
  assert (Hconfig : networkConfig
                    = {| NetworkConfig.bridge := "vmbr0"; NetworkConfig.model := "virtio";
                         NetworkConfig.vlan := 50; NetworkConfig.speed := "125" |}).
  { vm_compute in Hget. injection Hget as <-. reflexivity. }
  subst networkConfig.
  split; [exact Hos|]. split; [exact Htemplate|]. split; [exact Hresolved|].
  split.
  { destruct (resolved_vlan_precedence (sample_config (Some 50) 1 "10G")
                (sample_request "debian12" None None) (sample_template (Some 50))
                Hos eq_refl) as (nc & _ & _ & H & _). exact H. }
  split.
  { destruct (resolved_vlan_precedence (sample_config None 1 "10G")
                (sample_request "debian12" None None) (sample_template None)
                Hos eq_refl) as (nc & _ & _ & H & _). exact H. }
  split.
  { destruct (resolved_vlan_precedence (sample_config (Some 50) 1 "10G")
                (sample_request "debian12" (Some 0) None) (sample_template (Some 50))
                Hos eq_refl) as (nc & _ & _ & H & _). exact H. }
  split.
  - apply Hnet0; vm_compute; reflexivity.
  - apply Hok. unfold planned_commands. cbn [app].
    repeat (constructor; [vm_compute; reflexivity|]). constructor.
Defined.

(** The request schema of the route refuses a VLAN of 0; [provisionVM]
    itself resolves it like any other defined value. *)
Example vlan_zero_outside_schema :
  ProvisionOptions.schema_ok (sample_request "debian12" (Some 0) None) = false
  /\ resolvedVlan (sample_config (Some 50) 1 "10G")
       (sample_request "debian12" (Some 0) None) = Ok 0.
Proof. split; reflexivity. Qed.

(** X13.  Once an identifier is allocated and the template is known,
    provisioning succeeds exactly when every planned command succeeds; a
    failure of the status record in the database never changes the outcome.
    On success the result carries the allocated identifier and status
    [running], all planned commands were issued in order and nothing was
    stopped or destroyed, and the status update [running] reaches the database
    when the database call resolves.  On failure the error is the one of the
    first failing command, the clean-up follows the commands issued so far,
    and no status update is made. *)
Theorem provisionVM_outcome (config : AppConfig.t) (opts : ProvisionOptions.t)
    (w : World) (s s1 : State) (vmid : Z) (template : TemplateConfig.t) :
  getNextVMId w s = (Ok vmid, s1) ->
  ConfigManager.getTemplate config (ProvisionOptions.os opts) = Ok template ->
  exists networkConfig,
    ConfigManager.getNetworkConfig config (ProvisionOptions.os opts) = Ok networkConfig
    /\ let final :=
         finalConfig opts template (ConfigManager.getDefaults config) networkConfig in
       let plan := planned_commands (TemplateConfig.id template) vmid final in
       let r := provisionVM config opts w s in
       ((exists result, fst r = Ok result)
        <-> Forall (fun c => succeeded c w = true) plan)
       /\ (Forall (fun c => succeeded c w = true) plan ->
           fst r = Ok (provisionResult vmid final)
           /\ ProvisionResult.vmid (provisionResult vmid final) = vmid
           /\ ProvisionResult.status (provisionResult vmid final) = "running"
           /\ calls (snd r) = rev plan ++ calls s1
           /\ db_status (snd r)
              = (if db_ok w then (vmid, "running") :: db_status s1 else db_status s1))
       /\ (forall c,
             first_failure w plan = Some c ->
             fst r = Err (command_error w c)
             /\ calls (snd r)
                = cleanup_commands w vmid ++ rev (issued_until_failure w plan) ++ calls s1
             /\ db_status (snd r) = db_status s1).
Proof.
  intros Halloc Htemplate.
  destruct (getNetworkConfig_after_template _ _ _ Htemplate) as [networkConfig Hnet].
  exists networkConfig. split; [exact Hnet|]. cbv zeta.
  rewrite provisionVM_unfold, Halloc, Htemplate, Hnet. cbv zeta.
  rewrite pipeline_run.
  set (final := finalConfig opts template (ConfigManager.getDefaults config) networkConfig).
  pose proof (first_failure_none w (planned_commands (TemplateConfig.id template) vmid final))
    as Hnone.
  pose proof (first_failure_spec w (planned_commands (TemplateConfig.id template) vmid final))
    as Hspec.
  generalize dependent (planned_commands (TemplateConfig.id template) vmid final).
  intros plan Hnone Hspec.
  destruct (first_failure w plan) as [c|].
  - split; [|split].
    + split; [intros [result H]; discriminate H|].
      intros H. apply Hnone in H. discriminate H.
    + intros H. apply Hnone in H. discriminate H.
    + intros c' [= <-]. split; [reflexivity|].
      split; [destruct s1; reflexivity | destruct s1; reflexivity].
  - destruct Hspec as [Hissued _]. rewrite Hissued. split; [|split].
    + split; [intros _; apply Hnone; reflexivity | intros _; eexists; reflexivity].
    + intros _. split; [reflexivity|]. split; [reflexivity|]. split; [reflexivity|].
      split; destruct s1; reflexivity.
    + intros c H. discriminate H.
Qed.

Lemma provisionVM_outcome_witness :
  let config := sample_config (Some 50) 1 "10G" in
  let opts := sample_request "debian12" (Some 100) (Some "50G") in
  let s1 := snd (getNextVMId failing_world (fresh_process None)) in
  getNextVMId failing_world (fresh_process None) = (Ok 1001, s1)
  /\ ConfigManager.getTemplate config (ProvisionOptions.os opts)
     = Ok (sample_template (Some 50))
  /\ exists networkConfig,
       ConfigManager.getNetworkConfig config (ProvisionOptions.os opts) = Ok networkConfig
       /\ ((exists result, fst (provisionVM config opts failing_world (fresh_process None))
                           = Ok result)
           <-> Forall (fun c => succeeded c failing_world = true)
                 (planned_commands (TemplateConfig.id (sample_template (Some 50))) 1001
                    (finalConfig opts (sample_template (Some 50))
                       (ConfigManager.getDefaults config) networkConfig))).
Proof.
  cbv zeta.
  assert (Halloc : getNextVMId failing_world (fresh_process None)
                   = (Ok 1001, snd (getNextVMId failing_world (fresh_process None))))
    by (vm_compute; reflexivity).
  assert (Htemplate :
    ConfigManager.getTemplate (sample_config (Some 50) 1 "10G")
      (ProvisionOptions.os (sample_request "debian12" (Some 100) (Some "50G")))
    = Ok (sample_template (Some 50))) by (vm_compute; reflexivity).
  split; [exact Halloc|]. split; [exact Htemplate|].
  destruct (provisionVM_outcome _ _ _ _ _ _ _ Halloc Htemplate)
    as (networkConfig & Hnet & Hiff & _).
  exists networkConfig. split; [exact Hnet | exact Hiff].
Defined.

(** X14.  In a provisioning run with no other call interleaved, an
    allocated identifier is consumed whatever happens next: when the allocator
    started from a counter whose window of 1000 candidates consists of safe
    integers (read, on first use, from a counter file of ASCII text with a
    safe integer) and returned [vmid], the counter in memory is [vmid + 1] after
    [provisionVM] and the counter file and the cache are as the allocator left
    them, whether the template lookup throws, a command fails and the clean-up
    runs, or the machine is started.  The steps after the allocation never
    write the counter, the counter file or the cache. *)
Theorem provisionVM_consumes_identifier (config : AppConfig.t)
    (opts : ProvisionOptions.t) (w : World) (s s1 : State) (start vmid : Z) :
  (nextId s = None -> exact_file s) ->
  nextId (snd (prepare w s)) = Some start ->
  safe_window start ->
  getNextVMId w s = (Ok vmid, s1) ->
  let s' := snd (provisionVM config opts w s) in
  start <= vmid < start + 1000
  /\ safe_integer (vmid + 1)
  /\ nextId s' = Some (vmid + 1)
  /\ nextId s' = nextId s1
  /\ counter_file s' = counter_file s1
  /\ vmCache s' = vmCache s1
  /\ cacheExpiry s' = cacheExpiry s1.
Proof.
  intros _ Hstart Hsafe Halloc. cbv zeta.
  pose proof (getNextVMId_window w s start vmid s1 Hstart Halloc) as Hv.
  destruct (safe_window_bounds start vmid Hsafe Hv) as [_ Hsafe'].
  destruct (getNextVMId_ok w s vmid s1 Halloc) as (start' & _ & _ & Hn & _).
  split; [exact Hv|]. split; [exact Hsafe'|].
  rewrite provisionVM_unfold, Halloc.
  destruct (ConfigManager.getTemplate _ _) as [template|e];
    [|simpl; rewrite Hn; repeat split; reflexivity].
  destruct (ConfigManager.getNetworkConfig _ _) as [networkConfig|e];
    [|simpl; rewrite Hn; repeat split; reflexivity].
  cbv zeta. rewrite pipeline_run.
  destruct (first_failure w _); cbn [snd]; rewrite <- Hn; destruct s1;
    (split; [reflexivity|]); (split; [reflexivity|]); (split; [reflexivity|]);
    split; reflexivity.
Qed.

Lemma provisionVM_consumes_identifier_witness :
  let config := sample_config (Some 50) 1 "10G" in
  let opts := sample_request "debian12" (Some 100) (Some "50G") in
  let s1 := snd (getNextVMId failing_world (fresh_process None)) in
  (nextId (fresh_process None) = None -> exact_file (fresh_process None))
  /\ nextId (snd (prepare failing_world (fresh_process None))) = Some 1001
  /\ safe_window 1001
  /\ getNextVMId failing_world (fresh_process None) = (Ok 1001, s1)
  /\ (exists e, fst (provisionVM config opts failing_world (fresh_process None)) = Err e)
  /\ nextId (snd (provisionVM config opts failing_world (fresh_process None)))
     = Some (1001 + 1).
Proof.
  cbv zeta.
  assert (Hstart : nextId (snd (prepare failing_world (fresh_process None))) = Some 1001)
    by (vm_compute; reflexivity).
  assert (Hsafe : safe_window 1001)
    by (unfold safe_window, safe_integer, MAX_SAFE_INTEGER; lia).
  assert (Halloc : getNextVMId failing_world (fresh_process None)
                   = (Ok 1001, snd (getNextVMId failing_world (fresh_process None))))
    by (vm_compute; reflexivity).
  assert (Hexact : nextId (fresh_process None) = None -> exact_file (fresh_process None))
    by (intros _ data H; discriminate H).
  split; [exact Hexact|].
  split; [exact Hstart|]. split; [exact Hsafe|].
  split; [exact Halloc|]. split; [eexists; vm_compute; reflexivity|].
  exact (proj1 (proj2 (proj2 (provisionVM_consumes_identifier
                                (sample_config (Some 50) 1 "10G")
                                (sample_request "debian12" (Some 100) (Some "50G"))
                                failing_world _ _ 1001 1001 Hexact Hstart Hsafe Halloc)))).
Defined.

End Pipeline.

(** ** Authentication *)

Section Authentication.
Import JSString Auth.

Lemma includes_In xs x : includes xs x = true <-> In x xs.
Proof.
  unfold includes. rewrite existsb_exists. split.
  - intros (y & Hy & Heq). apply String.eqb_eq in Heq. subst y. exact Hy.
  - intros H. exists x. split; [exact H | apply String.eqb_refl].
Qed.

Lemma split_cons sep s : exists l ls, split sep s = l :: ls.
Proof.
  induction s as [|c s (l & ls & IH)]; simpl; [eauto|].
  rewrite IH. destruct (Ascii.eqb c sep); eauto.
Qed.

Lemma production_dec (mode : option string) :
  (match mode with Some m => String.eqb m "production" | None => false end) = true
  <-> mode = Some "production".
Proof.
  destruct mode as [m|]; [|split; discriminate].
  rewrite String.eqb_eq. split; congruence.
Qed.

(** The tokens [getValidTokens] returns, as far as a non-empty token goes. *)
Lemma getValidTokens_In env token :
  token <> EmptyString ->
  (exists tokens, getValidTokens env = Ok tokens /\ In token tokens)
  <-> configured env token \/ development_fallback env token.
Proof.
  intros Hne. unfold getValidTokens, configured, development_fallback, unset.
  destruct env as [a l m]. cbn [API_TOKEN API_TOKENS NODE_ENV] in *.
  assert (Hlisted : forall listed,
             In token (map JS.trim (split "," listed)) -> listed <> EmptyString).
  { intros listed Hin ->. simpl in Hin. destruct Hin as [H|[]].
    apply Hne. symmetry. exact H. }
  assert (Hmode :
    (match m with Some mode => String.eqb mode "production" | None => false end = true
     /\ m = Some "production")
    \/ (match m with Some mode => String.eqb mode "production" | None => false end = false
        /\ m <> Some "production")).
  { destruct m as [mode|]; [|right; split; [reflexivity | discriminate]].
    destruct (String.eqb_spec mode "production") as [->|Hmode];
      [left; split; reflexivity | right; split; [reflexivity | congruence]]. }
  destruct Hmode as [[-> Hmode]|[-> Hmode]].
  all: destruct a as [[|c a]|], l as [[|c' l]|].
  all: try (destruct (split_cons "," (String c' l)) as (x & xs & Hsplit); rewrite Hsplit).
  all: cbn [JS.str_truthy app map length Nat.eqb negb andb].
  all: split.
  all: try match goal with
           | |- (exists _, _) -> _ =>
               intros (tokens & Heq & Hin); try discriminate Heq; injection Heq as <-;
               simpl in Hin;
               first
                 [ solve [right; destruct Hin as [<-|[]]; repeat split; auto]
                 | solve [left; destruct Hin as [<-|Hin];
                          [left; split; [assumption | reflexivity]
                          |right; eexists; split;
                           [reflexivity | rewrite Hsplit; simpl; exact Hin]]]
                 | solve [left; left; destruct Hin as [<-|[]];
                          split; [assumption | reflexivity]]
                 | solve [left; right; eexists; split;
                          [reflexivity | rewrite Hsplit; simpl; exact Hin]] ]
           end.
  all: intros [[[_ Ha] | (listed & Hl & Hin)] | (-> & H1 & H2 & Hm')].
  all: try discriminate Ha; try discriminate Hl; try contradiction.
  all: try (injection Ha as <-); try (injection Hl as <-).
  all: try solve [exfalso; apply Hne; reflexivity].
  all: try solve [exfalso; apply (Hlisted _ Hin); reflexivity].
  all: try solve [destruct H1 as [H1|H1]; discriminate H1].
  all: try solve [destruct H2 as [H2|H2]; discriminate H2].
  all: try (rewrite Hsplit in Hin; simpl in Hin).
  all: solve [eexists; split; [reflexivity | simpl; tauto]].
Qed.

Lemma getValidTokens_Err env :
  (exists e, getValidTokens env = Err e)
  <-> unset (API_TOKEN env) /\ unset (API_TOKENS env)
      /\ NODE_ENV env = Some "production".
Proof.
  unfold getValidTokens, unset.
  destruct env as [a l m]. cbn [API_TOKEN API_TOKENS NODE_ENV] in *.
  assert (Hmode :
    (match m with Some mode => String.eqb mode "production" | None => false end = true
     /\ m = Some "production")
    \/ (match m with Some mode => String.eqb mode "production" | None => false end = false
        /\ m <> Some "production")).
  { destruct m as [mode|]; [|right; split; [reflexivity | discriminate]].
    destruct (String.eqb_spec mode "production") as [->|Hmode];
      [left; split; reflexivity | right; split; [reflexivity | congruence]]. }
  destruct Hmode as [[-> Hmode]|[-> Hmode]].
  all: destruct a as [[|c a]|], l as [[|c' l]|].
  all: try (destruct (split_cons "," (String c' l)) as (x & xs & Hsplit); rewrite Hsplit).
  all: cbn [JS.str_truthy app map length Nat.eqb negb andb].
  all: split.
  all: try (intros [e He]; discriminate He).
  all: try (intros (H1 & H2 & H3);
            first [ contradiction
                  | destruct H1 as [H1|H1]; discriminate H1
                  | destruct H2 as [H2|H2]; discriminate H2
                  | eexists; reflexivity ]).
  all: intros _; repeat split; auto.
Qed.

(** The hook decides on the presented token alone. *)
Lemma authenticateToken_presented env headers :
  authenticateToken env headers
  = match presented headers with
    | Some token =>
        if JS.str_truthy token then
          match getValidTokens env with
          | Ok validTokens =>
              if includes validTokens token then Passed token
              else Replied 403 "Access denied. Invalid token."
          | Err _ => Replied 500 "Internal authentication error."
          end
        else Replied 401 no_token_message
    | None => Replied 401 no_token_message
    end.
Proof.
  unfold authenticateToken, presented.
  destruct headers as [[[|c a]|] [[|c' k]|]]; cbn [authorization x_api_key JS.str_truthy];
    try reflexivity.
  all: destruct (JS.strip_prefix "Bearer " (String c a)) as [[|c1 rest]|]; reflexivity.
Qed.

(** A request that is let through presented the token recorded, and
    that token is not empty. *)
Lemma Passed_presented env headers token :
  authenticateToken env headers = Passed token ->
  presented headers = Some token /\ token <> EmptyString.
Proof.
  rewrite authenticateToken_presented.
  destruct (presented headers) as [[|c t]|]; cbn [JS.str_truthy]; try discriminate.
  destruct (getValidTokens env) as [validTokens|e]; [|discriminate].
  destruct (includes validTokens (String c t)); [|discriminate].
  intros [= <-]. split; [reflexivity | discriminate].
Qed.

(** A non-empty token that is presented is let through exactly when
    [getValidTokens] lists it. *)
Lemma presented_Passed env headers token :
  presented headers = Some token ->
  token <> EmptyString ->
  authenticateToken env headers = Passed token
  <-> configured env token \/ development_fallback env token.
Proof.
  intros Hp Hne. rewrite authenticateToken_presented, Hp.
  pose proof (getValidTokens_In env token Hne) as Hin.
  destruct token as [|c t]; [exfalso; apply Hne; reflexivity|]. cbn [JS.str_truthy].
  destruct (getValidTokens env) as [validTokens|e].
  - destruct (includes validTokens (String c t)) eqn:Hincl.
    + apply includes_In in Hincl. split; [|reflexivity].
      intros _. apply Hin. exists validTokens. split; [reflexivity | exact Hincl].
    + split; [discriminate|]. intros Hconf.
      apply Hin in Hconf as (tokens & [= <-] & Hmem).
      apply includes_In in Hmem. congruence.
  - split; [discriminate|]. intros Hconf.
    apply Hin in Hconf as (tokens & Heq & _). discriminate Heq.
Qed.

(** X15.  The hook lets a request through exactly when the token it
    presents (the rest of an [Authorization: Bearer ] header, or else the
    [x-api-key] header) is not empty and is a configured one: the value of
    [API_TOKEN], one of the comma-separated, trimmed entries of [API_TOKENS]
    or, when neither variable is set and the mode is not production, the
    development token.  The token it records is the one presented. *)
Theorem authenticateToken_passes_iff (env : Env) (headers : Headers) (token : string) :
  authenticateToken env headers = Passed token
  <-> presented headers = Some token
      /\ token <> EmptyString
      /\ (configured env token \/ development_fallback env token).
Proof.
  split.
  - intros H. destruct (Passed_presented env headers token H) as [Hp Hne].
    split; [exact Hp|]. split; [exact Hne|].
    apply (presented_Passed env headers token Hp Hne). exact H.
  - intros (Hp & Hne & Hconf). apply (presented_Passed env headers token Hp Hne).
    exact Hconf.
Qed.

(** X16.  With neither [API_TOKEN] nor [API_TOKENS] set: in production no
    request is let through, a request without a token is answered with 401
    and one with a token with 500; in any other mode exactly the requests
    presenting the development token are let through.  A non-empty
    [API_TOKENS] whose entries are all blank switches the development token
    off and lets no request through in any mode. *)
Theorem unconfigured_environment (env : Env) (headers : Headers) :
  unset (API_TOKEN env) ->
  (unset (API_TOKENS env) ->
   (NODE_ENV env = Some "production" ->
    (forall token, authenticateToken env headers <> Passed token)
    /\ authenticateToken env headers
       = match presented headers with
         | Some (String _ _) => Replied 500 "Internal authentication error."
         | _ => Replied 401 no_token_message
         end)
   /\ (NODE_ENV env <> Some "production" ->
       forall token,
         authenticateToken env headers = Passed token
         <-> token = "dev-token-123" /\ presented headers = Some token))
  /\ (forall listed,
        API_TOKENS env = Some listed ->
        listed <> EmptyString ->
        (forall entry, In entry (JSString.split "," listed) -> JS.trim entry = EmptyString) ->
        forall token, authenticateToken env headers <> Passed token).
Proof.
  intros Htoken. split; [intros Htokens; split|].
  - intros Hprod.
    destruct (proj2 (getValidTokens_Err env) (conj Htoken (conj Htokens Hprod)))
      as [e He].
    rewrite authenticateToken_presented, He.
    destruct (presented headers) as [[|c t]|]; cbn [JS.str_truthy];
      (split; [intros token; discriminate | reflexivity]).
  - intros Hmode token. split.
    + intros H. destruct (Passed_presented env headers token H) as [Hp Hne].
      apply (presented_Passed env headers token Hp Hne) in H.
      destruct H as [[[_ Ha]|(listed & Hl & Hin)]|(Hdev & _)].
      * destruct Htoken as [H|H]; rewrite H in Ha; [discriminate Ha|].
        injection Ha as <-. exfalso; apply Hne; reflexivity.
      * destruct Htokens as [H|H]; rewrite H in Hl; [discriminate Hl|].
        injection Hl as <-. simpl in Hin. destruct Hin as [Hin|[]].
        exfalso. apply Hne. symmetry. exact Hin.
      * split; assumption.
    + intros [-> Hp]. apply (presented_Passed env headers _ Hp); [discriminate|].
      right. repeat split; assumption.
  - intros listed Hl Hne Hblank token H.
    destruct (Passed_presented env headers token H) as [Hp Hne'].
    apply (presented_Passed env headers token Hp Hne') in H.
    destruct H as [[[_ Ha]|(listed' & Hl' & Hin)]|(_ & _ & Hu & _)].
    + destruct Htoken as [H|H]; rewrite H in Ha; [discriminate Ha|].
      injection Ha as <-. exfalso; apply Hne'; reflexivity.
    + rewrite Hl in Hl'. injection Hl' as <-.
      apply in_map_iff in Hin as (entry & Htrim & Hentry).
      rewrite (Hblank entry Hentry) in Htrim. apply Hne'. symmetry. exact Htrim.
    + destruct Hu as [H|H]; rewrite H in Hl; [discriminate Hl|].
      injection Hl as <-. exfalso; apply Hne; reflexivity.
Qed.

Lemma unconfigured_environment_witness :
  let env := {| API_TOKEN := None; API_TOKENS := Some " , "; NODE_ENV := None |} in
  let headers := {| authorization := Some "Bearer dev-token-123"; x_api_key := None |} in
  unset (API_TOKEN env)
  /\ API_TOKENS env = Some " , "
  /\ (forall entry, In entry (JSString.split "," " , ") -> JS.trim entry = EmptyString)
  /\ forall token, authenticateToken env headers <> Passed token.
Proof.
  cbv zeta.
  assert (Hblank : forall entry, In entry (JSString.split "," " , ") -> JS.trim entry = EmptyString).
  { intros entry H. vm_compute in H. destruct H as [<-|[<-|[]]]; reflexivity. }
  split; [left; reflexivity|]. split; [reflexivity|]. split; [exact Hblank|].
  refine (proj2 (unconfigured_environment
                   {| API_TOKEN := None; API_TOKENS := Some " , "; NODE_ENV := None |}
                   {| authorization := Some "Bearer dev-token-123"; x_api_key := None |}
                   (or_introl eq_refl)) " , " eq_refl _ Hblank).
  discriminate.
Defined.

Lemma all_chars_app p s t :
  all_chars p (s +:+ t) = all_chars p s && all_chars p t.
Proof.
  induction s as [|c s IH]; [reflexivity|]. simpl. rewrite IH, andb_assoc. reflexivity.
Qed.

Lemma length_app_string s t :
  String.length (s +:+ t) = (String.length s + String.length t)%nat.
Proof. induction s as [|c s IH]; [reflexivity|]. simpl. rewrite IH. reflexivity. Qed.

(** Every index below the length of the character set selects one
    character, a letter or a digit. *)
Lemma charAt_charset i :
  (i < 62)%nat ->
  String.length (charAt charset i) = 1%nat /\ all_chars alnum (charAt charset i) = true.
Proof.
  intros H. do 62 (destruct i as [|i]; [split; reflexivity|]). lia.
Qed.

Lemma generate_from_spec random :
  (forall i, (random i < 62)%nat) ->
  forall n i token,
    String.length (generate_from random i n token) = (String.length token + n)%nat
    /\ all_chars alnum (generate_from random i n token) = all_chars alnum token.
Proof.
  intros Hrandom. induction n as [|n IH]; intros i token; simpl.
  - split; [lia | reflexivity].
  - destruct (IH (S i) (token +:+ charAt charset (random i))) as [Hlen Hall].
    destruct (charAt_charset (random i) (Hrandom i)) as [Hlen1 Hall1].
    rewrite Hlen, Hall, length_app_string, all_chars_app, Hlen1, Hall1.
    split; [lia | apply andb_true_r].
Qed.

(** X17.  Whatever [Math.random] draws, [generateAPIToken(length)] returns
    [length] characters (none for a negative [length]), all of them letters
    or digits, so [isValidTokenFormat] accepts the token exactly when [length]
    is at least 16; the token of the default length is always accepted. *)
Theorem generated_token_format (random : nat -> nat) (length : Z) :
  (forall i, (random i < 62)%nat) ->
  String.length (generateAPIToken random (Some length)) = Z.to_nat length
  /\ all_chars alnum (generateAPIToken random (Some length)) = true
  /\ isValidTokenFormat (generateAPIToken random (Some length)) = (16 <=? length)
  /\ isValidTokenFormat (generateAPIToken random None) = true.
Proof.
  intros Hrandom. unfold generateAPIToken, isValidTokenFormat.
  destruct (generate_from_spec random Hrandom (Z.to_nat length) 0%nat EmptyString)
    as [Hlen Hall].
  destruct (generate_from_spec random Hrandom (Z.to_nat 32) 0%nat EmptyString)
    as [Hlen32 Hall32].
  rewrite Hlen, Hall, Hlen32, Hall32. cbn [String.length all_chars Nat.add andb].
  split; [reflexivity|]. split; [reflexivity|]. split; [|reflexivity].
  destruct (Z.leb_spec 16 length) as [H|H].
  - apply Nat.leb_le. lia.
  - apply Nat.leb_gt. lia.
Qed.

Lemma generated_token_format_witness :
  (forall i : nat, ((fun i => (i * 7) mod 62) i < 62)%nat)
  /\ generateAPIToken (fun i => (i * 7) mod 62)%nat (Some 5) = "AHOVc"
  /\ isValidTokenFormat (generateAPIToken (fun i => (i * 7) mod 62)%nat (Some 5)) = false
  /\ isValidTokenFormat (generateAPIToken (fun i => (i * 7) mod 62)%nat None) = true.
Proof.
  assert (H : forall i : nat, ((fun i => (i * 7) mod 62) i < 62)%nat)
    by (intros i; apply Nat.mod_upper_bound; lia).
  destruct (generated_token_format (fun i => (i * 7) mod 62)%nat 5 H)
    as (_ & _ & Hformat & Hdefault).
  split; [exact H|]. split; [vm_compute; reflexivity|].
  split; [exact Hformat | exact Hdefault].
Defined.

End Authentication.

(** ** Operations on an existing machine *)

Section Operations.
Import Lifecycle.

Lemma runCommand_run c h l :
  runCommand c h l
  = (if succeeded c h then
       Resolved (JS.trim (match exec h c with Exited _ out _ => out | ExecFailed => EmptyString end))
     else Rejected (command_error h c),
     {| calls := c :: calls l; db_status := db_status l |}).
Proof.
  unfold runCommand, succeeded, command_error.
  destruct (exec h c) as [code out err|]; [|reflexivity].
  destruct (Z.eqb code 0); reflexivity.
Qed.

Lemma or_true_succeeded c h :
  succeeded (OrTrue c) h = match exec h c with Exited _ _ _ => true | ExecFailed => false end.
Proof. unfold succeeded. simpl. destruct (exec h c); reflexivity. Qed.

(** X18.  [deleteVM] always attempts the destroy, after one attempt to
    stop the machine: whether the stop command fails, or cannot be run at
    all, does not matter.  It resolves exactly when the destroy command
    succeeds, rejects with the error of the destroy command otherwise, and
    makes no status update. *)
Theorem deleteVM_attempts_destroy (vmid : Z) (h : Host) (l : Log) :
  calls (snd (deleteVM vmid h l))
  = QmDestroySkiplock vmid :: OrTrue (QmStop vmid) :: calls l
  /\ db_status (snd (deleteVM vmid h l)) = db_status l
  /\ fst (deleteVM vmid h l)
     = (if succeeded (QmDestroySkiplock vmid) h then Resolved tt
        else Rejected (command_error h (QmDestroySkiplock vmid))).
Proof.
  unfold deleteVM, bind, try_catch, ret. rewrite !runCommand_run.
  destruct (succeeded (OrTrue (QmStop vmid)) h);
    cbn [fst snd]; rewrite runCommand_run;
    destruct (succeeded (QmDestroySkiplock vmid) h); repeat split; reflexivity.
Qed.

(** X19.  Stopping, starting and restarting a machine issue one command;
    the operation resolves exactly when that command succeeds and rejects with
    its error otherwise, whatever the database answers.  The status update
    ([stopped] after a stop, [running] after a start or restart) is made only
    after a successful command, and reaches the database only if the database
    call resolves; a reset makes no status update. *)
Theorem power_operation_outcome (op : power) (vmid : Z) (h : Host) (l : Log) :
  let c := power_command op vmid in
  calls (snd (power_run op vmid h l)) = c :: calls l
  /\ fst (power_run op vmid h l)
     = (if succeeded c h then Resolved tt else Rejected (command_error h c))
  /\ db_status (snd (power_run op vmid h l))
     = (if succeeded c h && db_ok h then (vmid, power_status op) :: db_status l
        else db_status l)
  /\ (forall ok, fst (power_run op vmid (with_db ok h) l) = fst (power_run op vmid h l))
  /\ db_status (snd (resetVM vmid h l)) = db_status l.
Proof.
  cbv zeta.
  assert (Hreset : db_status (snd (resetVM vmid h l)) = db_status l).
  { unfold resetVM, bind, ret. rewrite runCommand_run.
    destruct (succeeded (QmReset vmid) h); reflexivity. }
  assert (Hdb : forall ok c, succeeded c (with_db ok h) = succeeded c h
                             /\ command_error (with_db ok h) c = command_error h c).
  { intros ok c. unfold succeeded, command_error.
    assert (He : exec (with_db ok h) c = exec h c).
    { induction c; simpl; try reflexivity. rewrite IHc. reflexivity. }
    rewrite He. split; reflexivity. }
  destruct op; cbn [power_run power_command power_status];
    unfold stopVM, startVMById, restartVM, bind, try_catch, ret, updateVMStatus.
  all: split; [rewrite runCommand_run;
               destruct (succeeded _ h); cbn [fst snd calls];
               destruct (db_ok h); reflexivity|].
  all: split; [rewrite runCommand_run;
               destruct (succeeded _ h); cbn [fst snd calls];
               destruct (db_ok h); reflexivity|].
  all: split; [rewrite runCommand_run;
               destruct (succeeded _ h); cbn [fst snd calls andb];
               destruct (db_ok h); reflexivity|].
  all: split; [|exact Hreset].
  all: intros ok; rewrite !runCommand_run, (fun c => proj1 (Hdb ok c));
    destruct (succeeded _ h); rewrite ?(fun c => proj2 (Hdb ok c));
    cbn [fst snd calls db_ok with_db];
    destruct ok, (db_ok h); reflexivity.
Qed.

Lemma split_no_space s : Forall (fun field => no_space field = true) (JSString.split " " s).
Proof.
  induction s as [|c s IH]; simpl; [repeat constructor|].
  destruct (split_cons " " s) as (field & fields & Hs). rewrite Hs in *.
  inversion IH as [|? ? Hfield Hfields]; subst.
  destruct (Ascii.eqb c " ") eqn:Hc.
  - constructor; [reflexivity | constructor; assumption].
  - constructor; [|assumption]. unfold no_space in *. simpl. rewrite Hc, Hfield. reflexivity.
Qed.

Lemma split_no_sep s : no_space s = true -> JSString.split " " s = [s].
Proof.
  unfold no_space. induction s as [|c s IH]; [reflexivity|]. simpl. intros H.
  apply andb_prop in H as [Hc Hs]. rewrite (IH Hs).
  apply negb_true_iff in Hc. rewrite Hc. reflexivity.
Qed.

Lemma split_field first tail :
  no_space first = true ->
  JSString.split " " (first +:+ " " +:+ tail) = first :: JSString.split " " tail.
Proof.
  unfold no_space. induction first as [|c first IH]; intros H.
  - change (EmptyString +:+ " " +:+ tail) with (String " " tail).
    cbn [JSString.split]. destruct (split_cons " " tail) as (l & ls & ->). reflexivity.
  - simpl in H. apply andb_prop in H as [Hc Hs]. apply negb_true_iff in Hc.
    change (String c first +:+ " " +:+ tail) with (String c (first +:+ " " +:+ tail)).
    cbn [JSString.split]. rewrite (IH Hs), Hc. reflexivity.
Qed.

(** X20.  [getVMStatus] never rejects and always returns a non-empty word
    without a space: [not_found] when the command fails; when it succeeds
    with ASCII output, the second of the fields that single spaces separate in
    the trimmed output, or [unknown] when the output has no space or that
    field is empty.
    [getVMStats] issues the same single command; it rejects exactly when that
    word is [not_found], and otherwise reports that word for the machine
    asked for. *)
Theorem getVMStatus_word (vmid : Z) (h : Host) (l : Log) :
  exists status,
    fst (getVMStatus vmid h l) = Resolved status
    /\ status <> EmptyString
    /\ no_space status = true
    /\ (succeeded (QmStatus vmid) h = false -> status = "not_found")
    /\ (forall out err,
          sh h (QmStatus vmid) = Exited 0 out err ->
          ascii_text out ->
          status = JS.str_or (nth_error (JSString.split " " (JS.trim out)) 1) "unknown"
          /\ (no_space (JS.trim out) = true -> status = "unknown")
          /\ (forall first second,
                no_space first = true ->
                no_space second = true ->
                JS.trim out = first +:+ " " +:+ second
                \/ (exists rest, JS.trim out = first +:+ " " +:+ second +:+ " " +:+ rest) ->
                status = if JS.str_truthy second then second else "unknown"))
    /\ calls (snd (getVMStats vmid h l)) = QmStatus vmid :: calls l
    /\ fst (getVMStats vmid h l)
       = (if String.eqb status "not_found"
          then Rejected (JsError ("VM " +:+ JS.toString vmid +:+ " not found"))
          else Resolved {| stats_vmid := vmid; stats_status := status;
                           stats_timestamp := iso_time h |}).
Proof.
  assert (Hword : forall output,
             JS.str_or (nth_error (JSString.split " " output) 1) "unknown" <> EmptyString
             /\ no_space (JS.str_or (nth_error (JSString.split " " output) 1) "unknown") = true).
  { intros output. unfold JS.str_or.
    destruct (nth_error (JSString.split " " output) 1) as [[|c field]|] eqn:Hnth;
      cbn [JS.str_truthy]; try (split; [discriminate | reflexivity]).
    split; [discriminate|].
    apply nth_error_In in Hnth.
    pose proof (split_no_space output) as Hall.
    rewrite List.Forall_forall in Hall. apply Hall. exact Hnth. }
  assert (Hfields : forall output first second,
             no_space first = true ->
             no_space second = true ->
             output = first +:+ " " +:+ second
             \/ (exists rest, output = first +:+ " " +:+ second +:+ " " +:+ rest) ->
             JS.str_or (nth_error (JSString.split " " output) 1) "unknown"
             = if JS.str_truthy second then second else "unknown").
  { intros output first second Hf Hs [->|[rest ->]].
    - rewrite (split_field first second Hf), (split_no_sep second Hs). reflexivity.
    - rewrite (split_field first _ Hf), (split_field second rest Hs). reflexivity. }
  unfold getVMStats, getVMStatus, bind, try_catch, ret, throw.
  rewrite runCommand_run. unfold succeeded. cbn [exec].
  destruct (sh h (QmStatus vmid)) as [code out err|] eqn:Hsh.
  - destruct (Z.eqb code 0) eqn:Hcode; cbn [fst snd].
    + destruct (Hword (JS.trim out)) as [Hne Hsp].
      exists (JS.str_or (nth_error (JSString.split " " (JS.trim out)) 1) "unknown").
      split; [reflexivity|]. split; [exact Hne|]. split; [exact Hsp|].
      split; [discriminate|]. split.
      * intros out' err' [= _ <- _] _. split; [reflexivity|]. split.
        -- intros H. rewrite (split_no_sep _ H). reflexivity.
        -- intros first second Hf Hs Hout. exact (Hfields _ first second Hf Hs Hout).
      * destruct (String.eqb _ "not_found"); split; reflexivity.
    + exists "not_found". split; [reflexivity|]. split; [discriminate|].
      split; [reflexivity|]. split; [reflexivity|]. split.
      * intros out' err' [= -> _ _] _. discriminate Hcode.
      * split; reflexivity.
  - exists "not_found". split; [reflexivity|]. split; [discriminate|].
    split; [reflexivity|]. split; [reflexivity|]. split.
    + intros out' err' H _. discriminate H.
    + split; reflexivity.
Qed.

(** On a host whose [qm status] prints [status: running], the status is
    [running] and the statistics report it. *)
Lemma getVMStatus_word_witness :
  sh running_host (QmStatus 100) = Exited 0 "status: running
" EmptyString
  /\ fst (getVMStatus 100 running_host {| calls := []; db_status := [] |})
     = Resolved "running"
  /\ fst (getVMStats 100 running_host {| calls := []; db_status := [] |})
     = Resolved {| stats_vmid := 100; stats_status := "running";
                   stats_timestamp := "2024-01-01T00:00:00.000Z" |}.
Proof.
  destruct (getVMStatus_word 100 running_host {| calls := []; db_status := [] |})
    as (status & Hstatus & _ & _ & _ & Hout & _ & Hstats).
  destruct (Hout _ _ eq_refl eq_refl) as (_ & _ & Hfields).
  assert (Hrunning : status = "running").
  { apply (Hfields "status:" "running"); [reflexivity | reflexivity | left; reflexivity]. }
  subst status.
  split; [reflexivity|]. split; [exact Hstatus | exact Hstats].
Defined.

End Operations.
